(** * Verification of [core/new_trainer.py]

    [do_train] runs one epoch of a teacher/student training loop for a
    multi-stage pose network.  The model, the teacher, the loss factory, the
    optimizer, the TensorBoard writer and the meters are objects of the
    deep-learning framework: they are taken as parameters, and every call the
    trainer makes on them is recorded, in order, in a trace.  The control flow
    of the trainer (loops, guards, indexing, the exceptions Python raises) is
    embedded as it is written.

    Conventions of the model:
    - a loss is the expression the trainer builds from the tensors the loss
      factory returned, with the Python numbers [0], [0.5] and [1 - 0.5] of
      the source as binary64 floats and integers;
    - the student and the teacher are two distinct objects, each with its own
      train/eval mode;
    - calls into the framework ([model(...)], [loss_factory(...)],
      [.mean(dim=0)], [.item()], [.cuda()], [add_scalar], ...) return
      normally; the exceptions modelled are those of the trainer's own
      indexing, modulo, division and attribute access;
    - [time.time()] reads a clock the trainer does not control: its
      successive readings are a parameter, and the state counts the readings
      made; the readings feed the [batch_time] and [data_time] meters and
      the division of line 113, and are not calls of the trace. *)

From Stdlib Require Import ZArith List String Ascii Bool Lia PeanoNat.
From Stdlib Require Import PrimFloat DecimalString DecimalNat DecimalZ.
Import ListNotations.

Local Open Scope string_scope.
Local Open Scope list_scope.

(** ** Configuration: the fields of [cfg] the trainer reads *)

Record LossCfg := { NUM_STAGES : Z }.
Record DatasetCfg := { OUTPUT_SIZE : list Z }.
Record Cfg := {
  LOSS : LossCfg;
  DATASET : DatasetCfg;
  PRINT_FREQ : Z;
  RANK : Z
}.

(** ** Python built-ins used by the trainer *)

(** [range(n)]: empty when [n <= 0]. *)
Definition range (n : Z) : list nat := seq 0 (Z.to_nat n).

(** [enumerate(xs)]. *)
Definition enumerate {A : Type} (xs : list A) : list (nat * A) :=
  combine (seq 0 (List.length xs)) xs.

(** ['{}'.format(n)] for an index and for an [int]. *)
Definition str_nat (n : nat) : string := NilEmpty.string_of_uint (Nat.to_uint n).
Definition str_int (z : Z) : string := NilEmpty.string_of_int (Z.to_int z).

Fixpoint ends_with_slash (s : string) : bool :=
  match s with
  | EmptyString => false
  | String c EmptyString => Ascii.eqb c "/"
  | String _ s' => ends_with_slash s'
  end.

(** [os.path.join(a, b)] on POSIX for a relative [b]. *)
Definition path_join (a b : string) : string :=
  match a with
  | EmptyString => b
  | _ => if ends_with_slash a then (a ++ b)%string else (a ++ "/" ++ b)%string
  end.

(** [xs[idx] = x] on a list; out of range is reported by the caller. *)
Fixpoint list_set {A : Type} (xs : list A) (idx : nat) (x : A) : list A :=
  match xs, idx with
  | [], _ => []
  | _ :: xs', O => x :: xs'
  | y :: xs', S idx' => y :: list_set xs' idx' x
  end.

(** The exceptions the trainer's own code can raise. *)
Inductive exn := IndexError | ZeroDivisionError | AttributeError.

Inductive result (A : Type) :=
| Ok (a : A)
| Raise (e : exn).
Arguments Ok {A} a.
Arguments Raise {A} e.

Inductive who := Student | Teacher.
Inductive meter_kind := Heatmaps | Push | Pull.

(** ** A sample run

    Data to run the trainer on: integers stand for tensors, a meter is the
    list of the updates it received (newest first), the networks return two
    output scales, and the loss factory returns, for two stages, a heatmaps
    and a push loss at stage 0 and, at stage 1, a push loss but no heatmaps
    loss. *)
Module Sample.

Definition cfg : Cfg :=
  {| LOSS := {| NUM_STAGES := 2 |};
     DATASET := {| OUTPUT_SIZE := [128; 256]%Z |};
     PRINT_FREQ := 2;
     RANK := 0 |}.

Definition meter : Type := list (Z * Z).
Definition meter_new : meter := [].
Definition meter_update (m : meter) (val n : Z) : meter := (val, n) :: m.
Definition meter_update1 (m : meter) (val : Z) : meter := (val, 1%Z) :: m.
Definition meter_val (m : meter) : Z :=
  match m with
  | [] => 0%Z
  | (val, _) :: _ => val
  end.

Definition mean0 (t : Z) : Z := (100 + t)%Z.
Definition item (t : Z) : Z := t.
Definition size0 (images : Z) : Z := 4%Z.
Definition cuda (t : Z) : Z := t.

Definition model (images : Z) : list Z := [images + 1; images + 2]%Z.
Definition other_model (images : Z) : list Z := [images + 3; images + 4]%Z.
Definition teacher (images : Z) : list Z := [images + 11; images + 12]%Z.
Definition other_teacher (images : Z) : list Z := [images + 21; images + 22]%Z.

Definition loss_factory (outputs heatmaps masks joints : list Z)
  : list (option Z) * list (option Z) * list (option Z) :=
  ([Some (nth 0 outputs 0%Z); None],
   [Some (nth 1 outputs 0%Z); Some 77%Z],
   [None; None]).

(** A loss factory with nothing to report, and a configuration that cannot
    be logged with. *)
Definition no_loss_factory (outputs heatmaps masks joints : list Z)
  : list (option Z) * list (option Z) * list (option Z) :=
  ([None; None], [Some 77%Z; None], [None; None]).

Definition cfg_print_freq_0 : Cfg :=
  {| LOSS := {| NUM_STAGES := 2 |};
     DATASET := {| OUTPUT_SIZE := [128; 256]%Z |};
     PRINT_FREQ := 0;
     RANK := 0 |}.

(** A clock that advances by one between two readings, and one that does
    not advance at all. *)
Definition clock (n : nat) : Z := (1000 + Z.of_nat n)%Z.
Definition stopped_clock (n : nat) : Z := 1000%Z.
Definition scalar_sub (a b : Z) : Z := (a - b)%Z.
Definition scalar_is_zero (a : Z) : bool := (a =? 0)%Z.
Definition speed_of (n t : Z) : Z := (n / t)%Z.

Definition images : Z := 5%Z.
Definition heatmaps : list Z := [51; 52]%Z.
Definition masks : list Z := [61; 62]%Z.
Definition joints : list Z := [71; 72]%Z.

End Sample.

Section Trainer.

(** Framework-owned data: tensors, the Python floats read from them with
    [.item()], and [utils.utils.AverageMeter] with the members the trainer
    uses: [update(val, n)], [update(val)] with [n] left to the class, and
    [.val]. *)
Variable Tensor : Type.
Variable Scalar : Type.
Variable AverageMeter : Type.
Variable meter_new : AverageMeter.
Variable meter_update : AverageMeter -> Scalar -> Z -> AverageMeter.
Variable meter_update1 : AverageMeter -> Scalar -> AverageMeter.
Variable meter_val : AverageMeter -> Scalar.
Variable mean0 : Tensor -> Tensor.
Variable item : Tensor -> Scalar.
Variable size0 : Tensor -> Z.
Variable cuda : Tensor -> Tensor.

(** The wall clock: [clock n] is what the [n]-th call of [time.time()]
    returns.  On the Python floats: the subtraction, the test [t == 0.0],
    and [n / t] for an [int] [n] and a float [t] other than zero. *)
Variable clock : nat -> Scalar.
Variable scalar_sub : Scalar -> Scalar -> Scalar.
Variable scalar_is_zero : Scalar -> bool.
Variable speed_of : Z -> Scalar -> Scalar.

(** The value bound to [student_loss], [teacher_loss] and [loss]: the
    expression the trainer builds, which is also the graph automatic
    differentiation walks back.  Leaves are the Python numbers of the source
    and framework tensors. *)
Inductive loss_expr :=
| LInt (z : Z)
| LFloat (f : float)
| LTensor (t : Tensor)
| LAdd (a b : loss_expr)
| LMul (a b : loss_expr).

(** A sum or product is a tensor as soon as one operand is; otherwise it is
    a plain Python number, which has no [backward] attribute. *)
Fixpoint is_tensor (e : loss_expr) : bool :=
  match e with
  | LInt _ | LFloat _ => false
  | LTensor _ => true
  | LAdd a b | LMul a b => is_tensor a || is_tensor b
  end.

(** The tensors a loss is computed from. *)
Fixpoint leaves (e : loss_expr) : list Tensor :=
  match e with
  | LInt _ | LFloat _ => []
  | LTensor t => [t]
  | LAdd a b | LMul a b => leaves a ++ leaves b
  end.

(** The arguments of one ['Stage{i}-{name}: ...'] segment of the log line. *)
Definition loss_info : Type := (nat * string * AverageMeter)%type.

Record log_msg := {
  msg_epoch : Z;
  msg_i : nat;
  msg_len : nat;
  msg_batch_time : AverageMeter;
  msg_speed : Scalar;
  msg_data_time : AverageMeter;
  msg_heatmaps_loss : list loss_info;
  msg_push_loss : list loss_info;
  msg_pull_loss : list loss_info
}.

(** Calls on the externally supplied objects. *)
Inductive event :=
| ev_model_train
| ev_forward (w : who) (images : Tensor) (training grad : bool)
| ev_zero_grad
| ev_backward (fp16 : bool) (loss : loss_expr)
| ev_step
| ev_log_info (msg : log_msg)
| ev_add_scalar (tag : string) (value : Scalar) (global_steps : Z)
| ev_save_debug_images (images heatmap mask output : Tensor) (prefix : string).

(** The timing variables of [do_train]: the meters [batch_time] and
    [data_time], the variable [end], and the number of readings of the clock
    made so far. *)
Record timers := mk_timers {
  batch_time : AverageMeter;
  data_time : AverageMeter;
  end_ : Scalar;
  clock_reads : nat
}.

(** The mutable state [do_train] works on: its three meter lists,
    [writer_dict['train_global_steps']], the train/eval mode of the two
    networks and the ambient gradient mode of the framework, the trace of
    calls made so far, and the timing variables. *)
Record state := mk_state {
  heatmaps_loss_meter : list AverageMeter;
  push_loss_meter : list AverageMeter;
  pull_loss_meter : list AverageMeter;
  train_global_steps : Z;
  model_training : bool;
  teacher_training : bool;
  grad_enabled : bool;
  trace : list event;
  timing : timers
}.

Definition meters_of (k : meter_kind) (s : state) : list AverageMeter :=
  match k with
  | Heatmaps => heatmaps_loss_meter s
  | Push => push_loss_meter s
  | Pull => pull_loss_meter s
  end.

Definition set_meters (k : meter_kind) (ms : list AverageMeter) (s : state) : state :=
  match k with
  | Heatmaps =>
      mk_state ms (push_loss_meter s) (pull_loss_meter s) (train_global_steps s)
               (model_training s) (teacher_training s) (grad_enabled s) (trace s)
               (timing s)
  | Push =>
      mk_state (heatmaps_loss_meter s) ms (pull_loss_meter s) (train_global_steps s)
               (model_training s) (teacher_training s) (grad_enabled s) (trace s)
               (timing s)
  | Pull =>
      mk_state (heatmaps_loss_meter s) (push_loss_meter s) ms (train_global_steps s)
               (model_training s) (teacher_training s) (grad_enabled s) (trace s)
               (timing s)
  end.

Definition set_global_steps (z : Z) (s : state) : state :=
  mk_state (heatmaps_loss_meter s) (push_loss_meter s) (pull_loss_meter s) z
           (model_training s) (teacher_training s) (grad_enabled s) (trace s)
           (timing s).

Definition set_model_training (b : bool) (s : state) : state :=
  mk_state (heatmaps_loss_meter s) (push_loss_meter s) (pull_loss_meter s)
           (train_global_steps s) b (teacher_training s) (grad_enabled s) (trace s)
           (timing s).

Definition add_event (e : event) (s : state) : state :=
  mk_state (heatmaps_loss_meter s) (push_loss_meter s) (pull_loss_meter s)
           (train_global_steps s) (model_training s) (teacher_training s)
           (grad_enabled s) (trace s ++ [e]) (timing s).

Definition set_timing (t : timers) (s : state) : state :=
  mk_state (heatmaps_loss_meter s) (push_loss_meter s) (pull_loss_meter s)
           (train_global_steps s) (model_training s) (teacher_training s)
           (grad_enabled s) (trace s) t.

(** ** State and exception monad

    An exception stops the computation; what was done before it stays. *)
Definition M (A : Type) : Type := state -> state * result A.

Definition ret {A : Type} (a : A) : M A := fun s => (s, Ok a).

Definition bind {A B : Type} (m : M A) (k : A -> M B) : M B :=
  fun s =>
    match m s with
    | (s', Ok a) => k a s'
    | (s', Raise e) => (s', Raise e)
    end.

Definition raise {A : Type} (e : exn) : M A := fun s => (s, Raise e).
Definition gets {A : Type} (f : state -> A) : M A := fun s => (s, Ok (f s)).
Definition modify (f : state -> state) : M unit := fun s => (f s, Ok tt).
Definition emit (e : event) : M unit := modify (add_event e).

Notation "x <- m ;; k" := (bind m (fun x => k))
  (at level 61, m at next level, right associativity).
Notation "m ;;; k" := (bind m (fun _ => k))
  (at level 61, right associativity).

(** [for x in xs: acc = f(acc, x)] and [for x in xs: f(x)]. *)
Fixpoint for_fold {A B : Type} (f : B -> A -> M B) (xs : list A) (acc : B) : M B :=
  match xs with
  | [] => ret acc
  | x :: xs' => acc' <- f acc x ;; for_fold f xs' acc'
  end.

Fixpoint for_each {A : Type} (f : A -> M unit) (xs : list A) : M unit :=
  match xs with
  | [] => ret tt
  | x :: xs' => f x ;;; for_each f xs'
  end.

(** [xs[idx]] with [idx >= 0]. *)
Definition index {A : Type} (xs : list A) (idx : nat) : M A :=
  match nth_error xs idx with
  | Some x => ret x
  | None => raise IndexError
  end.

(** [a % b] on Python ints. *)
Definition py_mod (a b : Z) : M Z :=
  if (b =? 0)%Z then raise ZeroDivisionError else ret (a mod b)%Z.

(** [n / t] for an [int] and a float (true division, line 9). *)
Definition py_div (n : Z) (t : Scalar) : M Scalar :=
  if scalar_is_zero t then raise ZeroDivisionError else ret (speed_of n t).

(** [time.time()]: the next reading of the clock. *)
Definition time_time : M Scalar :=
  fun s =>
    let t := timing s in
    (set_timing (mk_timers (batch_time t) (data_time t) (end_ t) (S (clock_reads t))) s,
     Ok (clock (clock_reads t))).

(** [data_time.update(time.time() - end)] (line 37),
    [batch_time.update(time.time() - end)] (line 102) and
    [end = time.time()] (line 103). *)
Definition update_data_time : M unit :=
  now <- time_time ;;
  modify (fun s =>
            let t := timing s in
            set_timing (mk_timers (batch_time t)
                                  (meter_update1 (data_time t) (scalar_sub now (end_ t)))
                                  (end_ t) (clock_reads t)) s).

Definition update_batch_time : M unit :=
  now <- time_time ;;
  modify (fun s =>
            let t := timing s in
            set_timing (mk_timers (meter_update1 (batch_time t) (scalar_sub now (end_ t)))
                                  (data_time t) (end_ t) (clock_reads t)) s).

Definition set_end : M unit :=
  now <- time_time ;;
  modify (fun s =>
            let t := timing s in
            set_timing (mk_timers (batch_time t) (data_time t) now (clock_reads t)) s).

(** [meters[idx].update(val, n)] on one of the three meter lists. *)
Definition update_meter (k : meter_kind) (idx : nat) (val : Scalar) (n : Z) : M unit :=
  meter <- (fun s => index (meters_of k s) idx s) ;;
  modify (fun s => set_meters k (list_set (meters_of k s) idx (meter_update meter val n)) s).

(** [meters[idx].val]. *)
Definition meter_val_at (k : meter_kind) (idx : nat) : M Scalar :=
  meter <- (fun s => index (meters_of k s) idx s) ;;
  ret (meter_val meter).

(** [model(images)] and [teacher(images)]: the call is made in whatever
    mode the network and the framework are in. *)
Definition forward (w : who) (net : Tensor -> list Tensor) (images : Tensor)
  : M (list Tensor) :=
  fun s =>
    let training := match w with
                    | Student => model_training s
                    | Teacher => teacher_training s
                    end in
    (add_event (ev_forward w images training (grad_enabled s)) s, Ok (net images)).

Definition losses : Type :=
  (list (option Tensor) * list (option Tensor) * list (option Tensor))%type.

(** ** [_get_loss_info] (lines 152-159) *)
Definition _get_loss_info (loss_meters : list AverageMeter) (name : string)
  : list loss_info :=
  fold_left (fun msg im => msg ++ [(fst im, name, snd im)])
            (enumerate loss_meters) [].

(** ** The body of the student loop (lines 60-77) *)
Definition student_stage (student_heatmaps_losses student_push_losses
                          student_pull_losses : list (option Tensor))
           (n : Z) (student_loss : loss_expr) (idx : nat) : M loss_expr :=
  h <- index student_heatmaps_losses idx ;;
  match h with
  | None => ret student_loss
  | Some ht =>
      let heatmaps_loss := mean0 ht in
      update_meter Heatmaps idx (item heatmaps_loss) n ;;;
      let student_loss := LAdd student_loss (LTensor heatmaps_loss) in
      p <- index student_push_losses idx ;;
      student_loss <-
        match p with
        | None => ret student_loss
        | Some pt =>
            let push_loss := mean0 pt in
            update_meter Push idx (item push_loss) n ;;;
            ret (LAdd student_loss (LTensor push_loss))
        end ;;
      u <- index student_pull_losses idx ;;
      match u with
      | None => ret student_loss
      | Some ut =>
          let pull_loss := mean0 ut in
          update_meter Pull idx (item pull_loss) n ;;;
          ret (LAdd student_loss (LTensor pull_loss))
      end
  end.

(** ** The body of the teacher loop (lines 81-89) *)
Definition teacher_stage (teacher_heatmaps_losses teacher_push_losses
                          teacher_pull_losses : list (option Tensor))
           (teacher_loss : loss_expr) (idx : nat) : M loss_expr :=
  h <- index teacher_heatmaps_losses idx ;;
  match h with
  | None => ret teacher_loss
  | Some ht =>
      let heatmaps_loss := mean0 ht in
      let teacher_loss := LAdd teacher_loss (LTensor heatmaps_loss) in
      p <- index teacher_push_losses idx ;;
      teacher_loss <-
        match p with
        | None => ret teacher_loss
        | Some pt =>
            let push_loss := mean0 pt in
            ret (LAdd teacher_loss (LTensor push_loss))
        end ;;
      u <- index teacher_pull_losses idx ;;
      match u with
      | None => ret teacher_loss
      | Some ut =>
          let pull_loss := mean0 ut in
          ret (LAdd teacher_loss (LTensor pull_loss))
      end
  end.

(** [alpha = 0.5] (line 91). *)
Definition alpha : float := 0.5%float.

(** Line 92. *)
Definition blend (student_loss teacher_loss : loss_expr) : loss_expr :=
  LAdd (LMul student_loss (LFloat alpha))
       (LMul (LFloat (PrimFloat.sub 1%float alpha)) teacher_loss).

(** Lines 94-99.  Without [fp16] the trainer calls [loss.backward()], which
    only a tensor has. *)
Definition optimize (fp16 : bool) (loss : loss_expr) : M unit :=
  emit ev_zero_grad ;;;
  (if fp16 then emit (ev_backward true loss)
   else if is_tensor loss then emit (ev_backward false loss)
        else raise AttributeError) ;;;
  emit ev_step.

(** Lines 123-138: the three scalars of one stage. *)
Definition add_scalars (i : nat) (global_steps : Z) (idx : nat) : M unit :=
  hv <- meter_val_at Heatmaps idx ;;
  emit (ev_add_scalar ("train_stage" ++ str_nat i ++ "_heatmaps_loss")%string hv global_steps) ;;;
  pv <- meter_val_at Push idx ;;
  emit (ev_add_scalar ("train_stage" ++ str_nat idx ++ "_push_loss")%string pv global_steps) ;;;
  uv <- meter_val_at Pull idx ;;
  emit (ev_add_scalar ("train_stage" ++ str_nat idx ++ "_pull_loss")%string uv global_steps).

(** Lines 142-149: one call of [save_debug_images]. *)
Definition save_scale (cfg : Cfg) (images : Tensor)
           (heatmaps masks student_outputs : list Tensor) (prefix : string)
           (scale_idx : nat) : M unit :=
  size <- index (OUTPUT_SIZE (DATASET cfg)) scale_idx ;;
  let prefix_scale := (prefix ++ "_output_" ++ str_int size)%string in
  h <- index heatmaps scale_idx ;;
  m <- index masks scale_idx ;;
  o <- index student_outputs scale_idx ;;
  emit (ev_save_debug_images images h m o prefix_scale).

(** Lines 106-149: the logging block.  The arguments of [format] are
    evaluated before [logger.info] is called; among them is the speed
    [images.size(0)/batch_time.val] of line 113. *)
Definition log_block (cfg : Cfg) (epoch : Z) (output_dir : string) (len : nat)
           (i : nat) (images : Tensor) (heatmaps masks student_outputs : list Tensor)
  : M unit :=
  bt <- gets (fun s => batch_time (timing s)) ;;
  speed <- py_div (size0 images) (meter_val bt) ;;
  dt <- gets (fun s => data_time (timing s)) ;;
  hm <- gets heatmaps_loss_meter ;;
  pm <- gets push_loss_meter ;;
  um <- gets pull_loss_meter ;;
  emit (ev_log_info {| msg_epoch := epoch; msg_i := i; msg_len := len;
                       msg_batch_time := bt; msg_speed := speed;
                       msg_data_time := dt;
                       msg_heatmaps_loss := _get_loss_info hm "heatmaps";
                       msg_push_loss := _get_loss_info pm "push";
                       msg_pull_loss := _get_loss_info um "pull" |}) ;;;
  global_steps <- gets train_global_steps ;;
  for_each (add_scalars i global_steps) (range (NUM_STAGES (LOSS cfg))) ;;;
  modify (set_global_steps (global_steps + 1)%Z) ;;;
  let prefix := (path_join output_dir "train" ++ "_" ++ str_nat i)%string in
  for_each (save_scale cfg images heatmaps masks student_outputs prefix)
           (seq 0 (List.length student_outputs)).

(** Line 105: [i % cfg.PRINT_FREQ == 0 and cfg.RANK == 0]. *)
Definition print_now (cfg : Cfg) (i : nat) : M bool :=
  r <- py_mod (Z.of_nat i) (PRINT_FREQ cfg) ;;
  ret ((r =? 0)%Z && (RANK cfg =? 0)%Z).

Definition batch : Type := (Tensor * list Tensor * list Tensor * list Tensor)%type.

(** ** One iteration of the loop of [do_train] (lines 36-149) *)
Definition loop_body (cfg : Cfg) (model : Tensor -> list Tensor)
           (loss_factory : list Tensor -> list Tensor -> list Tensor -> list Tensor -> losses)
           (epoch : Z) (output_dir : string) (teacher : Tensor -> list Tensor)
           (fp16 : bool) (len : nat) (ib : nat * batch) : M unit :=
  let '(i, (images, heatmaps, masks, joints)) := ib in
  update_data_time ;;;
  student_outputs <- forward Student model images ;;
  teacher_outputs <- forward Teacher teacher images ;;
  let heatmaps := map cuda heatmaps in
  let masks := map cuda masks in
  let joints := map cuda joints in
  let '(student_heatmaps_losses, student_push_losses, student_pull_losses) :=
    loss_factory student_outputs heatmaps masks joints in
  let '(teacher_heatmaps_losses, teacher_push_losses, teacher_pull_losses) :=
    loss_factory teacher_outputs heatmaps masks joints in
  student_loss <-
    for_fold (student_stage student_heatmaps_losses student_push_losses
                            student_pull_losses (size0 images))
             (range (NUM_STAGES (LOSS cfg))) (LInt 0) ;;
  teacher_loss <-
    for_fold (teacher_stage teacher_heatmaps_losses teacher_push_losses
                            teacher_pull_losses)
             (range (NUM_STAGES (LOSS cfg))) (LInt 0) ;;
  let loss := blend student_loss teacher_loss in
  optimize fp16 loss ;;;
  update_batch_time ;;;
  set_end ;;;
  c <- print_now cfg i ;;
  if c then log_block cfg epoch output_dir len i images heatmaps masks student_outputs
  else ret tt.

(** Lines 27-29: fresh meters, one per stage. *)
Definition new_meters (cfg : Cfg) : list AverageMeter :=
  map (fun _ => meter_new) (range (NUM_STAGES (LOSS cfg))).

(** ** [do_train] (lines 20-149) *)
Definition do_train (cfg : Cfg) (model : Tensor -> list Tensor)
           (data_loader : list batch)
           (loss_factory : list Tensor -> list Tensor -> list Tensor -> list Tensor -> losses)
           (epoch : Z) (output_dir : string) (teacher : Tensor -> list Tensor)
           (fp16 : bool) : M unit :=
  modify (fun s => set_timing (mk_timers meter_new meter_new (end_ (timing s))
                                         (clock_reads (timing s))) s) ;;;
  modify (set_meters Heatmaps (new_meters cfg)) ;;;
  modify (set_meters Push (new_meters cfg)) ;;;
  modify (set_meters Pull (new_meters cfg)) ;;;
  modify (set_model_training true) ;;;
  emit ev_model_train ;;;
  set_end ;;;
  for_each (loop_body cfg model loss_factory epoch output_dir teacher fp16
                      (List.length data_loader))
           (enumerate data_loader).

(** ** Vocabulary of the statements *)

(** What one stage adds to a running loss, read off lines 60-77 and 81-89:
    nothing unless the heatmaps loss of the stage is there. *)
Definition stage_loss (hl pl ul : list (option Tensor)) (acc : loss_expr) (idx : nat)
  : loss_expr :=
  match nth_error hl idx with
  | Some (Some ht) =>
      let acc := LAdd acc (LTensor (mean0 ht)) in
      let acc := match nth_error pl idx with
                 | Some (Some pt) => LAdd acc (LTensor (mean0 pt))
                 | _ => acc
                 end in
      match nth_error ul idx with
      | Some (Some ut) => LAdd acc (LTensor (mean0 ut))
      | _ => acc
      end
  | _ => acc
  end.

Definition loss_sum (num_stages : Z) (l : losses) : loss_expr :=
  let '(hl, pl, ul) := l in
  fold_left (stage_loss hl pl ul) (range num_stages) (LInt 0).

(** The sum as the specification words it: every loss of a stage that is not
    [None] is added, whether or not the heatmaps loss of the stage is. *)
Definition add_if_present (acc : loss_expr) (o : option (option Tensor)) : loss_expr :=
  match o with
  | Some (Some t) => LAdd acc (LTensor (mean0 t))
  | _ => acc
  end.

Definition claimed_stage_loss (hl pl ul : list (option Tensor)) (acc : loss_expr)
           (idx : nat) : loss_expr :=
  add_if_present
    (add_if_present (add_if_present acc (nth_error hl idx)) (nth_error pl idx))
    (nth_error ul idx).

Definition claimed_loss_sum (num_stages : Z) (l : losses) : loss_expr :=
  let '(hl, pl, ul) := l in
  fold_left (claimed_stage_loss hl pl ul) (range num_stages) (LInt 0).

(** The meter of kind [k] and stage [idx] after the student loop on a batch
    of [n] images. *)
Definition student_update (l : losses) (n : Z) (k : meter_kind) (idx : nat)
           (m : AverageMeter) : AverageMeter :=
  let '(hl, pl, ul) := l in
  match nth_error hl idx with
  | Some (Some ht) =>
      match k with
      | Heatmaps => meter_update m (item (mean0 ht)) n
      | Push => match nth_error pl idx with
                | Some (Some pt) => meter_update m (item (mean0 pt)) n
                | _ => m
                end
      | Pull => match nth_error ul idx with
                | Some (Some ut) => meter_update m (item (mean0 ut)) n
                | _ => m
                end
      end
  | _ => m
  end.

(** The loss tensors a loss factory returned, averaged over dimension 0. *)
Definition averaged (l : losses) (t : Tensor) : Prop :=
  let '(hl, pl, ul) := l in
  exists x, In (Some x) (hl ++ pl ++ ul) /\ t = mean0 x.

(** The three lists a loss factory returned have an entry for every stage. *)
Definition covers (num_stages : Z) (l : losses) : bool :=
  let '(hl, pl, ul) := l in
  (Z.to_nat num_stages <=? List.length hl)%nat
  && (Z.to_nat num_stages <=? List.length pl)%nat
  && (Z.to_nat num_stages <=? List.length ul)%nat.

(** [do_train] keeps one meter per stage in each of its three lists. *)
Definition meters_ok (cfg : Cfg) (s : state) : Prop :=
  forall k, List.length (meters_of k s) = Z.to_nat (NUM_STAGES (LOSS cfg)).

Definition losses_of (net : Tensor -> list Tensor)
           (loss_factory : list Tensor -> list Tensor -> list Tensor -> list Tensor -> losses)
           (b : batch) : losses :=
  let '(images, heatmaps, masks, joints) := b in
  loss_factory (net images) (map cuda heatmaps) (map cuda masks) (map cuda joints).

(** The loss handed to [backward] on a batch. *)
Definition batch_loss (cfg : Cfg) (model : Tensor -> list Tensor)
           (loss_factory : list Tensor -> list Tensor -> list Tensor -> list Tensor -> losses)
           (teacher : Tensor -> list Tensor) (b : batch) : loss_expr :=
  blend (loss_sum (NUM_STAGES (LOSS cfg)) (losses_of model loss_factory b))
        (loss_sum (NUM_STAGES (LOSS cfg)) (losses_of teacher loss_factory b)).

(** A batch on which no indexing, modulo or attribute access of the loop
    body raises. *)
Definition batch_ok (cfg : Cfg) (model : Tensor -> list Tensor)
           (loss_factory : list Tensor -> list Tensor -> list Tensor -> list Tensor -> losses)
           (teacher : Tensor -> list Tensor) (fp16 : bool) (b : batch) : bool :=
  let '(images, heatmaps, masks, joints) := b in
  negb (PRINT_FREQ cfg =? 0)%Z
  && covers (NUM_STAGES (LOSS cfg)) (losses_of model loss_factory b)
  && covers (NUM_STAGES (LOSS cfg)) (losses_of teacher loss_factory b)
  && (fp16 || is_tensor (batch_loss cfg model loss_factory teacher b))
  && (List.length (model images) <=? List.length (OUTPUT_SIZE (DATASET cfg)))%nat
  && (List.length (model images) <=? List.length heatmaps)%nat
  && (List.length (model images) <=? List.length masks)%nat.

(** The optimisation calls of one batch, and with the two forward passes all
    the training calls of one batch. *)
Definition optimizer_events (fp16 : bool) (loss : loss_expr) : list event :=
  [ev_zero_grad; ev_backward fp16 loss; ev_step].

Definition training_events (cfg : Cfg) (model : Tensor -> list Tensor)
           (loss_factory : list Tensor -> list Tensor -> list Tensor -> list Tensor -> losses)
           (teacher : Tensor -> list Tensor) (fp16 : bool)
           (student_mode teacher_mode grad : bool) (b : batch) : list event :=
  let '(images, _, _, _) := b in
  [ev_forward Student images student_mode grad;
   ev_forward Teacher images teacher_mode grad]
  ++ optimizer_events fp16 (batch_loss cfg model loss_factory teacher b).

(** The reporting calls of a batch that logs: one log line, three scalars per
    stage, one set of debug images per output scale. *)
Definition stage_scalars (i : nat) (global_steps : Z)
           (hm pm um : list AverageMeter) (idx : nat) : list event :=
  [ev_add_scalar ("train_stage" ++ str_nat i ++ "_heatmaps_loss")%string
                 (meter_val (nth idx hm meter_new)) global_steps;
   ev_add_scalar ("train_stage" ++ str_nat idx ++ "_push_loss")%string
                 (meter_val (nth idx pm meter_new)) global_steps;
   ev_add_scalar ("train_stage" ++ str_nat idx ++ "_pull_loss")%string
                 (meter_val (nth idx um meter_new)) global_steps].

Definition scale_images (cfg : Cfg) (output_dir : string) (i : nat) (images : Tensor)
           (heatmaps masks student_outputs : list Tensor) (scale_idx : nat) : event :=
  ev_save_debug_images images
    (nth scale_idx heatmaps images) (nth scale_idx masks images)
    (nth scale_idx student_outputs images)
    ((path_join output_dir "train" ++ "_" ++ str_nat i) ++ "_output_"
     ++ str_int (nth scale_idx (OUTPUT_SIZE (DATASET cfg)) 0%Z))%string.

Definition log_line (epoch : Z) (len i : nat) (images : Tensor) (t : timers)
           (hm pm um : list AverageMeter) : event :=
  ev_log_info {| msg_epoch := epoch; msg_i := i; msg_len := len;
                 msg_batch_time := batch_time t;
                 msg_speed := speed_of (size0 images) (meter_val (batch_time t));
                 msg_data_time := data_time t;
                 msg_heatmaps_loss := _get_loss_info hm "heatmaps";
                 msg_push_loss := _get_loss_info pm "push";
                 msg_pull_loss := _get_loss_info um "pull" |}.

(** The reporting calls of a logging block that saves the debug images of
    its first [scales] output scales, and of one that saves them all. *)
Definition report_events_upto (scales : nat) (cfg : Cfg) (epoch : Z)
           (output_dir : string) (len i : nat) (images : Tensor)
           (heatmaps masks student_outputs : list Tensor) (global_steps : Z)
           (t : timers) (hm pm um : list AverageMeter) : list event :=
  log_line epoch len i images t hm pm um
  :: flat_map (stage_scalars i global_steps hm pm um) (range (NUM_STAGES (LOSS cfg)))
  ++ map (scale_images cfg output_dir i images heatmaps masks student_outputs)
         (seq 0 scales).

Definition report_events (cfg : Cfg) (epoch : Z) (output_dir : string) (len i : nat)
           (images : Tensor) (heatmaps masks student_outputs : list Tensor)
           (global_steps : Z) (t : timers) (hm pm um : list AverageMeter)
  : list event :=
  report_events_upto (List.length student_outputs) cfg epoch output_dir len i images
                     heatmaps masks student_outputs global_steps t hm pm um.

(** Line 105 as a test on well-formed configurations. *)
Definition logs_at (cfg : Cfg) (i : nat) : bool :=
  ((Z.of_nat i mod PRINT_FREQ cfg =? 0)%Z && (RANK cfg =? 0)%Z).

(** Classification of the calls. *)
Definition is_log_info (e : event) : bool :=
  match e with ev_log_info _ => true | _ => false end.
Definition is_add_scalar (e : event) : bool :=
  match e with ev_add_scalar _ _ _ => true | _ => false end.
Definition is_save_debug_images (e : event) : bool :=
  match e with ev_save_debug_images _ _ _ _ _ => true | _ => false end.
Definition is_report (e : event) : bool :=
  is_log_info e || is_add_scalar e || is_save_debug_images e.
Definition is_training (e : event) : bool := negb (is_report e).
Definition is_step (e : event) : bool :=
  match e with ev_step => true | _ => false end.
Definition is_student_forward (e : event) : bool :=
  match e with ev_forward Student _ _ _ => true | _ => false end.

Fixpoint backward_losses (evs : list event) : list loss_expr :=
  match evs with
  | [] => []
  | ev_backward _ loss :: evs' => loss :: backward_losses evs'
  | _ :: evs' => backward_losses evs'
  end.

(** The calls made since the trace was [old]. *)
Definition since (old : list event) (s : state) : list event :=
  skipn (List.length old) (trace s).

(** Appending calls to the trace, nothing else touched. *)
Definition add_events (evs : list event) (s : state) : state :=
  mk_state (heatmaps_loss_meter s) (push_loss_meter s) (pull_loss_meter s)
           (train_global_steps s) (model_training s) (teacher_training s)
           (grad_enabled s) (trace s ++ evs) (timing s).

(** Two states that differ in the content of the meters at most. *)
Definition same_outside_meters (s s' : state) : Prop :=
  train_global_steps s' = train_global_steps s
  /\ model_training s' = model_training s
  /\ teacher_training s' = teacher_training s
  /\ grad_enabled s' = grad_enabled s
  /\ trace s' = trace s
  /\ timing s' = timing s.

(** A computation all of whose runs relate the state it starts in to the
    state it leaves, whether it returns or raises. *)
Definition preserves {A : Type} (R : state -> state -> Prop) (m : M A) : Prop :=
  forall s, R s (fst (m s)).

Definition meter_kind_eqb (k k' : meter_kind) : bool :=
  match k, k' with
  | Heatmaps, Heatmaps | Push, Push | Pull, Pull => true
  | _, _ => false
  end.

(** The meters after [update(val, n)] on the meter of kind [k] at [idx]. *)
Definition meters_updated (k : meter_kind) (idx : nat) (f : AverageMeter -> AverageMeter)
           (s s' : state) : Prop :=
  same_outside_meters s s'
  /\ (forall k', List.length (meters_of k' s') = List.length (meters_of k' s))
  /\ forall k' j,
      nth_error (meters_of k' s') j =
      if meter_kind_eqb k k' && (j =? idx)%nat
      then option_map f (nth_error (meters_of k' s) j)
      else nth_error (meters_of k' s) j.

(** The meters after the student's stages [a], ..., [a + len - 1]. *)
Definition stages_metered (l : losses) (n : Z) (a len : nat) (s s' : state) : Prop :=
  same_outside_meters s s'
  /\ (forall k, List.length (meters_of k s') = List.length (meters_of k s))
  /\ forall k j,
      nth_error (meters_of k s') j =
      if (a <=? j)%nat && (j <? a + len)%nat
      then option_map (student_update l n k j) (nth_error (meters_of k s) j)
      else nth_error (meters_of k s) j.

(** The tags of the scalars written, in order. *)
Fixpoint scalar_tags (evs : list event) : list string :=
  match evs with
  | [] => []
  | ev_add_scalar tag _ _ :: evs' => tag :: scalar_tags evs'
  | _ :: evs' => scalar_tags evs'
  end.

(** A single training-loop iteration, as the specification has it: one
    forward pass of the student, one backward pass, one optimizer step. *)
Definition single_iteration (evs : list event) : Prop :=
  List.length (filter is_student_forward evs) = 1%nat
  /\ List.length (backward_losses evs) = 1%nat
  /\ List.length (filter is_step evs) = 1%nat.

Definition is_optimizer (e : event) : bool :=
  match e with
  | ev_zero_grad | ev_backward _ _ | ev_step => true
  | _ => false
  end.

(** The reporting of a logging iteration as the specification has it: one
    log line, three scalars per stage, one set of debug images per output
    scale of the student, and the step counter moved by one. *)
Definition reports_in_full (cfg : Cfg) (student_outputs : list Tensor) (s s' : state)
  : Prop :=
  let reported := filter is_report (since (trace s) s') in
  List.length (filter is_log_info reported) = 1%nat
  /\ List.length (filter is_add_scalar reported)
     = (3 * Z.to_nat (NUM_STAGES (LOSS cfg)))%nat
  /\ List.length (filter is_save_debug_images reported) = List.length student_outputs
  /\ train_global_steps s' = (train_global_steps s + 1)%Z.

(** The three tags written for stage [idx] at batch index [i] (lines 125,
    130 and 135). *)
Definition stage_tags (i idx : nat) : list string :=
  [("train_stage" ++ str_nat i ++ "_heatmaps_loss")%string;
   ("train_stage" ++ str_nat idx ++ "_push_loss")%string;
   ("train_stage" ++ str_nat idx ++ "_pull_loss")%string].

(** ** Vocabulary: the two halves of an iteration and how they end *)

(** The state after lines 24-34: fresh meters, the model in train mode, the
    clock read once into [end]. *)
Definition started (cfg : Cfg) (s : state) : state :=
  set_timing (mk_timers meter_new meter_new (clock (clock_reads (timing s)))
                        (S (clock_reads (timing s))))
    (add_event ev_model_train
       (set_model_training true
          (set_meters Pull (new_meters cfg)
             (set_meters Push (new_meters cfg)
                (set_meters Heatmaps (new_meters cfg) s))))).

(** Lines 37-103: the training half of an iteration, as in [loop_body]. *)
Definition train_part (cfg : Cfg) (model : Tensor -> list Tensor)
           (loss_factory : list Tensor -> list Tensor -> list Tensor -> list Tensor -> losses)
           (teacher : Tensor -> list Tensor) (fp16 : bool) (b : batch) : M unit :=
  let '(images, heatmaps, masks, joints) := b in
  update_data_time ;;;
  student_outputs <- forward Student model images ;;
  teacher_outputs <- forward Teacher teacher images ;;
  let heatmaps := map cuda heatmaps in
  let masks := map cuda masks in
  let joints := map cuda joints in
  let '(student_heatmaps_losses, student_push_losses, student_pull_losses) :=
    loss_factory student_outputs heatmaps masks joints in
  let '(teacher_heatmaps_losses, teacher_push_losses, teacher_pull_losses) :=
    loss_factory teacher_outputs heatmaps masks joints in
  student_loss <-
    for_fold (student_stage student_heatmaps_losses student_push_losses
                            student_pull_losses (size0 images))
             (range (NUM_STAGES (LOSS cfg))) (LInt 0) ;;
  teacher_loss <-
    for_fold (teacher_stage teacher_heatmaps_losses teacher_push_losses
                            teacher_pull_losses)
             (range (NUM_STAGES (LOSS cfg))) (LInt 0) ;;
  let loss := blend student_loss teacher_loss in
  optimize fp16 loss ;;;
  update_batch_time ;;;
  set_end.

(** The timing variables when line 105 is reached in an iteration started
    with [t]: the clock was read at lines 37, 102 and 103. *)
Definition timed (t : timers) : timers :=
  let n := clock_reads t in
  mk_timers (meter_update1 (batch_time t) (scalar_sub (clock (S n)) (end_ t)))
            (meter_update1 (data_time t) (scalar_sub (clock n) (end_ t)))
            (clock (S (S n))) (S (S (S n))).

(** The division of line 113 is defined: [batch_time.val] is not zero. *)
Definition speed_defined (t : timers) : bool :=
  negb (scalar_is_zero (meter_val (batch_time t))).

(** The entries the two loops over the stages read at stage [idx] are there:
    the heatmaps entry, and the push and pull entries when the heatmaps loss
    is not [None]. *)
Definition stage_read (l : losses) (idx : nat) : bool :=
  let '(hl, pl, ul) := l in
  match nth_error hl idx with
  | Some (Some _) =>
      match nth_error pl idx, nth_error ul idx with
      | Some _, Some _ => true
      | _, _ => false
      end
  | Some None => true
  | None => false
  end.

Definition stages_read (num_stages : Z) (l : losses) : bool :=
  forallb (stage_read l) (range num_stages).

(** The batches on which lines 37-103 return, when there is one meter per
    stage. *)
Definition train_returns (cfg : Cfg) (model : Tensor -> list Tensor)
           (loss_factory : list Tensor -> list Tensor -> list Tensor -> list Tensor -> losses)
           (teacher : Tensor -> list Tensor) (fp16 : bool) (b : batch) : bool :=
  stages_read (NUM_STAGES (LOSS cfg)) (losses_of model loss_factory b)
  && stages_read (NUM_STAGES (LOSS cfg)) (losses_of teacher loss_factory b)
  && (fp16 || is_tensor (batch_loss cfg model loss_factory teacher b)).

(** Lines 105-149: the test of line 105 and the logging block it guards. *)
Definition report_part (cfg : Cfg) (epoch : Z) (output_dir : string) (len i : nat)
           (images : Tensor) (heatmaps masks student_outputs : list Tensor) : M unit :=
  c <- print_now cfg i ;;
  if c then log_block cfg epoch output_dir len i images heatmaps masks student_outputs
  else ret tt.

(** A batch on which lines 36-103 do not raise. *)
Definition train_ok (cfg : Cfg) (model : Tensor -> list Tensor)
           (loss_factory : list Tensor -> list Tensor -> list Tensor -> list Tensor -> losses)
           (teacher : Tensor -> list Tensor) (fp16 : bool) (b : batch) : bool :=
  covers (NUM_STAGES (LOSS cfg)) (losses_of model loss_factory b)
  && covers (NUM_STAGES (LOSS cfg)) (losses_of teacher loss_factory b)
  && (fp16 || is_tensor (batch_loss cfg model loss_factory teacher b)).

(** Some stage below [num_stages] has a heatmaps loss. *)
Definition has_heatmaps_loss (num_stages : Z) (l : losses) : bool :=
  let '(hl, _, _) := l in
  existsb (fun idx => match nth_error hl idx with
                      | Some (Some _) => true
                      | _ => false
                      end)
          (range num_stages).

(** The values of the scalars written and the prefixes of the debug images
    saved, in order. *)
Fixpoint scalar_values (evs : list event) : list Scalar :=
  match evs with
  | [] => []
  | ev_add_scalar _ value _ :: evs' => value :: scalar_values evs'
  | _ :: evs' => scalar_values evs'
  end.

Fixpoint image_prefixes (evs : list event) : list string :=
  match evs with
  | [] => []
  | ev_save_debug_images _ _ _ _ prefix :: evs' => prefix :: image_prefixes evs'
  | _ :: evs' => image_prefixes evs'
  end.

(** Lines 141-145: the prefix of the debug images of output scale [scale_idx]
    at batch index [i]. *)
Definition prefix_scale (cfg : Cfg) (output_dir : string) (i scale_idx : nat) : string :=
  ((path_join output_dir "train" ++ "_" ++ str_nat i) ++ "_output_"
   ++ str_int (nth scale_idx (OUTPUT_SIZE (DATASET cfg)) 0%Z))%string.

(** The batch indices below [n] at which the test of line 105 holds. *)
Definition logging_indices (cfg : Cfg) (n : nat) : list nat :=
  filter (logs_at cfg) (seq 0 n).

(** The place of a kind of loss among the three scalars of a stage. *)
Definition kind_offset (k : meter_kind) : nat :=
  match k with
  | Heatmaps => 0
  | Push => 1
  | Pull => 2
  end.

(** The number of output scales for which [cfg.DATASET.OUTPUT_SIZE], the
    heatmaps and the masks all have an entry. *)
Definition scales_available (cfg : Cfg) (heatmaps masks : list Tensor) : nat :=
  Nat.min (List.length (OUTPUT_SIZE (DATASET cfg)))
          (Nat.min (List.length heatmaps) (List.length masks)).

(** What lines 105-149 do with timing variables [t], given one meter per
    stage: whether the log line is written, the calls made, and how the
    block ends. *)
Definition reporting (cfg : Cfg) (i : nat) (t : timers) : bool :=
  negb (PRINT_FREQ cfg =? 0)%Z && logs_at cfg i && speed_defined t.

Definition report_calls (cfg : Cfg) (epoch : Z) (output_dir : string) (len i : nat)
           (images : Tensor) (heatmaps masks student_outputs : list Tensor)
           (global_steps : Z) (t : timers) (hm pm um : list AverageMeter)
  : list event :=
  if reporting cfg i t
  then report_events_upto
         (Nat.min (List.length student_outputs) (scales_available cfg heatmaps masks))
         cfg epoch output_dir len i images heatmaps masks student_outputs
         global_steps t hm pm um
  else [].

Definition report_result (cfg : Cfg) (i : nat) (heatmaps masks student_outputs : list Tensor)
           (t : timers) : result unit :=
  if (PRINT_FREQ cfg =? 0)%Z then Raise ZeroDivisionError
  else if logs_at cfg i
       then if speed_defined t
            then if (List.length student_outputs <=? scales_available cfg heatmaps masks)%nat
                 then Ok tt
                 else Raise IndexError
            else Raise ZeroDivisionError
       else Ok tt.

(** A call the loop body may make when the model is in mode [student_mode]:
    never [model.train()], and a forward pass of the student only in that
    mode. *)
Definition body_call (student_mode : bool) (e : event) : Prop :=
  match e with
  | ev_model_train => False
  | ev_forward Student _ training _ => training = student_mode
  | _ => True
  end.

(** What the loop body keeps whether it returns or raises: the mode of the
    model and the number of meters. *)
Definition body_keeps (s s' : state) : Prop :=
  model_training s' = model_training s
  /\ (forall k, List.length (meters_of k s') = List.length (meters_of k s))
  /\ exists evs, trace s' = trace s ++ evs /\ Forall (body_call (model_training s)) evs.

(** A computation that reports nothing and leaves the step counter. *)
Definition quiet (s s' : state) : Prop :=
  train_global_steps s' = train_global_steps s
  /\ exists evs, trace s' = trace s ++ evs /\ filter is_report evs = [].

(** * Proofs *)

(** ** Lists *)

Lemma length_list_set {A : Type} (xs : list A) idx x :
  List.length (list_set xs idx x) = List.length xs.
Proof.
  revert idx; induction xs as [|y xs IH]; intros [|idx]; simpl; auto.
Qed.

Lemma nth_error_list_set {A : Type} (xs : list A) idx x j :
  nth_error (list_set xs idx x) j =
  if (j =? idx)%nat then option_map (fun _ => x) (nth_error xs j)
  else nth_error xs j.
Proof.
  revert idx j; induction xs as [|y xs IH]; intros [|idx] [|j]; simpl; auto.
  destruct (j =? idx)%nat; reflexivity.
Qed.

Lemma nth_error_nth_lt {A : Type} (xs : list A) idx d :
  (idx < List.length xs)%nat -> nth_error xs idx = Some (nth idx xs d).
Proof.
  revert idx; induction xs as [|y xs IH]; intros [|idx] H; simpl in *;
    try lia; auto.
  apply IH; lia.
Qed.

(** ** The monad *)

Lemma bind_ok {A B : Type} (m : M A) (k : A -> M B) s s' a :
  m s = (s', Ok a) -> bind m k s = k a s'.
Proof. unfold bind; intros ->; reflexivity. Qed.

Lemma bind_raise {A B : Type} (m : M A) (k : A -> M B) s s' e :
  m s = (s', Raise e) -> bind m k s = (s', Raise e).
Proof. unfold bind; intros ->; reflexivity. Qed.

Lemma index_ok {A : Type} (xs : list A) idx d s :
  (idx < List.length xs)%nat -> index xs idx s = (s, Ok (nth idx xs d)).
Proof.
  intros H; unfold index. rewrite (nth_error_nth_lt xs idx d H). reflexivity.
Qed.

Lemma for_fold_cons {A B : Type} (f : B -> A -> M B) x xs acc s :
  for_fold f (x :: xs) acc s =
  match f acc x s with
  | (s', Ok acc') => for_fold f xs acc' s'
  | (s', Raise e) => (s', Raise e)
  end.
Proof. reflexivity. Qed.

Lemma for_each_cons {A : Type} (f : A -> M unit) x xs s :
  for_each f (x :: xs) s =
  match f x s with
  | (s', Ok _) => for_each f xs s'
  | (s', Raise e) => (s', Raise e)
  end.
Proof. reflexivity. Qed.

Lemma for_fold_ext {A B : Type} (f g : B -> A -> M B) xs :
  (forall x, In x xs -> forall acc s, f acc x s = g acc x s) ->
  forall acc s, for_fold f xs acc s = for_fold g xs acc s.
Proof.
  induction xs as [|x xs IH]; intros H acc s; auto.
  rewrite !for_fold_cons, (H x (or_introl eq_refl)).
  destruct (g acc x s) as [s' [acc'|e]]; auto.
  apply IH; intros y Hy; apply H; right; exact Hy.
Qed.

(** ** Frame rules: what a computation leaves alone *)

Section Frame.

Variable R : state -> state -> Prop.
Hypothesis R_refl : forall s, R s s.
Hypothesis R_trans : forall s1 s2 s3, R s1 s2 -> R s2 s3 -> R s1 s3.

Lemma preserves_ret {A : Type} (a : A) : preserves R (ret a).
Proof. intros s; apply R_refl. Qed.

Lemma preserves_raise {A : Type} e : preserves R (@raise A e).
Proof. intros s; apply R_refl. Qed.

Lemma preserves_gets {A : Type} (f : state -> A) : preserves R (gets f).
Proof. intros s; apply R_refl. Qed.

Lemma preserves_index {A : Type} (xs : list A) idx : preserves R (index xs idx).
Proof.
  intros s; unfold index; destruct (nth_error xs idx); apply R_refl.
Qed.

Lemma preserves_index_of {A : Type} (xs : state -> list A) idx :
  preserves R (fun s => index (xs s) idx s).
Proof.
  intros s; unfold index; destruct (nth_error (xs s) idx); apply R_refl.
Qed.

Lemma preserves_py_mod a b : preserves R (py_mod a b).
Proof.
  intros s; unfold py_mod; destruct (b =? 0)%Z; apply R_refl.
Qed.

Lemma after_bind {A B : Type} (m : M A) (k : A -> M B) s :
  (forall a, preserves R (k a)) ->
  R (fst (m s)) (fst (bind m k s)).
Proof.
  intros Hk; unfold bind.
  destruct (m s) as [s' [a|e]]; simpl; [apply Hk | apply R_refl].
Qed.

Lemma preserves_bind {A B : Type} (m : M A) (k : A -> M B) :
  preserves R m -> (forall a, preserves R (k a)) -> preserves R (bind m k).
Proof.
  intros Hm Hk s. eapply R_trans; [apply Hm | apply after_bind, Hk].
Qed.

Lemma preserves_for_fold {A B : Type} (f : B -> A -> M B) xs :
  (forall acc x, preserves R (f acc x)) ->
  forall acc, preserves R (for_fold f xs acc).
Proof.
  intros Hf; induction xs as [|x xs IH]; intros acc; simpl.
  - apply preserves_ret.
  - apply preserves_bind; auto.
Qed.

Lemma preserves_for_each {A : Type} (f : A -> M unit) xs :
  (forall x, preserves R (f x)) -> preserves R (for_each f xs).
Proof.
  intros Hf; induction xs as [|x xs IH]; simpl.
  - apply preserves_ret.
  - apply preserves_bind; auto.
Qed.

End Frame.

(** ** Meters *)

Lemma same_outside_meters_refl s : same_outside_meters s s.
Proof. repeat split. Qed.

Lemma same_outside_meters_trans s1 s2 s3 :
  same_outside_meters s1 s2 -> same_outside_meters s2 s3 -> same_outside_meters s1 s3.
Proof.
  intros (A1 & A2 & A3 & A4 & A5 & A6) (B1 & B2 & B3 & B4 & B5 & B6).
  repeat split; congruence.
Qed.

Lemma index_some {A : Type} (xs : list A) idx x s :
  nth_error xs idx = Some x -> index xs idx s = (s, Ok x).
Proof. unfold index; intros ->; reflexivity. Qed.

Lemma update_meter_ok k idx v n s :
  (idx < List.length (meters_of k s))%nat ->
  exists s', update_meter k idx v n s = (s', Ok tt)
             /\ meters_updated k idx (fun m => meter_update m v n) s s'.
Proof.
  intros H.
  destruct (nth_error (meters_of k s) idx) as [m|] eqn:E;
    [|apply nth_error_None in E; lia].
  eexists; split.
  - unfold update_meter. erewrite bind_ok by (apply index_some; exact E).
    reflexivity.
  - split; [|split].
    + destruct k; repeat split.
    + intros k'; destruct k, k'; simpl; auto using length_list_set.
    + intros k' j; destruct k, k'; simpl in *; auto;
        rewrite nth_error_list_set;
        destruct (j =? idx)%nat eqn:J; auto;
        apply Nat.eqb_eq in J; subst j; rewrite E; reflexivity.
Qed.

Lemma student_stage_spec hl pl ul n acc idx s :
  stage_read (hl, pl, ul) idx = true ->
  (forall k, idx < List.length (meters_of k s))%nat ->
  exists s', student_stage hl pl ul n acc idx s = (s', Ok (stage_loss hl pl ul acc idx))
             /\ stages_metered (hl, pl, ul) n idx 1 s s'.
Proof.
  intros Hr Hm.
  assert (Hwin : forall j, ((idx <=? j) && (j <? idx + 1) = (j =? idx))%nat).
  { intros j. destruct (Nat.eqb_spec j idx); subst.
    - rewrite Nat.leb_refl; simpl. apply Nat.ltb_lt; lia.
    - destruct (Nat.leb_spec idx j); simpl; auto. apply Nat.ltb_ge; lia. }
  unfold stage_read in Hr.
  destruct (nth_error hl idx) as [[ht|]|] eqn:Eh; try discriminate Hr.
  2:{ exists s. unfold student_stage, stage_loss, stages_metered, student_update.
      rewrite Eh. erewrite bind_ok by (apply index_some; exact Eh).
      split; [reflexivity|]. split; [apply same_outside_meters_refl|].
      split; auto. intros k j. rewrite Hwin.
      destruct (Nat.eqb_spec j idx); subst; auto.
      rewrite Eh. destruct (nth_error (meters_of k s) idx); reflexivity. }
  destruct (nth_error pl idx) as [p|] eqn:Ep; [|discriminate Hr].
  destruct (nth_error ul idx) as [u|] eqn:Eu; [|discriminate Hr].
  unfold student_stage, stage_loss, stages_metered, student_update.
  rewrite Eh, Ep, Eu.
  erewrite bind_ok by (apply index_some; exact Eh).
  destruct (update_meter_ok Heatmaps idx (item (mean0 ht)) n s (Hm Heatmaps))
    as (s1 & E1 & O1 & L1 & P1).
  erewrite bind_ok by (exact E1).
  erewrite bind_ok by (apply index_some; exact Ep).
  assert (Hm1 : forall k, (idx < List.length (meters_of k s1))%nat)
    by (intros k; rewrite L1; apply Hm).
  assert (exists s2,
    (match p with
     | Some pt => update_meter Push idx (item (mean0 pt)) n ;;;
                  ret (LAdd (LAdd acc (LTensor (mean0 ht))) (LTensor (mean0 pt)))
     | None => ret (LAdd acc (LTensor (mean0 ht)))
     end) s1
    = (s2, Ok match p with
              | Some pt => LAdd (LAdd acc (LTensor (mean0 ht))) (LTensor (mean0 pt))
              | None => LAdd acc (LTensor (mean0 ht))
              end)
    /\ meters_updated Push idx
         (fun m => match p with Some pt => meter_update m (item (mean0 pt)) n | None => m end)
         s1 s2) as (s2 & E2 & O2 & L2 & P2).
  { destruct p as [pt|].
    - destruct (update_meter_ok Push idx (item (mean0 pt)) n s1 (Hm1 Push))
        as (s2 & E2 & M2).
      exists s2; split; auto. erewrite bind_ok by (exact E2). reflexivity.
    - exists s1; split; [reflexivity|]. split; [apply same_outside_meters_refl|].
      split; auto. intros k' j.
      destruct (meter_kind_eqb Push k' && (j =? idx)%nat); auto.
      destruct (nth_error (meters_of k' s1) j); reflexivity. }
  erewrite bind_ok by (exact E2).
  erewrite bind_ok by (apply index_some; exact Eu).
  assert (Hm2 : forall k, (idx < List.length (meters_of k s2))%nat)
    by (intros k; rewrite L2; apply Hm1).
  set (acc2 := match p with
               | Some pt => LAdd (LAdd acc (LTensor (mean0 ht))) (LTensor (mean0 pt))
               | None => LAdd acc (LTensor (mean0 ht))
               end).
  assert (exists s3,
    (match u with
     | Some ut => update_meter Pull idx (item (mean0 ut)) n ;;;
                  ret (LAdd acc2 (LTensor (mean0 ut)))
     | None => ret acc2
     end) s2
    = (s3, Ok match u with
              | Some ut => LAdd acc2 (LTensor (mean0 ut))
              | None => acc2
              end)
    /\ meters_updated Pull idx
         (fun m => match u with Some ut => meter_update m (item (mean0 ut)) n | None => m end)
         s2 s3) as (s3 & E3 & O3 & L3 & P3).
  { destruct u as [ut|].
    - destruct (update_meter_ok Pull idx (item (mean0 ut)) n s2 (Hm2 Pull))
        as (s3 & E3 & M3).
      exists s3; split; auto. erewrite bind_ok by (exact E3). reflexivity.
    - exists s2; split; [reflexivity|]. split; [apply same_outside_meters_refl|].
      split; auto. intros k' j.
      destruct (meter_kind_eqb Pull k' && (j =? idx)%nat); auto.
      destruct (nth_error (meters_of k' s2) j); reflexivity. }
  exists s3; split.
  - rewrite E3. subst acc2. destruct p, u; reflexivity.
  - split; [eauto using same_outside_meters_trans|].
    split; [intros k; rewrite L3, L2, L1; reflexivity|].
    intros k j. rewrite P3, P2, P1, Hwin.
    destruct (Nat.eqb_spec j idx); subst.
    + rewrite Eh, Ep, Eu.
      destruct k; simpl; destruct (nth_error _ idx); simpl; auto;
        destruct p; auto; destruct u; auto.
    + rewrite !andb_false_r. reflexivity.
Qed.

Lemma stages_metered_nil l n a s : stages_metered l n a 0 s s.
Proof.
  split; [apply same_outside_meters_refl|]. split; auto.
  intros k j. replace ((a <=? j) && (j <? a + 0))%nat with false; auto.
  destruct (Nat.leb_spec a j); simpl; auto.
  symmetry; apply Nat.ltb_ge; lia.
Qed.

Lemma stages_metered_compose l n a len1 len2 s s1 s2 :
  stages_metered l n a len1 s s1 ->
  stages_metered l n (a + len1) len2 s1 s2 ->
  stages_metered l n a (len1 + len2) s s2.
Proof.
  intros (O1 & L1 & P1) (O2 & L2 & P2).
  split; [eauto using same_outside_meters_trans|].
  split; [intros k; rewrite L2; apply L1|].
  intros k j. rewrite P2, P1.
  destruct (Nat.leb_spec a j), (Nat.leb_spec (a + len1) j),
    (Nat.ltb_spec j (a + len1)), (Nat.ltb_spec j (a + len1 + len2)),
    (Nat.ltb_spec j (a + (len1 + len2))); simpl; auto; lia.
Qed.

Lemma student_loop_spec hl pl ul n :
  forall len a acc s,
    forallb (stage_read (hl, pl, ul)) (seq a len) = true ->
    (forall k, a + len <= List.length (meters_of k s))%nat ->
    exists s',
      for_fold (student_stage hl pl ul n) (seq a len) acc s
      = (s', Ok (fold_left (stage_loss hl pl ul) (seq a len) acc))
      /\ stages_metered (hl, pl, ul) n a len s s'.
Proof.
  induction len as [|len IH]; intros a acc s Hr Hm.
  - exists s; split; [reflexivity | apply stages_metered_nil].
  - cbn [seq forallb] in Hr. apply andb_prop in Hr. destruct Hr as [Hr1 Hr2].
    destruct (student_stage_spec hl pl ul n acc a s Hr1) as (s1 & E1 & M1).
    { intros k; specialize (Hm k); lia. }
    destruct (IH (S a) (stage_loss hl pl ul acc a) s1 Hr2) as (s2 & E2 & M2).
    { intros k. destruct M1 as (_ & L1 & _). rewrite L1.
      specialize (Hm k); lia. }
    exists s2; split.
    + simpl seq. rewrite for_fold_cons, E1. exact E2.
    + change (S len) with (1 + len)%nat.
      eapply stages_metered_compose; [exact M1|].
      replace (a + 1)%nat with (S a) by lia. exact M2.
Qed.



Lemma teacher_stage_spec hl pl ul acc idx s :
  stage_read (hl, pl, ul) idx = true ->
  teacher_stage hl pl ul acc idx s = (s, Ok (stage_loss hl pl ul acc idx)).
Proof.
  unfold stage_read, teacher_stage, stage_loss, bind, index, ret.
  destruct (nth_error hl idx) as [[ht|]|]; try discriminate; auto.
  destruct (nth_error pl idx) as [p|]; try discriminate.
  destruct (nth_error ul idx) as [u|]; try discriminate.
  destruct p, u; reflexivity.
Qed.

Lemma teacher_loop_spec hl pl ul :
  forall len a acc s,
    forallb (stage_read (hl, pl, ul)) (seq a len) = true ->
    for_fold (teacher_stage hl pl ul) (seq a len) acc s
    = (s, Ok (fold_left (stage_loss hl pl ul) (seq a len) acc)).
Proof.
  induction len as [|len IH]; intros a acc s Hr; [reflexivity|].
  cbn [seq forallb] in Hr. apply andb_prop in Hr. destruct Hr as [Hr1 Hr2].
  simpl seq. rewrite for_fold_cons, teacher_stage_spec by exact Hr1.
  apply IH, Hr2.
Qed.

(** A loop over the stages that returns has read every stage. *)
Lemma student_stage_read hl pl ul n acc idx s s' v :
  student_stage hl pl ul n acc idx s = (s', Ok v) -> stage_read (hl, pl, ul) idx = true.
Proof.
  unfold student_stage, stage_read, bind, index, ret, raise.
  destruct (nth_error hl idx) as [[ht|]|]; try discriminate; auto.
  destruct (update_meter Heatmaps idx (item (mean0 ht)) n s) as [s1 [[]|e]];
    try discriminate.
  destruct (nth_error pl idx) as [p|]; try discriminate.
  destruct (nth_error ul idx) as [u|]; auto.
  destruct p as [pt|]; [|discriminate].
  unfold bind. destruct (update_meter Push idx (item (mean0 pt)) n s1) as [s2 [[]|e]];
    discriminate.
Qed.

Lemma student_loop_read hl pl ul n idxs :
  forall acc s s' v,
    for_fold (student_stage hl pl ul n) idxs acc s = (s', Ok v) ->
    forallb (stage_read (hl, pl, ul)) idxs = true.
Proof.
  induction idxs as [|idx idxs IH]; intros acc s s' v H; [reflexivity|].
  rewrite for_fold_cons in H.
  destruct (student_stage hl pl ul n acc idx s) as [s1 [acc1|e]] eqn:E;
    [|discriminate H].
  cbn [forallb]. rewrite (student_stage_read _ _ _ _ _ _ _ _ _ E). simpl.
  eapply IH; exact H.
Qed.

Lemma teacher_stage_read hl pl ul acc idx s s' v :
  teacher_stage hl pl ul acc idx s = (s', Ok v) -> stage_read (hl, pl, ul) idx = true.
Proof.
  unfold teacher_stage, stage_read, bind, index, ret, raise.
  destruct (nth_error hl idx) as [[ht|]|]; try discriminate; auto.
  destruct (nth_error pl idx) as [p|]; try discriminate.
  destruct (nth_error ul idx) as [u|]; auto.
  destruct p; discriminate.
Qed.

Lemma teacher_loop_read hl pl ul idxs :
  forall acc s s' v,
    for_fold (teacher_stage hl pl ul) idxs acc s = (s', Ok v) ->
    forallb (stage_read (hl, pl, ul)) idxs = true.
Proof.
  induction idxs as [|idx idxs IH]; intros acc s s' v H; [reflexivity|].
  rewrite for_fold_cons in H.
  destruct (teacher_stage hl pl ul acc idx s) as [s1 [acc1|e]] eqn:E;
    [|discriminate H].
  cbn [forallb]. rewrite (teacher_stage_read _ _ _ _ _ _ _ _ E). simpl.
  eapply IH; exact H.
Qed.

(** Lists that have an entry for every stage are read at every stage. *)
Lemma covers_read_from hl pl ul len a :
  (a + len <= List.length hl)%nat -> (a + len <= List.length pl)%nat ->
  (a + len <= List.length ul)%nat ->
  forallb (stage_read (hl, pl, ul)) (seq a len) = true.
Proof.
  intros Hh Hp Hu. apply forallb_forall. intros idx Hin. apply in_seq in Hin.
  unfold stage_read.
  destruct (nth_error hl idx) as [h|] eqn:Eh; [|apply nth_error_None in Eh; lia].
  destruct (nth_error pl idx) as [p|] eqn:Ep; [|apply nth_error_None in Ep; lia].
  destruct (nth_error ul idx) as [u|] eqn:Eu; [|apply nth_error_None in Eu; lia].
  destruct h; reflexivity.
Qed.

(** ** Calls appended to the trace *)

Lemma add_events_app evs1 evs2 s :
  add_events evs2 (add_events evs1 s) = add_events (evs1 ++ evs2) s.
Proof. unfold add_events; simpl. rewrite app_assoc. reflexivity. Qed.

Lemma add_events_nil s : add_events [] s = s.
Proof. destruct s; unfold add_events; simpl. rewrite app_nil_r. reflexivity. Qed.

Lemma emit_ok e evs s :
  emit e (add_events evs s) = (add_events (evs ++ [e]) s, Ok tt).
Proof.
  unfold emit, modify. change (add_event e ?x) with (add_events [e] x).
  rewrite add_events_app. reflexivity.
Qed.

Lemma emit_first e s : emit e s = (add_events [e] s, Ok tt).
Proof. reflexivity. Qed.

Lemma for_each_emits {A : Type} (f : A -> M unit) (g : A -> list event) s0 xs :
  (forall x evs, In x xs ->
                 f x (add_events evs s0) = (add_events (evs ++ g x) s0, Ok tt)) ->
  forall evs,
    for_each f xs (add_events evs s0) = (add_events (evs ++ flat_map g xs) s0, Ok tt).
Proof.
  induction xs as [|x xs IH]; intros H evs; simpl flat_map.
  - rewrite app_nil_r. reflexivity.
  - rewrite for_each_cons, (H x evs (or_introl eq_refl)).
    rewrite IH by (intros y evs' Hy; apply H; right; exact Hy).
    rewrite <- app_assoc. reflexivity.
Qed.

Lemma optimize_ok fp16 loss s :
  fp16 || is_tensor loss = true ->
  optimize fp16 loss s = (add_events (optimizer_events fp16 loss) s, Ok tt).
Proof.
  intros H. unfold optimize.
  rewrite <- (add_events_nil s) at 1.
  erewrite bind_ok by apply emit_ok.
  erewrite bind_ok.
  2:{ destruct fp16; [apply emit_ok|].
      simpl in H; rewrite H. apply emit_ok. }
  rewrite emit_ok. destruct fp16; reflexivity.
Qed.

Lemma optimize_raises loss s :
  is_tensor loss = false ->
  optimize false loss s = (add_events [ev_zero_grad] s, Raise AttributeError).
Proof.
  intros H. unfold optimize.
  rewrite <- (add_events_nil s) at 1.
  erewrite bind_ok by apply emit_ok.
  rewrite H. reflexivity.
Qed.

Lemma print_now_ok cfg i s :
  PRINT_FREQ cfg <> 0%Z -> print_now cfg i s = (s, Ok (logs_at cfg i)).
Proof.
  intros H. unfold print_now, py_mod, logs_at, bind.
  destruct (Z.eqb_spec (PRINT_FREQ cfg) 0); [contradiction | reflexivity].
Qed.

Lemma print_now_raises cfg i s :
  PRINT_FREQ cfg = 0%Z -> print_now cfg i s = (s, Raise ZeroDivisionError).
Proof.
  intros H. unfold print_now, py_mod, bind. rewrite H. reflexivity.
Qed.

Lemma add_scalars_ok i gs idx s evs :
  (forall k, idx < List.length (meters_of k s))%nat ->
  add_scalars i gs idx (add_events evs s)
  = (add_events (evs ++ stage_scalars i gs (heatmaps_loss_meter s)
                                      (push_loss_meter s) (pull_loss_meter s) idx) s,
     Ok tt).
Proof.
  intros H. unfold add_scalars, meter_val_at, stage_scalars.
  pose proof (H Heatmaps) as Hh; pose proof (H Push) as Hp;
    pose proof (H Pull) as Hu; simpl in Hh, Hp, Hu.
  erewrite bind_ok.
  2:{ erewrite bind_ok by (apply (index_ok _ _ meter_new); exact Hh). reflexivity. }
  erewrite bind_ok by apply emit_ok.
  erewrite bind_ok.
  2:{ erewrite bind_ok by (apply (index_ok _ _ meter_new); exact Hp). reflexivity. }
  erewrite bind_ok by apply emit_ok.
  erewrite bind_ok.
  2:{ erewrite bind_ok by (apply (index_ok _ _ meter_new); exact Hu). reflexivity. }
  rewrite emit_ok, <- !app_assoc. reflexivity.
Qed.

Lemma save_scale_ok cfg output_dir i images heatmaps masks student_outputs
      scale_idx s evs :
  (scale_idx < List.length (OUTPUT_SIZE (DATASET cfg)))%nat ->
  (scale_idx < List.length heatmaps)%nat ->
  (scale_idx < List.length masks)%nat ->
  (scale_idx < List.length student_outputs)%nat ->
  save_scale cfg images heatmaps masks student_outputs
             (path_join output_dir "train" ++ "_" ++ str_nat i)%string scale_idx
             (add_events evs s)
  = (add_events (evs ++ [scale_images cfg output_dir i images heatmaps masks
                                      student_outputs scale_idx]) s, Ok tt).
Proof.
  intros Hz Hh Hm Ho. unfold save_scale, scale_images.
  erewrite bind_ok by (apply (index_ok _ _ 0%Z); exact Hz).
  erewrite bind_ok by (apply (index_ok _ _ images); exact Hh).
  erewrite bind_ok by (apply (index_ok _ _ images); exact Hm).
  erewrite bind_ok by (apply (index_ok _ _ images); exact Ho).
  rewrite emit_ok. reflexivity.
Qed.

Lemma flat_map_singleton {A B : Type} (g : A -> B) xs :
  flat_map (fun x => [g x]) xs = map g xs.
Proof. induction xs; simpl; congruence. Qed.

(** ** The clock and the timing variables *)

Lemma bind_gets {A B : Type} (f : state -> A) (k : A -> M B) s :
  bind (gets f) k s = k (f s) s.
Proof. reflexivity. Qed.

Lemma bind_ret {A B : Type} (a : A) (k : A -> M B) s : bind (ret a) k s = k a s.
Proof. reflexivity. Qed.

Lemma bind_assoc {A B C : Type} (m : M A) (k : A -> M B) (h : B -> M C) s :
  bind (bind m k) h s = bind m (fun a => bind (k a) h) s.
Proof. unfold bind. destruct (m s) as [s' [a|e]]; reflexivity. Qed.

Lemma update_data_time_ok s :
  update_data_time s
  = (set_timing (mk_timers (batch_time (timing s))
                           (meter_update1 (data_time (timing s))
                                          (scalar_sub (clock (clock_reads (timing s)))
                                                      (end_ (timing s))))
                           (end_ (timing s)) (S (clock_reads (timing s)))) s,
     Ok tt).
Proof. reflexivity. Qed.

Lemma update_batch_time_ok s :
  update_batch_time s
  = (set_timing (mk_timers (meter_update1 (batch_time (timing s))
                                          (scalar_sub (clock (clock_reads (timing s)))
                                                      (end_ (timing s))))
                           (data_time (timing s))
                           (end_ (timing s)) (S (clock_reads (timing s)))) s,
     Ok tt).
Proof. reflexivity. Qed.

Lemma set_end_ok s :
  set_end s
  = (set_timing (mk_timers (batch_time (timing s)) (data_time (timing s))
                           (clock (clock_reads (timing s)))
                           (S (clock_reads (timing s)))) s,
     Ok tt).
Proof. reflexivity. Qed.

Lemma state_unchanged s : add_events [] (set_global_steps (train_global_steps s) s) = s.
Proof. destruct s; unfold add_events; simpl. rewrite app_nil_r. reflexivity. Qed.

(** ** The logging block, whichever way it ends *)

Lemma save_scale_missing cfg images heatmaps masks outs prefix k s :
  (scales_available cfg heatmaps masks <= k)%nat ->
  save_scale cfg images heatmaps masks outs prefix k s = (s, Raise IndexError).
Proof.
  intros Hk. unfold save_scale, bind, index.
  destruct (nth_error (OUTPUT_SIZE (DATASET cfg)) k) eqn:Ez; [|reflexivity].
  destruct (nth_error heatmaps k) eqn:Eh; [|reflexivity].
  destruct (nth_error masks k) eqn:Em; [|reflexivity].
  exfalso.
  assert (k < List.length (OUTPUT_SIZE (DATASET cfg)))%nat
    by (apply nth_error_Some; congruence).
  assert (k < List.length heatmaps)%nat by (apply nth_error_Some; congruence).
  assert (k < List.length masks)%nat by (apply nth_error_Some; congruence).
  unfold scales_available in *. lia.
Qed.

Lemma for_each_app {A : Type} (f : A -> M unit) xs ys s :
  for_each f (xs ++ ys) s
  = match for_each f xs s with
    | (s', Ok _) => for_each f ys s'
    | (s', Raise e) => (s', Raise e)
    end.
Proof.
  revert s; induction xs as [|x xs IH]; intros s; [reflexivity|].
  simpl app. rewrite !for_each_cons.
  destruct (f x s) as [s' [[]|e]]; auto.
Qed.

Lemma save_loop_total cfg output_dir i images heatmaps masks outs evs s :
  for_each (save_scale cfg images heatmaps masks outs
                       (path_join output_dir "train" ++ "_" ++ str_nat i)%string)
           (seq 0 (List.length outs)) (add_events evs s)
  = (add_events
       (evs ++ map (scale_images cfg output_dir i images heatmaps masks outs)
                   (seq 0 (Nat.min (List.length outs)
                                   (scales_available cfg heatmaps masks)))) s,
     if (List.length outs <=? scales_available cfg heatmaps masks)%nat
     then Ok tt else Raise IndexError).
Proof.
  set (avail := scales_available cfg heatmaps masks).
  assert (Hsave : forall n evs0,
             (n <= avail)%nat -> (n <= List.length outs)%nat ->
             for_each (save_scale cfg images heatmaps masks outs
                                  (path_join output_dir "train" ++ "_" ++ str_nat i)%string)
                      (seq 0 n) (add_events evs0 s)
             = (add_events
                  (evs0 ++ map (scale_images cfg output_dir i images heatmaps masks outs)
                               (seq 0 n)) s, Ok tt)).
  { intros n evs0 Hn Ho.
    rewrite for_each_emits with
      (g := fun scale_idx => [scale_images cfg output_dir i images heatmaps masks
                                           outs scale_idx]).
    - rewrite flat_map_singleton. reflexivity.
    - intros scale_idx evs1 Hin. apply in_seq in Hin.
      unfold avail, scales_available in *. apply save_scale_ok; lia. }
  destruct (Nat.leb_spec (List.length outs) avail) as [Hle|Hlt].
  - rewrite Nat.min_l by exact Hle. apply Hsave; lia.
  - rewrite Nat.min_r by lia.
    replace (List.length outs) with (avail + S (List.length outs - S avail))%nat
      at 1 by lia.
    rewrite seq_app, for_each_app, Hsave by lia.
    simpl seq. rewrite for_each_cons, save_scale_missing by (fold avail; lia).
    reflexivity.
Qed.

Lemma log_block_undefined cfg epoch output_dir len i images heatmaps masks outs s :
  speed_defined (timing s) = false ->
  log_block cfg epoch output_dir len i images heatmaps masks outs s
  = (s, Raise ZeroDivisionError).
Proof.
  intros H. unfold speed_defined in H. apply negb_false_iff in H.
  unfold log_block. rewrite bind_gets. cbv beta.
  unfold py_div. rewrite H. reflexivity.
Qed.

Lemma log_block_total cfg epoch output_dir len i images heatmaps masks outs s :
  meters_ok cfg s ->
  speed_defined (timing s) = true ->
  log_block cfg epoch output_dir len i images heatmaps masks outs s
  = (add_events
       (report_events_upto
          (Nat.min (List.length outs) (scales_available cfg heatmaps masks))
          cfg epoch output_dir len i images heatmaps masks outs
          (train_global_steps s) (timing s) (heatmaps_loss_meter s)
          (push_loss_meter s) (pull_loss_meter s))
       (set_global_steps (train_global_steps s + 1) s),
     if (List.length outs <=? scales_available cfg heatmaps masks)%nat
     then Ok tt else Raise IndexError).
Proof.
  intros Hm H. unfold speed_defined in H. apply negb_true_iff in H.
  unfold log_block, report_events_upto. rewrite bind_gets. cbv beta.
  unfold py_div. rewrite H. rewrite bind_ret.
  repeat (rewrite bind_gets; cbv beta).
  erewrite bind_ok by apply emit_first.
  rewrite bind_gets. cbv beta.
  erewrite bind_ok.
  2:{ apply for_each_emits with
        (g := stage_scalars i (train_global_steps s) (heatmaps_loss_meter s)
                            (push_loss_meter s) (pull_loss_meter s)).
      intros idx evs Hin. apply add_scalars_ok.
      intros k. rewrite Hm. apply in_seq in Hin. lia. }
  unfold modify at 1; unfold bind at 1.
  change (set_global_steps ?z (add_events ?evs s))
    with (add_events evs (set_global_steps z s)).
  rewrite save_loop_total. unfold log_line. rewrite <- app_assoc. reflexivity.
Qed.

(** Lines 105-149 from any state with one meter per stage. *)
Lemma report_part_total cfg epoch output_dir len i images heatmaps masks outs s :
  meters_ok cfg s ->
  report_part cfg epoch output_dir len i images heatmaps masks outs s
  = (add_events
       (report_calls cfg epoch output_dir len i images heatmaps masks outs
                     (train_global_steps s) (timing s) (heatmaps_loss_meter s)
                     (push_loss_meter s) (pull_loss_meter s))
       (set_global_steps (if reporting cfg i (timing s)
                          then train_global_steps s + 1
                          else train_global_steps s)%Z s),
     report_result cfg i heatmaps masks outs (timing s)).
Proof.
  intros Hm. unfold report_part, report_calls, report_result, reporting.
  destruct (Z.eqb_spec (PRINT_FREQ cfg) 0) as [Hpf|Hpf].
  - erewrite bind_raise by (apply print_now_raises; exact Hpf).
    cbn [negb andb]. rewrite state_unchanged. reflexivity.
  - erewrite bind_ok by (apply print_now_ok; exact Hpf). cbn [negb andb].
    destruct (logs_at cfg i); cbn [negb andb].
    + destruct (speed_defined (timing s)) eqn:Hs.
      * apply log_block_total; assumption.
      * rewrite state_unchanged. apply log_block_undefined, Hs.
    + rewrite state_unchanged. reflexivity.
Qed.

(** ** The two halves of an iteration *)

Lemma forward_ok w net images evs s :
  forward w net images (add_events evs s)
  = (add_events (evs ++ [ev_forward w images
                                    (match w with
                                     | Student => model_training s
                                     | Teacher => teacher_training s
                                     end) (grad_enabled s)]) s,
     Ok (net images)).
Proof.
  unfold forward. change (add_event ?e ?x) with (add_events [e] x).
  rewrite add_events_app. destruct w; reflexivity.
Qed.

Lemma forward_first w net images s :
  forward w net images s
  = (add_events [ev_forward w images
                            (match w with
                             | Student => model_training s
                             | Teacher => teacher_training s
                             end) (grad_enabled s)] s,
     Ok (net images)).
Proof. destruct w; reflexivity. Qed.

Lemma covers_spec n hl pl ul :
  covers n (hl, pl, ul) = true ->
  (Z.to_nat n <= List.length hl /\ Z.to_nat n <= List.length pl
   /\ Z.to_nat n <= List.length ul)%nat.
Proof.
  unfold covers. rewrite !andb_true_iff, !Nat.leb_le. tauto.
Qed.

Lemma covers_read n l : covers n l = true -> stages_read n l = true.
Proof.
  destruct l as [[hl pl] ul]. intros H. apply covers_spec in H.
  destruct H as (Hh & Hp & Hu). apply covers_read_from; simpl; assumption.
Qed.

Lemma bind_cong {A B : Type} (m : M A) (k k' : A -> M B) s :
  (forall a s', k a s' = k' a s') -> bind m k s = bind m k' s.
Proof. intros H. unfold bind. destruct (m s) as [s' [a|e]]; auto. Qed.

Lemma loop_body_split cfg model loss_factory epoch output_dir teacher fp16 len i
      images heatmaps masks joints s :
  loop_body cfg model loss_factory epoch output_dir teacher fp16 len
            (i, (images, heatmaps, masks, joints)) s
  = bind (train_part cfg model loss_factory teacher fp16
                     (images, heatmaps, masks, joints))
         (fun _ => report_part cfg epoch output_dir len i images (map cuda heatmaps)
                               (map cuda masks) (model images)) s.
Proof.
  unfold loop_body, train_part, report_part. cbv beta iota.
  rewrite bind_assoc. apply bind_cong. intros _ s0.
  rewrite bind_assoc.
  rewrite !(bind_ok _ _ _ _ _ (forward_first _ _ _ _)).
  rewrite bind_assoc.
  rewrite !(bind_ok _ _ _ _ _ (forward_first _ _ _ _)).
  destruct (loss_factory (model images) (map cuda heatmaps) (map cuda masks)
                         (map cuda joints)) as [[shl spl] sul].
  destruct (loss_factory (teacher images) (map cuda heatmaps) (map cuda masks)
                         (map cuda joints)) as [[thl tpl] tul].
  rewrite bind_assoc. apply bind_cong. intros student_loss s1.
  rewrite bind_assoc. apply bind_cong. intros teacher_loss s2.
  rewrite bind_assoc. apply bind_cong. intros _ s3.
  rewrite bind_assoc. apply bind_cong. intros _ s4.
  reflexivity.
Qed.

Lemma train_returns_spec cfg model loss_factory teacher fp16 b :
  train_returns cfg model loss_factory teacher fp16 b = true ->
  stages_read (NUM_STAGES (LOSS cfg)) (losses_of model loss_factory b) = true
  /\ stages_read (NUM_STAGES (LOSS cfg)) (losses_of teacher loss_factory b) = true
  /\ fp16 || is_tensor (batch_loss cfg model loss_factory teacher b) = true.
Proof. unfold train_returns. rewrite !andb_true_iff. tauto. Qed.

Lemma train_ok_returns cfg model loss_factory teacher fp16 b :
  train_ok cfg model loss_factory teacher fp16 b = true ->
  train_returns cfg model loss_factory teacher fp16 b = true.
Proof.
  unfold train_ok, train_returns. rewrite !andb_true_iff.
  intros [[Hs Ht] Hb]. auto using covers_read.
Qed.

Lemma batch_ok_spec cfg model loss_factory teacher fp16 images heatmaps masks joints :
  batch_ok cfg model loss_factory teacher fp16 (images, heatmaps, masks, joints) = true ->
  PRINT_FREQ cfg <> 0%Z
  /\ train_ok cfg model loss_factory teacher fp16 (images, heatmaps, masks, joints) = true
  /\ (List.length (model images)
      <= scales_available cfg (map cuda heatmaps) (map cuda masks))%nat.
Proof.
  unfold batch_ok, train_ok, scales_available.
  rewrite !andb_true_iff, !Nat.leb_le, negb_true_iff, Z.eqb_neq, !length_map.
  intros [[[[[[Hpf Hs] Ht] Hb] Hz] Hh] Hm]. repeat split; auto; lia.
Qed.

(** The student loop on a state with one meter per stage. *)
Lemma student_loop_meters cfg l n s s' :
  meters_ok cfg s ->
  stages_metered l n 0 (Z.to_nat (NUM_STAGES (LOSS cfg))) s s' ->
  forall k j,
    nth_error (meters_of k s') j
    = option_map (student_update l n k j) (nth_error (meters_of k s) j).
Proof.
  intros Hm (_ & _ & P) k j. rewrite P. simpl.
  destruct (Nat.ltb_spec j (Z.to_nat (NUM_STAGES (LOSS cfg)))); auto.
  destruct (nth_error (meters_of k s) j) eqn:E; auto.
  assert (j < List.length (meters_of k s))%nat by (apply nth_error_Some; congruence).
  rewrite Hm in *; lia.
Qed.

Lemma train_part_spec cfg model loss_factory teacher fp16 images heatmaps masks joints s :
  train_returns cfg model loss_factory teacher fp16 (images, heatmaps, masks, joints)
  = true ->
  meters_ok cfg s ->
  exists s1,
    train_part cfg model loss_factory teacher fp16 (images, heatmaps, masks, joints) s
    = (s1, Ok tt)
    /\ meters_ok cfg s1
    /\ (forall k j,
          nth_error (meters_of k s1) j
          = option_map (student_update
                          (losses_of model loss_factory
                                     (images, heatmaps, masks, joints))
                          (size0 images) k j)
                       (nth_error (meters_of k s) j))
    /\ model_training s1 = model_training s
    /\ teacher_training s1 = teacher_training s
    /\ grad_enabled s1 = grad_enabled s
    /\ train_global_steps s1 = train_global_steps s
    /\ trace s1
       = trace s
         ++ training_events cfg model loss_factory teacher fp16 (model_training s)
                            (teacher_training s) (grad_enabled s)
                            (images, heatmaps, masks, joints)
    /\ timing s1 = timed (timing s).
Proof.
  intros Hok Hm. apply train_returns_spec in Hok. destruct Hok as (Hsr & Htr & Hbw).
  unfold batch_loss in Hbw. unfold training_events, batch_loss.
  unfold losses_of in *. unfold train_part. cbv beta iota.
  erewrite bind_ok by apply update_data_time_ok.
  erewrite bind_ok by apply forward_first.
  erewrite bind_ok by apply forward_ok.
  destruct (loss_factory (model images) (map cuda heatmaps) (map cuda masks)
                         (map cuda joints)) as [[shl spl] sul] eqn:Es.
  destruct (loss_factory (teacher images) (map cuda heatmaps) (map cuda masks)
                         (map cuda joints)) as [[thl tpl] tul] eqn:Et.
  simpl app at 1.
  match goal with |- context [add_events ?e ?s0] => set (s2 := add_events e s0) end.
  assert (Hm2 : meters_ok cfg s2) by (intros k; specialize (Hm k); destruct k; exact Hm).
  unfold stages_read, range in Hsr, Htr.
  destruct (student_loop_spec shl spl sul (size0 images)
              (Z.to_nat (NUM_STAGES (LOSS cfg))) 0 (LInt 0) s2 Hsr)
    as (s3 & E3 & M3).
  { intros k; rewrite Hm2; lia. }
  pose proof (student_loop_meters cfg _ _ _ _ Hm2 M3) as P3.
  destruct M3 as ((O3a & O3b & O3c & O3d & O3e & O3f) & L3 & _).
  unfold range. erewrite bind_ok by exact E3.
  erewrite bind_ok by (apply teacher_loop_spec; exact Htr).
  assert (Hm3 : meters_ok cfg s3) by (intros k; rewrite L3; apply Hm2).
  unfold loss_sum, range in Hbw.
  erewrite bind_ok by (apply optimize_ok; exact Hbw).
  erewrite bind_ok by apply update_batch_time_ok.
  rewrite set_end_ok.
  eexists; split; [reflexivity|].
  subst s2; simpl in O3a, O3b, O3c, O3d, O3e, O3f.
  split; [intros k; specialize (Hm3 k); destruct k; exact Hm3|].
  split.
  { intros k j. replace (nth_error (meters_of k s) j)
      with (nth_error (meters_of k
                         (add_events
                            [ev_forward Student images (model_training s) (grad_enabled s);
                             ev_forward Teacher images (teacher_training s)
                                        (grad_enabled s)]
                            (set_timing
                               (mk_timers (batch_time (timing s))
                                  (meter_update1 (data_time (timing s))
                                     (scalar_sub (clock (clock_reads (timing s)))
                                                 (end_ (timing s))))
                                  (end_ (timing s)) (S (clock_reads (timing s)))) s))) j)
      by (destruct k; reflexivity).
    rewrite <- P3. destruct k; reflexivity. }
  simpl. rewrite O3f. simpl. repeat split; try assumption.
  rewrite O3e, <- !app_assoc. reflexivity.
Qed.

Lemma train_part_returns cfg model loss_factory teacher fp16 b s s1 :
  meters_ok cfg s ->
  train_part cfg model loss_factory teacher fp16 b s = (s1, Ok tt) ->
  train_returns cfg model loss_factory teacher fp16 b = true.
Proof.
  destruct b as [[[images heatmaps] masks] joints].
  intros Hm H. unfold train_returns, batch_loss, losses_of.
  unfold train_part in H. cbv beta iota in H.
  erewrite bind_ok in H by apply update_data_time_ok.
  erewrite bind_ok in H by apply forward_first.
  erewrite bind_ok in H by apply forward_ok.
  destruct (loss_factory (model images) (map cuda heatmaps) (map cuda masks)
                         (map cuda joints)) as [[shl spl] sul].
  destruct (loss_factory (teacher images) (map cuda heatmaps) (map cuda masks)
                         (map cuda joints)) as [[thl tpl] tul].
  unfold bind at 1 in H.
  match type of H with
  | context [for_fold ?f ?xs ?acc ?st] =>
      destruct (for_fold f xs acc st) as [s3 [sl|e]] eqn:E3; [|discriminate H];
      assert (Hm2 : forall k, (0 + Z.to_nat (NUM_STAGES (LOSS cfg))
                               <= List.length (meters_of k st))%nat)
        by (intros k; specialize (Hm k); destruct k; simpl in *; lia)
  end.
  pose proof (student_loop_read _ _ _ _ _ _ _ _ _ E3) as Rs.
  unfold bind at 1 in H.
  match type of H with
  | context [for_fold ?f ?xs ?acc ?st] =>
      destruct (for_fold f xs acc st) as [s4 [tl|e]] eqn:E4; [|discriminate H]
  end.
  pose proof (teacher_loop_read _ _ _ _ _ _ _ _ E4) as Rt.
  unfold stages_read. rewrite Rs, Rt. cbn [andb].
  unfold range in *.
  destruct (student_loop_spec shl spl sul (size0 images) _ 0 (LInt 0) _ Rs Hm2)
    as (s3' & E3' & _).
  rewrite E3' in E3. injection E3 as <- <-.
  rewrite teacher_loop_spec in E4 by exact Rt. injection E4 as <- <-.
  unfold loss_sum, range.
  match goal with |- ?c = true => destruct c eqn:Hb; [reflexivity|] end.
  apply orb_false_elim in Hb. destruct Hb as [-> Hb].
  erewrite bind_raise in H by (apply optimize_raises; exact Hb).
  discriminate H.
Qed.

(** ** One iteration from a state with one meter per stage *)

Lemma iteration_total cfg model loss_factory epoch output_dir teacher fp16 len i
      images heatmaps masks joints s :
  train_returns cfg model loss_factory teacher fp16 (images, heatmaps, masks, joints)
  = true ->
  meters_ok cfg s ->
  exists s',
    loop_body cfg model loss_factory epoch output_dir teacher fp16 len
              (i, (images, heatmaps, masks, joints)) s
    = (s', report_result cfg i (map cuda heatmaps) (map cuda masks) (model images)
                         (timed (timing s)))
    /\ meters_ok cfg s'
    /\ (forall k j,
          nth_error (meters_of k s') j
          = option_map (student_update
                          (losses_of model loss_factory
                                     (images, heatmaps, masks, joints))
                          (size0 images) k j)
                       (nth_error (meters_of k s) j))
    /\ model_training s' = model_training s
    /\ teacher_training s' = teacher_training s
    /\ grad_enabled s' = grad_enabled s
    /\ timing s' = timed (timing s)
    /\ train_global_steps s'
       = (if reporting cfg i (timed (timing s))
          then train_global_steps s + 1 else train_global_steps s)%Z
    /\ trace s'
       = trace s
         ++ training_events cfg model loss_factory teacher fp16 (model_training s)
                            (teacher_training s) (grad_enabled s)
                            (images, heatmaps, masks, joints)
         ++ report_calls cfg epoch output_dir len i images (map cuda heatmaps)
                         (map cuda masks) (model images) (train_global_steps s)
                         (timed (timing s)) (heatmaps_loss_meter s')
                         (push_loss_meter s') (pull_loss_meter s').
Proof.
  intros Hok Hm.
  destruct (train_part_spec cfg model loss_factory teacher fp16 images heatmaps masks
                            joints s Hok Hm)
    as (s1 & E1 & Hm1 & P1 & M1 & T1 & G1 & St1 & Tr1 & Ti1).
  rewrite loop_body_split. erewrite bind_ok by exact E1.
  rewrite report_part_total by exact Hm1. rewrite Ti1, St1.
  eexists; split; [reflexivity|].
  split; [intros k; specialize (Hm1 k); destruct k; exact Hm1|].
  split; [intros k j; rewrite <- P1; destruct k; reflexivity|].
  simpl. repeat split; try assumption.
  rewrite Tr1, <- app_assoc. reflexivity.
Qed.

Lemma iteration_returns cfg model loss_factory epoch output_dir teacher fp16 len i
      images heatmaps masks joints s :
  meters_ok cfg s ->
  snd (loop_body cfg model loss_factory epoch output_dir teacher fp16 len
                 (i, (images, heatmaps, masks, joints)) s) = Ok tt ->
  train_returns cfg model loss_factory teacher fp16 (images, heatmaps, masks, joints)
  = true.
Proof.
  intros Hm H. rewrite loop_body_split in H. unfold bind in H.
  destruct (train_part cfg model loss_factory teacher fp16
                       (images, heatmaps, masks, joints) s) as [s1 [[]|e]] eqn:E;
    [|discriminate H].
  eapply train_part_returns; eauto.
Qed.

(** How lines 105-149 end when they return. *)
Lemma report_result_ok cfg i heatmaps masks outs t :
  report_result cfg i heatmaps masks outs t = Ok tt ->
  reporting cfg i t = logs_at cfg i
  /\ (logs_at cfg i = true ->
      Nat.min (List.length outs) (scales_available cfg heatmaps masks)
      = List.length outs).
Proof.
  unfold report_result, reporting.
  destruct (PRINT_FREQ cfg =? 0)%Z; [discriminate|]. cbn [negb andb].
  destruct (logs_at cfg i); [|split; [reflexivity | discriminate]].
  destruct (speed_defined t); [|discriminate]. cbn [andb].
  destruct (Nat.leb_spec (List.length outs) (scales_available cfg heatmaps masks));
    [|discriminate].
  intros _. split; [reflexivity|]. intros _. apply Nat.min_l. assumption.
Qed.

Lemma report_calls_ok cfg epoch output_dir len i images heatmaps masks outs gs t hm pm um :
  report_result cfg i heatmaps masks outs t = Ok tt ->
  report_calls cfg epoch output_dir len i images heatmaps masks outs gs t hm pm um
  = if logs_at cfg i
    then report_events cfg epoch output_dir len i images heatmaps masks outs gs t hm pm um
    else [].
Proof.
  intros H. apply report_result_ok in H. destruct H as [Hr Hk].
  unfold report_calls, report_events. rewrite Hr.
  destruct (logs_at cfg i); [|reflexivity]. rewrite Hk; reflexivity.
Qed.

(** ** Sorting the calls of a trace *)

Lemma since_app old evs s : trace s = old ++ evs -> since old s = evs.
Proof.
  unfold since; intros ->. rewrite skipn_app, skipn_all, Nat.sub_diag.
  reflexivity.
Qed.

Lemma filter_none {A : Type} (p : A -> bool) l :
  (forall x, In x l -> p x = false) -> filter p l = [].
Proof.
  induction l as [|x l IH]; intros H; simpl; auto.
  rewrite (H x (or_introl eq_refl)). apply IH; intros y Hy; apply H; right; exact Hy.
Qed.

Lemma filter_all {A : Type} (p : A -> bool) l :
  (forall x, In x l -> p x = true) -> filter p l = l.
Proof.
  induction l as [|x l IH]; intros H; simpl; auto.
  rewrite (H x (or_introl eq_refl)). f_equal.
  apply IH; intros y Hy; apply H; right; exact Hy.
Qed.

Lemma in_stage_scalars i gs hm pm um idxs e :
  In e (flat_map (stage_scalars i gs hm pm um) idxs) -> is_add_scalar e = true.
Proof.
  intros H. apply in_flat_map in H. destruct H as (idx & _ & H).
  simpl in H. destruct H as [<-|[<-|[<-|[]]]]; reflexivity.
Qed.

Lemma in_scale_images cfg output_dir i images heatmaps masks outs idxs e :
  In e (map (scale_images cfg output_dir i images heatmaps masks outs) idxs) ->
  is_save_debug_images e = true.
Proof.
  intros H. apply in_map_iff in H. destruct H as (idx & <- & _). reflexivity.
Qed.

(** Closes a goal about the kind of a call once the kind is known. *)
Ltac by_kind e :=
  unfold is_training, is_report in *; destruct e; simpl in *; congruence.

Section Reports.

Variables (scales : nat) (cfg : Cfg) (epoch : Z) (output_dir : string) (len i : nat)
          (images : Tensor) (heatmaps masks outs : list Tensor) (gs : Z) (t : timers)
          (hm pm um : list AverageMeter).

Let reported :=
  report_events_upto scales cfg epoch output_dir len i images heatmaps masks outs gs t
                     hm pm um.

Lemma report_events_reports : filter is_report reported = reported.
Proof.
  apply filter_all. unfold reported, report_events_upto.
  intros e [<-|H]; [reflexivity|].
  apply in_app_or in H. destruct H as [H|H].
  - apply in_stage_scalars in H. by_kind e.
  - apply in_scale_images in H. by_kind e.
Qed.

Lemma report_events_training : filter is_training reported = [].
Proof.
  apply filter_none. intros e H. unfold is_training.
  assert (In e (filter is_report reported))
    by (rewrite report_events_reports; exact H).
  apply filter_In in H0. destruct H0 as [_ ->]. reflexivity.
Qed.

Lemma report_events_log :
  filter is_log_info reported = [log_line epoch len i images t hm pm um].
Proof.
  unfold reported, report_events_upto. simpl. f_equal.
  apply filter_none. intros e H. apply in_app_or in H. destruct H as [H|H].
  - apply in_stage_scalars in H. by_kind e.
  - apply in_scale_images in H. by_kind e.
Qed.

Lemma report_events_scalars :
  filter is_add_scalar reported
  = flat_map (stage_scalars i gs hm pm um) (range (NUM_STAGES (LOSS cfg))).
Proof.
  unfold reported, report_events_upto. simpl. rewrite filter_app.
  rewrite filter_all by (intros e H; eapply in_stage_scalars; exact H).
  rewrite filter_none, app_nil_r; auto.
  intros e H. apply in_scale_images in H. by_kind e.
Qed.

Lemma report_events_images :
  filter is_save_debug_images reported
  = map (scale_images cfg output_dir i images heatmaps masks outs) (seq 0 scales).
Proof.
  unfold reported, report_events_upto. simpl. rewrite filter_app.
  rewrite filter_none
    by (intros e H; apply in_stage_scalars in H; by_kind e).
  apply filter_all. intros e H. eapply in_scale_images; exact H.
Qed.

Lemma length_stage_scalars idxs :
  List.length (flat_map (stage_scalars i gs hm pm um) idxs) = (3 * List.length idxs)%nat.
Proof.
  rewrite (flat_map_constant_length (c := 3)) by reflexivity. lia.
Qed.

Lemma report_calls_reports :
  filter is_report
         (report_calls cfg epoch output_dir len i images heatmaps masks outs gs t hm pm um)
  = report_calls cfg epoch output_dir len i images heatmaps masks outs gs t hm pm um.
Proof.
  apply filter_all. unfold report_calls.
  destruct (reporting cfg i t); [|intros e []].
  unfold report_events_upto. intros e [<-|H]; [reflexivity|].
  apply in_app_or in H. destruct H as [H|H].
  - apply in_stage_scalars in H. by_kind e.
  - apply in_scale_images in H. by_kind e.
Qed.

Lemma report_calls_training :
  filter is_training
         (report_calls cfg epoch output_dir len i images heatmaps masks outs gs t hm pm um)
  = [].
Proof.
  apply filter_none. intros e H. unfold is_training.
  rewrite <- report_calls_reports in H.
  apply filter_In in H. destruct H as [_ ->]. reflexivity.
Qed.

End Reports.

Lemma training_events_training cfg model loss_factory teacher fp16 sm tm g b :
  filter is_training (training_events cfg model loss_factory teacher fp16 sm tm g b)
  = training_events cfg model loss_factory teacher fp16 sm tm g b.
Proof. destruct b as [[[images ?] ?] ?]. reflexivity. Qed.

Lemma training_events_reports cfg model loss_factory teacher fp16 sm tm g b :
  filter is_report (training_events cfg model loss_factory teacher fp16 sm tm g b) = [].
Proof. destruct b as [[[images ?] ?] ?]. reflexivity. Qed.

Lemma backward_losses_app evs1 evs2 :
  backward_losses (evs1 ++ evs2) = backward_losses evs1 ++ backward_losses evs2.
Proof.
  induction evs1 as [|e evs1 IH]; simpl; auto.
  destruct e; simpl; congruence.
Qed.

Lemma backward_losses_reports evs :
  filter is_report evs = evs -> backward_losses evs = [].
Proof.
  induction evs as [|e evs IH]; simpl; auto.
  destruct (is_report e) eqn:E.
  - intros H. injection H as H. destruct e; simpl in *; try discriminate; auto.
  - intros H. assert (In e (filter is_report evs)) by (rewrite H; left; reflexivity).
    apply filter_In in H0. destruct H0 as [_ H0]. congruence.
Qed.

Lemma filter_optimizer_reports evs :
  filter is_report evs = evs -> filter is_optimizer evs = [].
Proof.
  intros H. apply filter_none. intros e He.
  rewrite <- H in He. apply filter_In in He. destruct He as [_ He].
  destruct e; simpl in *; try discriminate; reflexivity.
Qed.

(** ** The tensors of a summed loss *)

Lemma leaves_stage_loss hl pl ul acc idx t :
  In t (leaves (stage_loss hl pl ul acc idx)) ->
  In t (leaves acc) \/ averaged (hl, pl, ul) t.
Proof.
  unfold stage_loss, averaged.
  destruct (nth_error hl idx) as [[ht|]|] eqn:Eh; auto.
  assert (Hh : In (Some ht) (hl ++ pl ++ ul))
    by (apply in_or_app; left; eapply nth_error_In; eauto).
  assert (Hp : forall pt, nth_error pl idx = Some (Some pt) ->
                          In (Some pt) (hl ++ pl ++ ul)).
  { intros pt E. apply in_or_app; right. apply in_or_app; left.
    eapply nth_error_In; eauto. }
  assert (Hu : forall ut, nth_error ul idx = Some (Some ut) ->
                          In (Some ut) (hl ++ pl ++ ul)).
  { intros ut E. apply in_or_app; right. apply in_or_app; right.
    eapply nth_error_In; eauto. }
  destruct (nth_error pl idx) as [[pt|]|], (nth_error ul idx) as [[ut|]|];
    simpl; rewrite ?in_app_iff; simpl; intuition (subst; eauto).
Qed.

Lemma leaves_fold_stage_loss hl pl ul idxs :
  forall acc t,
    In t (leaves (fold_left (stage_loss hl pl ul) idxs acc)) ->
    In t (leaves acc) \/ averaged (hl, pl, ul) t.
Proof.
  induction idxs as [|idx idxs IH]; intros acc t H; simpl in H; auto.
  apply IH in H. destruct H as [H|H]; auto.
  apply leaves_stage_loss in H. exact H.
Qed.

Lemma leaves_loss_sum n l t : In t (leaves (loss_sum n l)) -> averaged l t.
Proof.
  destruct l as [[hl pl] ul]. unfold loss_sum. intros H.
  apply leaves_fold_stage_loss in H. destruct H as [[]|H]. exact H.
Qed.

(** ** Frame rules for the trainer *)

(** Splits a computation along its binds, loops and branches, and leaves the
    writes of the state. *)
Ltac intro_binders := repeat match goal with |- forall _, _ => intro end.

Ltac frame_upto tac Hrefl Htrans :=
  repeat (intro_binders;
          first [ tac
                | apply (preserves_ret _ Hrefl)
                | apply (preserves_raise _ Hrefl)
                | apply (preserves_gets _ Hrefl)
                | apply (preserves_index _ Hrefl)
                | apply (preserves_index_of _ Hrefl)
                | apply (preserves_py_mod _ Hrefl)
                | apply (preserves_for_fold _ Hrefl Htrans)
                | apply (preserves_for_each _ Hrefl Htrans)
                | apply (preserves_bind _ Hrefl Htrans)
                | match goal with
                  | |- preserves _ (match ?x with _ => _ end) => destruct x
                  end ]).

Lemma preserves_timing (R : state -> state -> Prop) :
  (forall s t, R s (set_timing t s)) ->
  preserves R update_data_time /\ preserves R update_batch_time /\ preserves R set_end.
Proof.
  intros H. repeat split; intros s;
    [rewrite update_data_time_ok | rewrite update_batch_time_ok | rewrite set_end_ok];
    apply H.
Qed.

Lemma body_keeps_refl s : body_keeps s s.
Proof.
  split; [reflexivity|]. split; [reflexivity|].
  exists []. rewrite app_nil_r. auto.
Qed.

Lemma body_keeps_trans s1 s2 s3 :
  body_keeps s1 s2 -> body_keeps s2 s3 -> body_keeps s1 s3.
Proof.
  intros (M1 & L1 & evs1 & E1 & F1) (M2 & L2 & evs2 & E2 & F2).
  split; [congruence|]. split; [intros k; rewrite L2; apply L1|].
  exists (evs1 ++ evs2). split.
  - rewrite E2, E1, app_assoc. reflexivity.
  - apply Forall_app; split; auto. rewrite <- M1. exact F2.
Qed.

Lemma body_keeps_emit e : (forall tm, body_call tm e) -> preserves body_keeps (emit e).
Proof.
  intros H s. split; [reflexivity|]. split; [intros k; destruct k; reflexivity|].
  exists [e]. split; [reflexivity|]. constructor; auto.
Qed.

Lemma body_keeps_forward w net images : preserves body_keeps (forward w net images).
Proof.
  intros s. split; [reflexivity|]. split; [intros k; destruct k; reflexivity|].
  eexists; split; [reflexivity|]. constructor; auto.
  destruct w; simpl; auto.
Qed.

Lemma body_keeps_set_meter k idx meter :
  preserves body_keeps
            (modify (fun s => set_meters k (list_set (meters_of k s) idx meter) s)).
Proof.
  intros s. split; [destruct k; reflexivity|].
  split; [intros k'; destruct k, k'; simpl; auto using length_list_set|].
  exists []. rewrite app_nil_r. split; [destruct k; reflexivity | constructor].
Qed.

Lemma body_keeps_set_global_steps z : preserves body_keeps (modify (set_global_steps z)).
Proof.
  intros s. split; [reflexivity|]. split; [intros k; destruct k; reflexivity|].
  exists []. simpl. rewrite app_nil_r. auto.
Qed.

Lemma body_keeps_set_timing s t : body_keeps s (set_timing t s).
Proof.
  split; [reflexivity|]. split; [intros k; destruct k; reflexivity|].
  exists []. simpl. rewrite app_nil_r. auto.
Qed.

Lemma body_keeps_loop_body cfg model loss_factory epoch output_dir teacher fp16 len ib :
  preserves body_keeps
            (loop_body cfg model loss_factory epoch output_dir teacher fp16 len ib).
Proof.
  destruct ib as [i [[[images heatmaps] masks] joints]].
  destruct (preserves_timing body_keeps body_keeps_set_timing) as (Td & Tb & Te).
  unfold loop_body, optimize, print_now, log_block, add_scalars, save_scale,
    meter_val_at, student_stage, teacher_stage, update_meter, py_div.
  frame_upto ltac:(first [exact Td | exact Tb | exact Te])
             body_keeps_refl body_keeps_trans;
    intro_binders;
    first [ apply body_keeps_forward
          | apply body_keeps_emit; intros; exact I
          | apply body_keeps_set_meter
          | apply body_keeps_set_global_steps ].
Qed.

Lemma meters_ok_loop_body cfg model loss_factory epoch output_dir teacher fp16 len ib s :
  meters_ok cfg s ->
  meters_ok cfg
            (fst (loop_body cfg model loss_factory epoch output_dir teacher fp16 len ib s)).
Proof.
  intros Hm k.
  destruct (body_keeps_loop_body cfg model loss_factory epoch output_dir teacher fp16
                                 len ib s) as (_ & L & _).
  rewrite L. apply Hm.
Qed.

Lemma body_keeps_loop cfg model loss_factory epoch output_dir teacher fp16 len ibs :
  preserves body_keeps
            (for_each (loop_body cfg model loss_factory epoch output_dir teacher fp16 len)
                      ibs).
Proof.
  apply (preserves_for_each _ body_keeps_refl body_keeps_trans).
  intros ib. apply body_keeps_loop_body.
Qed.

Lemma quiet_refl s : quiet s s.
Proof. split; [reflexivity|]. exists []. rewrite app_nil_r. auto. Qed.

Lemma quiet_trans s1 s2 s3 : quiet s1 s2 -> quiet s2 s3 -> quiet s1 s3.
Proof.
  intros (G1 & evs1 & E1 & F1) (G2 & evs2 & E2 & F2).
  split; [congruence|]. exists (evs1 ++ evs2). split.
  - rewrite E2, E1, app_assoc. reflexivity.
  - rewrite filter_app, F1, F2. reflexivity.
Qed.

Lemma quiet_emit e : is_report e = false -> preserves quiet (emit e).
Proof.
  intros H s. split; [reflexivity|]. exists [e]. split; [reflexivity|].
  simpl. rewrite H. reflexivity.
Qed.

Lemma quiet_forward w net images : preserves quiet (forward w net images).
Proof.
  intros s. split; [reflexivity|]. eexists; split; [reflexivity|]. reflexivity.
Qed.

Lemma quiet_set_meter k idx meter :
  preserves quiet (modify (fun s => set_meters k (list_set (meters_of k s) idx meter) s)).
Proof.
  intros s. split; [destruct k; reflexivity|].
  exists []. rewrite app_nil_r. split; [destruct k; reflexivity | reflexivity].
Qed.

Lemma quiet_set_timing s t : quiet s (set_timing t s).
Proof. split; [reflexivity|]. exists []. simpl. rewrite app_nil_r. auto. Qed.

Lemma quiet_train_part cfg model loss_factory teacher fp16 b :
  preserves quiet (train_part cfg model loss_factory teacher fp16 b).
Proof.
  destruct b as [[[images heatmaps] masks] joints].
  destruct (preserves_timing quiet quiet_set_timing) as (Td & Tb & Te).
  unfold train_part, optimize, student_stage, teacher_stage, update_meter.
  frame_upto ltac:(first [exact Td | exact Tb | exact Te]) quiet_refl quiet_trans;
    intro_binders;
    first [ apply quiet_forward
          | apply quiet_emit; reflexivity
          | apply quiet_set_meter ].
Qed.

Lemma quiet_report_part cfg epoch output_dir len i images heatmaps masks outs :
  logs_at cfg i = false ->
  preserves quiet (report_part cfg epoch output_dir len i images heatmaps masks outs).
Proof.
  intros Hl s. unfold report_part, print_now, py_mod, bind.
  destruct (PRINT_FREQ cfg =? 0)%Z; [apply quiet_refl|]. simpl.
  unfold logs_at in Hl. rewrite Hl. apply quiet_refl.
Qed.

Lemma quiet_loop_body cfg model loss_factory epoch output_dir teacher fp16 len i b :
  logs_at cfg i = false ->
  preserves quiet
            (loop_body cfg model loss_factory epoch output_dir teacher fp16 len (i, b)).
Proof.
  intros Hl s. destruct b as [[[images heatmaps] masks] joints].
  rewrite loop_body_split.
  apply (preserves_bind quiet quiet_refl quiet_trans).
  - apply quiet_train_part.
  - intros _. apply quiet_report_part, Hl.
Qed.

(** ** Strings: decimal indices in tags *)

Lemma length_append (s1 s2 : string) :
  String.length (s1 ++ s2)%string = (String.length s1 + String.length s2)%nat.
Proof. induction s1 as [|c s1 IH]; simpl; auto. Qed.

Lemma append_inj_r (t : string) :
  forall s1 s2 : string, (s1 ++ t = s2 ++ t)%string -> s1 = s2.
Proof.
  induction s1 as [|c s1 IH]; intros [|c' s2] H; simpl in H; auto.
  - apply (f_equal String.length) in H. simpl in H. rewrite length_append in H. lia.
  - apply (f_equal String.length) in H. simpl in H. rewrite length_append in H. lia.
  - injection H as -> H. f_equal. apply IH, H.
Qed.

Lemma str_nat_inj a b : str_nat a = str_nat b -> a = b.
Proof.
  unfold str_nat. intros H. apply Unsigned.to_uint_inj.
  assert (E : Some (Nat.to_uint a) = Some (Nat.to_uint b))
    by (rewrite <- !NilEmpty.usu, H; reflexivity).
  injection E; auto.
Qed.

Lemma stage_tag_inj (suffix : string) a b :
  ("train_stage" ++ str_nat a ++ suffix)%string
  = ("train_stage" ++ str_nat b ++ suffix)%string -> a = b.
Proof.
  intros H. simpl in H. injection H as H.
  apply str_nat_inj, (append_inj_r suffix), H.
Qed.

Lemma scalar_tags_app evs1 evs2 :
  scalar_tags (evs1 ++ evs2) = scalar_tags evs1 ++ scalar_tags evs2.
Proof.
  induction evs1 as [|e evs1 IH]; simpl; auto.
  destruct e; simpl; congruence.
Qed.

Lemma scalar_tags_stage_scalars i gs hm pm um idxs :
  scalar_tags (flat_map (stage_scalars i gs hm pm um) idxs)
  = flat_map (stage_tags i) idxs.
Proof.
  induction idxs as [|idx idxs IH]; simpl; auto. rewrite IH. reflexivity.
Qed.

Lemma scalar_tags_scale_images cfg output_dir i images heatmaps masks outs idxs :
  scalar_tags (map (scale_images cfg output_dir i images heatmaps masks outs) idxs) = [].
Proof. induction idxs; simpl; auto. Qed.

Lemma nth_error_stage_tags i :
  forall n a k r,
    (k < n)%nat -> (r < 3)%nat ->
    nth_error (flat_map (stage_tags i) (seq a n)) (3 * k + r)
    = nth_error (stage_tags i (a + k)) r.
Proof.
  induction n as [|n IH]; intros a k r Hk Hr; [lia|].
  change (flat_map (stage_tags i) (seq a (S n)))
    with (stage_tags i a ++ flat_map (stage_tags i) (seq (S a) n)).
  assert (L : List.length (stage_tags i a) = 3%nat) by reflexivity.
  destruct k as [|k].
  - rewrite Nat.add_0_r, Nat.mul_0_r. apply nth_error_app1. simpl. lia.
  - rewrite nth_error_app2 by lia.
    replace (3 * S k + r - List.length (stage_tags i a))%nat with (3 * k + r)%nat
      by lia.
    rewrite IH by lia. f_equal. f_equal. lia.
Qed.

(** ** Counting the training calls *)

Lemma filter_training_step evs :
  filter is_step (filter is_training evs) = filter is_step evs.
Proof.
  induction evs as [|e evs IH]; simpl; auto.
  destruct e; simpl; congruence.
Qed.

Lemma filter_training_student_forward evs :
  filter is_student_forward (filter is_training evs) = filter is_student_forward evs.
Proof.
  induction evs as [|e evs IH]; simpl; auto.
  destruct e as [|w ? ? ?| | | | | |]; simpl; try congruence.
  destruct w; simpl; congruence.
Qed.

Lemma filter_training_backward evs :
  backward_losses (filter is_training evs) = backward_losses evs.
Proof.
  induction evs as [|e evs IH]; simpl; auto.
  destruct e; simpl; congruence.
Qed.

Lemma training_events_counts cfg model loss_factory teacher fp16 sm tm g bs :
  let evs := flat_map (training_events cfg model loss_factory teacher fp16 sm tm g) bs in
  List.length (filter is_student_forward evs) = List.length bs
  /\ List.length (backward_losses evs) = List.length bs
  /\ List.length (filter is_step evs) = List.length bs.
Proof.
  induction bs as [|[[[images heatmaps] masks] joints] bs (IH1 & IH2 & IH3)];
    simpl; auto.
Qed.

(** ** The whole loop *)

Lemma do_train_started cfg model data_loader loss_factory epoch output_dir teacher fp16 s :
  do_train cfg model data_loader loss_factory epoch output_dir teacher fp16 s
  = for_each (loop_body cfg model loss_factory epoch output_dir teacher fp16
                        (List.length data_loader))
             (enumerate data_loader) (started cfg s).
Proof. reflexivity. Qed.

Lemma length_new_meters cfg :
  List.length (new_meters cfg) = Z.to_nat (NUM_STAGES (LOSS cfg)).
Proof. unfold new_meters, range. rewrite length_map, length_seq. reflexivity. Qed.

Lemma started_meters_ok cfg s : meters_ok cfg (started cfg s).
Proof. intros k; destruct k; simpl; apply length_new_meters. Qed.

Lemma log_info_training_events cfg model loss_factory teacher fp16 sm tm g b :
  filter is_log_info (training_events cfg model loss_factory teacher fp16 sm tm g b) = [].
Proof. destruct b as [[[images ?] ?] ?]. reflexivity. Qed.

(** A loop that returns has run every iteration to its end. *)
Lemma loop_returns cfg model loss_factory epoch output_dir teacher fp16 len :
  forall bs a s,
    meters_ok cfg s ->
    snd (for_each (loop_body cfg model loss_factory epoch output_dir teacher fp16 len)
                  (combine (seq a (List.length bs)) bs) s) = Ok tt ->
    exists s' evs,
      for_each (loop_body cfg model loss_factory epoch output_dir teacher fp16 len)
               (combine (seq a (List.length bs)) bs) s = (s', Ok tt)
      /\ trace s' = trace s ++ evs
      /\ filter is_training evs
         = flat_map (training_events cfg model loss_factory teacher fp16
                                     (model_training s) (teacher_training s)
                                     (grad_enabled s)) bs
      /\ train_global_steps s'
         = (train_global_steps s
            + Z.of_nat (List.length (filter (logs_at cfg) (seq a (List.length bs)))))%Z
      /\ List.length (filter is_log_info evs)
         = List.length (filter (logs_at cfg) (seq a (List.length bs))).
Proof.
  induction bs as [|b bs IH]; intros a s Hm H.
  - exists s, []. simpl. rewrite app_nil_r, Z.add_0_r. repeat split; auto.
  - destruct b as [[[images heatmaps] masks] joints].
    cbn [List.length seq combine] in H |- *. rewrite for_each_cons in H |- *.
    unfold batch in *.
    destruct (loop_body cfg model loss_factory epoch output_dir teacher fp16 len
                        (a, (images, heatmaps, masks, joints)) s)
      as [s1 [[]|e]] eqn:E1; [|discriminate H].
    assert (Hret : train_returns cfg model loss_factory teacher fp16
                                 (images, heatmaps, masks, joints) = true).
    { apply (iteration_returns cfg model loss_factory epoch output_dir teacher fp16
                               len a images heatmaps masks joints s Hm).
      unfold batch in *. rewrite E1. reflexivity. }
    destruct (iteration_total cfg model loss_factory epoch output_dir teacher fp16 len a
                              images heatmaps masks joints s Hret Hm)
      as (s1' & E1' & Hm1 & _ & M1 & T1 & G1 & _ & St1 & Tr1).
    unfold batch in *. rewrite E1 in E1'. injection E1' as <- Hres.
    symmetry in Hres.
    rewrite (report_calls_ok _ _ _ _ _ _ _ _ _ _ _ _ _ _ Hres) in Tr1.
    destruct (report_result_ok _ _ _ _ _ _ Hres) as [Hrep _]. rewrite Hrep in St1.
    destruct (IH (S a) s1 Hm1 H) as (s2 & evs & E2 & Tr2 & F2 & G2 & L2).
    match type of Tr1 with _ = _ ++ ?new => exists s2, (new ++ evs) end.
    split; [exact E2|].
    split; [rewrite Tr2, Tr1, <- !app_assoc; reflexivity|].
    split; [|split].
    + rewrite !filter_app, training_events_training, F2, M1, T1, G1.
      simpl flat_map. rewrite <- app_assoc. f_equal.
      destruct (logs_at cfg a); [|reflexivity].
      unfold report_events. rewrite report_events_training. reflexivity.
    + rewrite G2, St1. cbn [filter].
      destruct (logs_at cfg a); cbn [List.length]; lia.
    + rewrite !filter_app, !length_app, L2, log_info_training_events. cbn [filter].
      destruct (logs_at cfg a); cbn [List.length]; [|reflexivity].
      unfold report_events. rewrite report_events_log. reflexivity.
Qed.

(** ** When a loss is a tensor *)

Lemma is_tensor_stage_loss hl pl ul acc idx :
  is_tensor (stage_loss hl pl ul acc idx)
  = is_tensor acc || match nth_error hl idx with
                     | Some (Some _) => true
                     | _ => false
                     end.
Proof.
  unfold stage_loss.
  destruct (nth_error hl idx) as [[ht|]|]; simpl; rewrite ?orb_false_r; auto.
  destruct (nth_error pl idx) as [[pt|]|], (nth_error ul idx) as [[ut|]|]; simpl;
    rewrite ?orb_true_r; reflexivity.
Qed.

Lemma is_tensor_fold_stage_loss hl pl ul idxs :
  forall acc,
    is_tensor (fold_left (stage_loss hl pl ul) idxs acc)
    = is_tensor acc || existsb (fun idx => match nth_error hl idx with
                                           | Some (Some _) => true
                                           | _ => false
                                           end) idxs.
Proof.
  induction idxs as [|idx idxs IH]; intros acc; simpl.
  - rewrite orb_false_r. reflexivity.
  - rewrite IH, is_tensor_stage_loss, orb_assoc. reflexivity.
Qed.

Lemma is_tensor_loss_sum n l : is_tensor (loss_sum n l) = has_heatmaps_loss n l.
Proof.
  destruct l as [[hl pl] ul]. unfold loss_sum, has_heatmaps_loss.
  rewrite is_tensor_fold_stage_loss. reflexivity.
Qed.

Lemma is_tensor_batch_loss cfg model loss_factory teacher b :
  is_tensor (batch_loss cfg model loss_factory teacher b)
  = has_heatmaps_loss (NUM_STAGES (LOSS cfg)) (losses_of model loss_factory b)
    || has_heatmaps_loss (NUM_STAGES (LOSS cfg)) (losses_of teacher loss_factory b).
Proof.
  unfold batch_loss, blend. simpl. rewrite !is_tensor_loss_sum.
  rewrite orb_false_r. reflexivity.
Qed.


Lemma filter_log_info_reports evs : filter is_report evs = [] -> filter is_log_info evs = [].
Proof.
  intros H. apply filter_none. intros e He.
  destruct (is_log_info e) eqn:E; [|reflexivity].
  assert (Hin : In e (filter is_report evs)).
  { apply filter_In. split; [exact He|]. unfold is_report. rewrite E. reflexivity. }
  rewrite H in Hin. destruct Hin.
Qed.

(** ** One iteration, by its calls *)

Section Calls.

Variables (cfg : Cfg) (model : Tensor -> list Tensor)
          (loss_factory : list Tensor -> list Tensor -> list Tensor -> list Tensor -> losses)
          (epoch : Z) (output_dir : string) (teacher : Tensor -> list Tensor)
          (fp16 : bool) (len i : nat)
          (images : Tensor) (heatmaps masks joints : list Tensor).

Let b : batch := (images, heatmaps, masks, joints).

(** The calls of one iteration whose training half returns, and the state
    it leaves. *)
Lemma iteration_calls s :
  train_returns cfg model loss_factory teacher fp16 b = true ->
  meters_ok cfg s ->
  let r := loop_body cfg model loss_factory epoch output_dir teacher fp16 len (i, b) s in
  let s' := fst r in
  snd r = report_result cfg i (map cuda heatmaps) (map cuda masks) (model images)
                        (timed (timing s))
  /\ (forall k j,
        nth_error (meters_of k s') j
        = option_map (student_update (losses_of model loss_factory b) (size0 images) k j)
                     (nth_error (meters_of k s) j))
  /\ timing s' = timed (timing s)
  /\ train_global_steps s'
     = (if reporting cfg i (timed (timing s))
        then train_global_steps s + 1 else train_global_steps s)%Z
  /\ since (trace s) s'
     = training_events cfg model loss_factory teacher fp16 (model_training s)
                       (teacher_training s) (grad_enabled s) b
       ++ report_calls cfg epoch output_dir len i images (map cuda heatmaps)
                       (map cuda masks) (model images) (train_global_steps s)
                       (timed (timing s)) (heatmaps_loss_meter s')
                       (push_loss_meter s') (pull_loss_meter s').
Proof.
  intros Hok Hm.
  destruct (iteration_total cfg model loss_factory epoch output_dir teacher fp16
              len i images heatmaps masks joints s Hok Hm)
    as (s1 & E & _ & P & _ & _ & _ & Ti & G & Tr).
  subst b. unfold batch in *. rewrite E. simpl.
  repeat split; auto. apply since_app, Tr.
Qed.

(** The loss handed to [backward] and the training calls of an iteration
    whose training half returns. *)
Lemma iteration_backward s :
  train_returns cfg model loss_factory teacher fp16 b = true ->
  meters_ok cfg s ->
  let calls :=
    since (trace s)
          (fst (loop_body cfg model loss_factory epoch output_dir teacher fp16 len
                          (i, b) s)) in
  backward_losses calls = [batch_loss cfg model loss_factory teacher b]
  /\ filter is_optimizer calls
     = optimizer_events fp16 (batch_loss cfg model loss_factory teacher b)
  /\ filter is_training calls
     = training_events cfg model loss_factory teacher fp16 (model_training s)
                       (teacher_training s) (grad_enabled s) b.
Proof.
  intros Hok Hm calls.
  destruct (iteration_calls s Hok Hm) as (_ & _ & _ & _ & Tr).
  subst calls. rewrite Tr.
  rewrite backward_losses_app, !filter_app.
  rewrite (backward_losses_reports _ (report_calls_reports _ _ _ _ _ _ _ _ _ _ _ _ _ _)).
  rewrite (filter_optimizer_reports _ (report_calls_reports _ _ _ _ _ _ _ _ _ _ _ _ _ _)).
  rewrite report_calls_training, training_events_training, !app_nil_r.
  repeat split.
Qed.

(** An iteration whose training half raises reports nothing. *)
Lemma iteration_stopped s :
  meters_ok cfg s ->
  train_returns cfg model loss_factory teacher fp16 b = false ->
  filter is_report
         (since (trace s)
                (fst (loop_body cfg model loss_factory epoch output_dir teacher fp16 len
                                (i, b) s))) = [].
Proof.
  intros Hm R. unfold b. rewrite loop_body_split. unfold bind.
  pose proof (quiet_train_part cfg model loss_factory teacher fp16
                               (images, heatmaps, masks, joints) s) as Q.
  destruct (train_part cfg model loss_factory teacher fp16
                       (images, heatmaps, masks, joints) s) as [s1 [[]|e]] eqn:E.
  - apply train_part_returns in E; [|exact Hm]. unfold b in R. congruence.
  - destruct Q as (_ & evs & Tr & F). simpl in Tr |- *.
    rewrite (since_app _ _ _ Tr). exact F.
Qed.

(** An iteration that writes its log line has trained and has a speed to
    show. *)
Lemma iteration_logs s :
  meters_ok cfg s ->
  filter is_log_info
         (since (trace s)
                (fst (loop_body cfg model loss_factory epoch output_dir teacher fp16 len
                                (i, b) s))) <> [] ->
  train_returns cfg model loss_factory teacher fp16 b = true
  /\ reporting cfg i (timed (timing s)) = true.
Proof.
  intros Hm H.
  destruct (train_returns cfg model loss_factory teacher fp16 b) eqn:R.
  - split; [reflexivity|].
    destruct (iteration_calls s R Hm) as (_ & _ & _ & _ & Tr).
    cbv zeta in Tr. rewrite Tr, filter_app, log_info_training_events in H.
    unfold report_calls in H.
    destruct (reporting cfg i (timed (timing s))); [reflexivity|].
    exfalso. apply H. reflexivity.
  - exfalso. apply H. apply filter_log_info_reports, iteration_stopped; assumption.
Qed.

End Calls.

(** * The claims *)

Section Iteration.

Variables (cfg : Cfg) (model : Tensor -> list Tensor)
          (loss_factory : list Tensor -> list Tensor -> list Tensor -> list Tensor -> losses)
          (epoch : Z) (output_dir : string) (fp16 : bool) (len i : nat)
          (images : Tensor) (heatmaps masks joints : list Tensor).

Let b : batch := (images, heatmaps, masks, joints).
Let num_stages := NUM_STAGES (LOSS cfg).

Lemma batch_ok_returns model0 teacher :
  batch_ok cfg model0 loss_factory teacher fp16 b = true ->
  train_returns cfg model0 loss_factory teacher fp16 b = true.
Proof.
  intros H. apply batch_ok_spec in H. destruct H as (_ & H & _).
  apply train_ok_returns, H.
Qed.

(** C5 (amended): logging and metric emission are interleaved with training.
    At a batch index [i] with [i % cfg.PRINT_FREQ == 0] and [cfg.RANK == 0],
    an iteration that raises no exception reports exactly one log line, then
    three scalars (heatmaps, push, pull) for each of the
    [cfg.LOSS.NUM_STAGES] stages, then one set of debug images for each
    output scale of the student, and [train_global_steps] goes up by one; at
    every other batch index nothing is reported and [train_global_steps]
    keeps its value, whether the iteration returns or raises. *)
Theorem C5_reporting_follows_print_freq teacher s :
  meters_ok cfg s ->
  let r := loop_body cfg model loss_factory epoch output_dir teacher fp16 len (i, b) s in
  let s' := fst r in
  let reported := filter is_report (since (trace s) s') in
  (logs_at cfg i = true ->
   snd r = Ok tt ->
   reported
   = report_events cfg epoch output_dir len i images
                   (map cuda heatmaps) (map cuda masks) (model images)
                   (train_global_steps s) (timing s') (heatmaps_loss_meter s')
                   (push_loss_meter s') (pull_loss_meter s')
   /\ List.length (filter is_log_info reported) = 1%nat
   /\ filter is_add_scalar reported
      = flat_map (stage_scalars i (train_global_steps s) (heatmaps_loss_meter s')
                                (push_loss_meter s') (pull_loss_meter s'))
                 (range num_stages)
   /\ List.length (filter is_add_scalar reported) = (3 * Z.to_nat num_stages)%nat
   /\ List.length (filter is_save_debug_images reported) = List.length (model images)
   /\ train_global_steps s' = (train_global_steps s + 1)%Z)
  /\ (logs_at cfg i = false ->
      reported = [] /\ train_global_steps s' = train_global_steps s).
Proof.
  intros Hm r s' reported. split.
  - intros Hlog Hret.
    assert (Hok : train_returns cfg model loss_factory teacher fp16 b = true)
      by (eapply iteration_returns; [exact Hm | exact Hret]).
    destruct (iteration_calls cfg model loss_factory epoch output_dir teacher fp16 len i
                              images heatmaps masks joints s Hok Hm)
      as (Res & _ & Ti & G & Tr).
    fold b r in Res. fold b r s' in Ti, G, Tr. rewrite Hret in Res. symmetry in Res.
    rewrite (report_calls_ok _ _ _ _ _ _ _ _ _ _ _ _ _ _ Res), Hlog, <- Ti in Tr.
    destruct (report_result_ok _ _ _ _ _ _ Res) as [Hrep _].
    rewrite Hrep, Hlog in G.
    subst reported. rewrite Tr, filter_app, training_events_reports, app_nil_l.
    unfold report_events. rewrite report_events_reports.
    rewrite report_events_log, report_events_scalars, report_events_images.
    rewrite length_stage_scalars, length_map, length_seq.
    unfold range. rewrite length_seq. repeat split; auto.
  - intros Hlog.
    destruct (quiet_loop_body cfg model loss_factory epoch output_dir teacher fp16 len
                              i b Hlog s) as (G & evs & Tr & F).
    fold r s' in G, Tr. subst reported. rewrite (since_app _ _ _ Tr). auto.
Qed.

(** C6: in every logging event, that is in every iteration at a batch index
    [i] that writes its log line, the heatmaps scalar of every stage is
    written under the tag ['train_stage{i}_heatmaps_loss'], built from the
    batch index, so all stages share one tag, while the push and pull
    scalars of stage [idx] are written under tags built from [idx], which
    differ from stage to stage. *)
Theorem C6_heatmaps_tag_uses_batch_index teacher s :
  meters_ok cfg s ->
  let calls :=
    since (trace s)
          (fst (loop_body cfg model loss_factory epoch output_dir teacher fp16 len
                          (i, b) s)) in
  filter is_log_info calls <> [] ->
  let tags := scalar_tags calls in
  List.length tags = (3 * Z.to_nat num_stages)%nat
  /\ (forall idx,
        (idx < Z.to_nat num_stages)%nat ->
        nth_error tags (3 * idx)
        = Some ("train_stage" ++ str_nat i ++ "_heatmaps_loss")%string
        /\ nth_error tags (3 * idx + 1)
           = Some ("train_stage" ++ str_nat idx ++ "_push_loss")%string
        /\ nth_error tags (3 * idx + 2)
           = Some ("train_stage" ++ str_nat idx ++ "_pull_loss")%string)
  /\ (forall idx1 idx2,
        (idx1 < Z.to_nat num_stages)%nat -> (idx2 < Z.to_nat num_stages)%nat ->
        idx1 <> idx2 ->
        nth_error tags (3 * idx1) = nth_error tags (3 * idx2)
        /\ nth_error tags (3 * idx1 + 1) <> nth_error tags (3 * idx2 + 1)
        /\ nth_error tags (3 * idx1 + 2) <> nth_error tags (3 * idx2 + 2)).
Proof.
  intros Hm calls Hlog tags.
  destruct (iteration_logs cfg model loss_factory epoch output_dir teacher fp16 len i
                           images heatmaps masks joints s Hm Hlog) as [Hok Hrep].
  destruct (iteration_calls cfg model loss_factory epoch output_dir teacher fp16 len i
                            images heatmaps masks joints s Hok Hm)
    as (_ & _ & _ & _ & Tr).
  assert (E : tags = flat_map (stage_tags i) (seq 0 (Z.to_nat num_stages))).
  { subst tags calls. fold b in Tr. cbv zeta in Tr. rewrite Tr.
    unfold report_calls. rewrite Hrep. unfold report_events_upto.
    rewrite scalar_tags_app.
    replace (scalar_tags (training_events _ _ _ _ _ _ _ _ b)) with (@nil string)
      by reflexivity.
    simpl.
    rewrite scalar_tags_app, scalar_tags_stage_scalars, scalar_tags_scale_images.
    rewrite app_nil_r. reflexivity. }
  assert (N : forall idx r,
             (idx < Z.to_nat num_stages)%nat -> (r < 3)%nat ->
             nth_error tags (3 * idx + r) = nth_error (stage_tags i idx) r).
  { intros idx r Hidx Hr. rewrite E, nth_error_stage_tags by assumption.
    reflexivity. }
  split; [|split].
  - rewrite E, (flat_map_constant_length (c := 3)) by reflexivity.
    rewrite length_seq. lia.
  - intros idx Hidx.
    rewrite <- (Nat.add_0_r (3 * idx)) at 1.
    rewrite !N by lia. repeat split.
  - intros idx1 idx2 H1 H2 Hne.
    rewrite <- (Nat.add_0_r (3 * idx1)) at 1.
    rewrite <- (Nat.add_0_r (3 * idx2)) at 1.
    rewrite !N by lia. split; [reflexivity|].
    split; intros H; apply Hne;
      [apply (stage_tag_inj "_push_loss") | apply (stage_tag_inj "_pull_loss")];
      simpl in H |- *; congruence.
Qed.


(** C1 (as the code has it): whatever student is trained, the teacher's
    operand of the blended loss handed to [backward] is the same expression,
    the teacher's own loss against the ground truth: every tensor in it is a
    loss the loss factory returned for the teacher's outputs and the targets,
    averaged.  Only the other operand is built from the student's outputs. *)
Theorem C1_teacher_term_ignores_student model' teacher s :
  batch_ok cfg model loss_factory teacher fp16 b = true ->
  batch_ok cfg model' loss_factory teacher fp16 b = true ->
  meters_ok cfg s ->
  let teacher_term := loss_sum num_stages (losses_of teacher loss_factory b) in
  backward_losses
    (since (trace s)
           (fst (loop_body cfg model loss_factory epoch output_dir teacher fp16 len
                           (i, b) s)))
  = [blend (loss_sum num_stages (losses_of model loss_factory b)) teacher_term]
  /\ backward_losses
       (since (trace s)
              (fst (loop_body cfg model' loss_factory epoch output_dir teacher fp16 len
                              (i, b) s)))
     = [blend (loss_sum num_stages (losses_of model' loss_factory b)) teacher_term]
  /\ forall t, In t (leaves teacher_term) ->
                averaged (losses_of teacher loss_factory b) t.
Proof.
  intros Hok Hok' Hm teacher_term.
  destruct (iteration_backward cfg model loss_factory epoch output_dir teacher fp16 len
                               i images heatmaps masks joints s
                               (batch_ok_returns model teacher Hok) Hm) as (B & _).
  destruct (iteration_backward cfg model' loss_factory epoch output_dir teacher fp16 len
                               i images heatmaps masks joints s
                               (batch_ok_returns model' teacher Hok') Hm) as (B' & _).
  split; [exact B|]. split; [exact B'|].
  intros t. apply leaves_loss_sum.
Qed.


(** C3 (amended): on every batch on which the loop body raises no exception
    exactly one loss is backpropagated, between [optimizer.zero_grad()] and
    [optimizer.step()], and it is [student_loss * 0.5 + 0.5 * teacher_loss],
    where each of the two is the sum, over the stages whose heatmaps loss is
    not [None], of that heatmaps loss and of the push and pull losses of the
    stage that are not [None], each averaged over dimension 0. *)
Theorem C3_blended_loss_backpropagated_once teacher s :
  meters_ok cfg s ->
  snd (loop_body cfg model loss_factory epoch output_dir teacher fp16 len (i, b) s)
  = Ok tt ->
  let student_loss := loss_sum num_stages (losses_of model loss_factory b) in
  let teacher_loss := loss_sum num_stages (losses_of teacher loss_factory b) in
  filter is_optimizer
         (since (trace s)
                (fst (loop_body cfg model loss_factory epoch output_dir teacher fp16
                                len (i, b) s)))
  = [ev_zero_grad;
     ev_backward fp16 (LAdd (LMul student_loss (LFloat 0.5%float))
                            (LMul (LFloat 0.5%float) teacher_loss));
     ev_step].
Proof.
  intros Hm Hret student_loss teacher_loss.
  assert (Hok : train_returns cfg model loss_factory teacher fp16 b = true)
    by (eapply iteration_returns; [exact Hm | exact Hret]).
  destruct (iteration_backward cfg model loss_factory epoch output_dir teacher fp16 len
                               i images heatmaps masks joints s Hok Hm) as (_ & O & _).
  exact O.
Qed.

End Iteration.

Lemma student_stage_gated hl pl ul pl' ul' n acc idx s :
  (forall ht, nth_error hl idx = Some (Some ht) ->
              nth_error pl' idx = nth_error pl idx
              /\ nth_error ul' idx = nth_error ul idx) ->
  student_stage hl pl' ul' n acc idx s = student_stage hl pl ul n acc idx s.
Proof.
  intros H. unfold student_stage, bind, index at 1 4.
  destruct (nth_error hl idx) as [[ht|]|]; simpl; auto.
  destruct (H ht eq_refl) as [Hp Hu].
  destruct (update_meter Heatmaps idx (item (mean0 ht)) n s) as [s1 [[]|e]]; auto.
  unfold index. rewrite Hp, Hu. reflexivity.
Qed.

Lemma teacher_stage_gated hl pl ul pl' ul' acc idx s :
  (forall ht, nth_error hl idx = Some (Some ht) ->
              nth_error pl' idx = nth_error pl idx
              /\ nth_error ul' idx = nth_error ul idx) ->
  teacher_stage hl pl' ul' acc idx s = teacher_stage hl pl ul acc idx s.
Proof.
  intros H. unfold teacher_stage, bind, index at 1 4.
  destruct (nth_error hl idx) as [[ht|]|]; simpl; auto.
  destruct (H ht eq_refl) as [Hp Hu].
  unfold index. rewrite Hp, Hu. reflexivity.
Qed.

(** C8: the push and pull losses of a stage count only when its heatmaps
    loss is there.  A stage whose heatmaps loss is [None] leaves the running
    loss and the state (so every meter) as they were, whatever its push and
    pull losses are, for the student as for the teacher; hence push and pull
    lists that differ only at such stages give the same loss and the same
    meters. *)
Theorem C8_push_pull_gated_by_heatmaps hl pl ul pl' ul' n num_stages acc s :
  (forall idx ht, nth_error hl idx = Some (Some ht) ->
                  nth_error pl' idx = nth_error pl idx
                  /\ nth_error ul' idx = nth_error ul idx) ->
  (forall idx, nth_error hl idx = Some None ->
               student_stage hl pl ul n acc idx s = (s, Ok acc)
               /\ teacher_stage hl pl ul acc idx s = (s, Ok acc))
  /\ for_fold (student_stage hl pl' ul' n) (range num_stages) acc s
     = for_fold (student_stage hl pl ul n) (range num_stages) acc s
  /\ for_fold (teacher_stage hl pl' ul') (range num_stages) acc s
     = for_fold (teacher_stage hl pl ul) (range num_stages) acc s.
Proof.
  intros H. split; [|split].
  - intros idx Hn. unfold student_stage, teacher_stage, bind, index.
    rewrite Hn. split; reflexivity.
  - apply for_fold_ext. intros idx _ acc0 s0.
    apply student_stage_gated. intros ht; apply H.
  - apply for_fold_ext. intros idx _ acc0 s0.
    apply teacher_stage_gated. intros ht; apply H.
Qed.

(** C4 (amended): one call of [do_train] runs one training-loop iteration for
    each batch the data loader yields.  When the call raises no exception,
    its training calls are, after the [model.train()] call and batch after
    batch in the loader's order, the two forward passes, [zero_grad], the
    backward pass of the blended loss and the optimizer step: as many
    student forward passes, backward passes and steps as there are
    batches. *)
Theorem C4_one_iteration_per_batch cfg model data_loader loss_factory epoch output_dir
        teacher fp16 s :
  let run := do_train cfg model data_loader loss_factory epoch output_dir teacher fp16 s in
  let calls := since (trace s) (fst run) in
  snd run = Ok tt ->
  filter is_training calls
  = ev_model_train
    :: flat_map (training_events cfg model loss_factory teacher fp16 true
                                 (teacher_training s) (grad_enabled s))
                data_loader
  /\ List.length (filter is_student_forward calls) = List.length data_loader
  /\ List.length (backward_losses calls) = List.length data_loader
  /\ List.length (filter is_step calls) = List.length data_loader.
Proof.
  intros run calls Hret. subst calls run.
  rewrite do_train_started in Hret |- *. unfold enumerate in *.
  destruct (loop_returns cfg model loss_factory epoch output_dir teacher fp16
              (List.length data_loader) data_loader 0 (started cfg s)
              (started_meters_ok cfg s) Hret)
    as (s' & evs & E & Tr & F & _ & _).
  rewrite E. simpl fst.
  assert (Trs : trace s' = trace s ++ ev_model_train :: evs)
    by (rewrite Tr; simpl; rewrite <- app_assoc; reflexivity).
  rewrite (since_app _ _ _ Trs).
  assert (Ft : filter is_training (ev_model_train :: evs)
               = ev_model_train
                 :: flat_map (training_events cfg model loss_factory teacher fp16 true
                                              (teacher_training s) (grad_enabled s))
                             data_loader)
    by (simpl; f_equal; exact F).
  destruct (training_events_counts cfg model loss_factory teacher fp16 true
              (teacher_training s) (grad_enabled s) data_loader) as (C1 & C2 & C3).
  split; [exact Ft|].
  rewrite <- filter_training_student_forward, <- filter_training_backward,
    <- filter_training_step, Ft.
  simpl. auto.
Qed.

(** * Further properties *)

(** ** The training half of an iteration *)

Lemma train_part_losses cfg model loss_factory teacher fp16 images heatmaps masks joints s :
  stages_read (NUM_STAGES (LOSS cfg))
              (losses_of model loss_factory (images, heatmaps, masks, joints)) = true ->
  stages_read (NUM_STAGES (LOSS cfg))
              (losses_of teacher loss_factory (images, heatmaps, masks, joints)) = true ->
  meters_ok cfg s ->
  exists s',
    train_part cfg model loss_factory teacher fp16 (images, heatmaps, masks, joints) s
    = (optimize fp16 (batch_loss cfg model loss_factory teacher
                                 (images, heatmaps, masks, joints)) ;;;
       update_batch_time ;;; set_end) s'
    /\ (forall k j,
          nth_error (meters_of k s') j
          = option_map (student_update
                          (losses_of model loss_factory
                                     (images, heatmaps, masks, joints))
                          (size0 images) k j)
                       (nth_error (meters_of k s) j))
    /\ train_global_steps s' = train_global_steps s
    /\ trace s'
       = trace s ++ [ev_forward Student images (model_training s) (grad_enabled s);
                     ev_forward Teacher images (teacher_training s) (grad_enabled s)].
Proof.
  intros Hsr Htr Hm.
  unfold batch_loss. unfold losses_of in *. unfold train_part. cbv beta iota.
  erewrite bind_ok by apply update_data_time_ok.
  erewrite bind_ok by apply forward_first.
  erewrite bind_ok by apply forward_ok.
  destruct (loss_factory (model images) (map cuda heatmaps) (map cuda masks)
                         (map cuda joints)) as [[shl spl] sul] eqn:Es.
  destruct (loss_factory (teacher images) (map cuda heatmaps) (map cuda masks)
                         (map cuda joints)) as [[thl tpl] tul] eqn:Et.
  simpl app at 1.
  match goal with |- context [add_events ?e ?s0] => set (s2 := add_events e s0) end.
  assert (Hm2 : meters_ok cfg s2) by (intros k; specialize (Hm k); destruct k; exact Hm).
  unfold stages_read, range in Hsr, Htr.
  destruct (student_loop_spec shl spl sul (size0 images)
              (Z.to_nat (NUM_STAGES (LOSS cfg))) 0 (LInt 0) s2 Hsr)
    as (s3 & E3 & M3).
  { intros k; rewrite Hm2; lia. }
  pose proof (student_loop_meters cfg _ _ _ _ Hm2 M3) as P3.
  destruct M3 as ((O3a & O3b & O3c & O3d & O3e & O3f) & L3 & _).
  unfold range. erewrite bind_ok by exact E3.
  erewrite bind_ok by (apply teacher_loop_spec; exact Htr).
  exists s3. split; [reflexivity|].
  subst s2; simpl in O3a, O3e.
  split; [|split; assumption].
  intros k j. rewrite P3. destruct k; reflexivity.
Qed.

Lemma for_fold_app {A B : Type} (f : B -> A -> M B) xs ys acc s :
  for_fold f (xs ++ ys) acc s
  = match for_fold f xs acc s with
    | (s', Ok acc') => for_fold f ys acc' s'
    | (s', Raise e) => (s', Raise e)
    end.
Proof.
  revert acc s; induction xs as [|x xs IH]; intros acc s; [reflexivity|].
  simpl app. rewrite !for_fold_cons.
  destruct (f acc x s) as [s' [acc'|e]]; auto.
Qed.

Lemma range_split n k :
  (k < Z.to_nat n)%nat ->
  range n = seq 0 k ++ k :: seq (S k) (Z.to_nat n - S k).
Proof.
  intros H. unfold range.
  replace (Z.to_nat n) with (k + S (Z.to_nat n - S k))%nat at 1 by lia.
  rewrite seq_app. reflexivity.
Qed.

Lemma enumerate_cons {A : Type} (x : A) xs :
  enumerate (x :: xs) = (0%nat, x) :: combine (seq 1 (List.length xs)) xs.
Proof. reflexivity. Qed.

Lemma teacher_stage_missing hl pl ul acc idx s :
  nth_error hl idx = None ->
  teacher_stage hl pl ul acc idx s = (s, Raise IndexError).
Proof.
  intros H. unfold teacher_stage, bind, index. rewrite H. reflexivity.
Qed.

Lemma student_stage_missing hl pl ul n acc idx s :
  nth_error hl idx = None ->
  student_stage hl pl ul n acc idx s = (s, Raise IndexError).
Proof.
  intros H. unfold student_stage, bind, index. rewrite H. reflexivity.
Qed.

Section Errors.

Variables (cfg : Cfg) (model : Tensor -> list Tensor)
          (loss_factory : list Tensor -> list Tensor -> list Tensor -> list Tensor -> losses)
          (epoch : Z) (output_dir : string) (teacher : Tensor -> list Tensor)
          (len i : nat) (images : Tensor) (heatmaps masks joints : list Tensor).

Let b : batch := (images, heatmaps, masks, joints).
Let num_stages := NUM_STAGES (LOSS cfg).

(** X1: Without [fp16], [loss.backward()] is reached with a tensor exactly when
    some stage below [cfg.LOSS.NUM_STAGES] has a heatmaps loss, for the
    student or for the teacher.  Then the blended loss is backpropagated;
    otherwise the iteration stops with [AttributeError] right after
    [optimizer.zero_grad()], having made no backward pass and no optimizer
    step. *)
Theorem backward_needs_a_heatmaps_loss s :
  covers num_stages (losses_of model loss_factory b) = true ->
  covers num_stages (losses_of teacher loss_factory b) = true ->
  meters_ok cfg s ->
  let r := loop_body cfg model loss_factory epoch output_dir teacher false len (i, b) s in
  if has_heatmaps_loss num_stages (losses_of model loss_factory b)
     || has_heatmaps_loss num_stages (losses_of teacher loss_factory b)
  then backward_losses (since (trace s) (fst r))
       = [batch_loss cfg model loss_factory teacher b]
  else snd r = Raise AttributeError
       /\ since (trace s) (fst r)
          = [ev_forward Student images (model_training s) (grad_enabled s);
             ev_forward Teacher images (teacher_training s) (grad_enabled s);
             ev_zero_grad].
Proof.
  intros Hsc Htc Hm r.
  apply covers_read in Hsc, Htc.
  unfold num_stages. rewrite <- is_tensor_batch_loss.
  destruct (is_tensor (batch_loss cfg model loss_factory teacher b)) eqn:Ht.
  - apply (iteration_backward cfg model loss_factory epoch output_dir teacher false len
                              i images heatmaps masks joints s); [|exact Hm].
    unfold train_returns. fold b. unfold num_stages in *.
    rewrite Hsc, Htc, Ht. reflexivity.
  - destruct (train_part_losses cfg model loss_factory teacher false images heatmaps
                                masks joints s Hsc Htc Hm) as (s3 & E & _ & _ & Tr).
    subst r. unfold b. rewrite loop_body_split.
    erewrite bind_raise.
    2:{ rewrite E. erewrite bind_raise by (apply optimize_raises; exact Ht).
        reflexivity. }
    split; [reflexivity|]. simpl fst.
    apply since_app. simpl. rewrite Tr, <- app_assoc. reflexivity.
Qed.

(** X2: A print frequency of zero stops [do_train] at its first batch, whatever
    [cfg.RANK] is: the batch is trained (forward passes, [zero_grad],
    backward pass, optimizer step), then line 105 raises [ZeroDivisionError];
    nothing is reported and [train_global_steps] keeps its value. *)
Theorem print_freq_0_raises_after_first_step fp16 rest s :
  PRINT_FREQ cfg = 0%Z ->
  train_ok cfg model loss_factory teacher fp16 b = true ->
  let run := do_train cfg model (b :: rest) loss_factory epoch output_dir teacher fp16 s in
  snd run = Raise ZeroDivisionError
  /\ since (trace s) (fst run)
     = ev_model_train
       :: training_events cfg model loss_factory teacher fp16 true (teacher_training s)
                          (grad_enabled s) b
  /\ train_global_steps (fst run) = train_global_steps s.
Proof.
  intros Hpf Hok run. subst run.
  rewrite do_train_started, enumerate_cons, for_each_cons.
  destruct (iteration_total cfg model loss_factory epoch output_dir teacher fp16
              (List.length (b :: rest)) 0 images heatmaps masks joints (started cfg s)
              (train_ok_returns _ _ _ _ _ _ Hok) (started_meters_ok cfg s))
    as (s' & E & _ & _ & _ & _ & _ & _ & St & Tr).
  fold b in E. unfold batch in *. rewrite E.
  unfold report_result. unfold report_calls, reporting in Tr. unfold reporting in St.
  rewrite Hpf in *. simpl in St, Tr |- *.
  split; [reflexivity|]. split; [|exact St].
  apply since_app. rewrite Tr, <- app_assoc. reflexivity.
Qed.

(** X3: When the student's list of heatmaps losses has fewer entries than
    [cfg.LOSS.NUM_STAGES], the iteration raises [IndexError] at the first
    missing stage: after the two forward passes no further call is made (no
    [zero_grad], backward pass or step), and the meters of the stages before
    it have already been updated. *)
Theorem short_student_losses_raise fp16 shl spl sul s :
  losses_of model loss_factory b = (shl, spl, sul) ->
  (List.length shl < Z.to_nat num_stages)%nat ->
  (List.length shl <= List.length spl)%nat ->
  (List.length shl <= List.length sul)%nat ->
  meters_ok cfg s ->
  let r := loop_body cfg model loss_factory epoch output_dir teacher fp16 len (i, b) s in
  snd r = Raise IndexError
  /\ since (trace s) (fst r)
     = [ev_forward Student images (model_training s) (grad_enabled s);
        ev_forward Teacher images (teacher_training s) (grad_enabled s)]
  /\ forall k j,
      nth_error (meters_of k (fst r)) j
      = if (j <? List.length shl)%nat
        then option_map (student_update (shl, spl, sul) (size0 images) k j)
                        (nth_error (meters_of k s) j)
        else nth_error (meters_of k s) j.
Proof.
  intros El Hlt Hp Hu Hm r. unfold num_stages in *.
  enough (exists s3,
             train_part cfg model loss_factory teacher fp16 b s
             = (s3, Raise IndexError)
             /\ trace s3
                = trace s ++ [ev_forward Student images (model_training s) (grad_enabled s);
                              ev_forward Teacher images (teacher_training s)
                                         (grad_enabled s)]
             /\ forall k j,
                 nth_error (meters_of k s3) j
                 = if (j <? List.length shl)%nat
                   then option_map (student_update (shl, spl, sul) (size0 images) k j)
                                   (nth_error (meters_of k s) j)
                   else nth_error (meters_of k s) j)
    as (s3 & E & Tr & P).
  { subst r. unfold b in *. rewrite loop_body_split.
    erewrite bind_raise by exact E.
    simpl. split; [reflexivity|]. split; [|exact P].
    apply since_app, Tr. }
  unfold losses_of, b in El. unfold b, train_part. cbv beta iota.
  erewrite bind_ok by apply update_data_time_ok.
  erewrite bind_ok by apply forward_first.
  erewrite bind_ok by apply forward_ok.
  rewrite El.
  destruct (loss_factory (teacher images) (map cuda heatmaps) (map cuda masks)
                         (map cuda joints)) as [[thl tpl] tul].
  simpl app at 1.
  match goal with |- context [add_events ?e ?s0] => set (s2 := add_events e s0) end.
  assert (Hm2 : meters_ok cfg s2) by (intros k; specialize (Hm k); destruct k; exact Hm).
  rewrite (range_split _ _ Hlt). unfold bind at 1. rewrite for_fold_app.
  destruct (student_loop_spec shl spl sul (size0 images) (List.length shl) 0 (LInt 0) s2)
    as (s3 & E3 & (O3a & O3b & O3c & O3d & O3e & O3f) & L3 & P3).
  { apply covers_read_from; simpl; lia. }
  { intros k; rewrite Hm2; lia. }
  rewrite E3. cbv beta iota.
  assert (En : nth_error shl (List.length shl) = None) by (apply nth_error_None; lia).
  rewrite for_fold_cons, student_stage_missing by exact En.
  exists s3. split; [reflexivity|]. split; [exact O3e|].
  intros k j. rewrite P3. simpl.
  replace (nth_error (meters_of k s2) j) with (nth_error (meters_of k s) j)
    by (destruct k; reflexivity).
  reflexivity.
Qed.

(** X4: When it is the teacher's list of heatmaps losses that is too short (the
    student's lists being complete), the iteration raises [IndexError] in the
    teacher loop: again no optimizer call is made, but every meter has
    already received the student's update for this batch. *)
Theorem short_teacher_losses_raise fp16 thl tpl tul s :
  covers num_stages (losses_of model loss_factory b) = true ->
  losses_of teacher loss_factory b = (thl, tpl, tul) ->
  (List.length thl < Z.to_nat num_stages)%nat ->
  (List.length thl <= List.length tpl)%nat ->
  (List.length thl <= List.length tul)%nat ->
  meters_ok cfg s ->
  let r := loop_body cfg model loss_factory epoch output_dir teacher fp16 len (i, b) s in
  snd r = Raise IndexError
  /\ since (trace s) (fst r)
     = [ev_forward Student images (model_training s) (grad_enabled s);
        ev_forward Teacher images (teacher_training s) (grad_enabled s)]
  /\ forall k j,
      nth_error (meters_of k (fst r)) j
      = option_map (student_update (losses_of model loss_factory b) (size0 images) k j)
                   (nth_error (meters_of k s) j).
Proof.
  intros Hsc El Hlt Hp Hu Hm r. unfold num_stages in *.
  enough (exists s3,
             train_part cfg model loss_factory teacher fp16 b s
             = (s3, Raise IndexError)
             /\ trace s3
                = trace s ++ [ev_forward Student images (model_training s) (grad_enabled s);
                              ev_forward Teacher images (teacher_training s)
                                         (grad_enabled s)]
             /\ forall k j,
                 nth_error (meters_of k s3) j
                 = option_map (student_update (losses_of model loss_factory b)
                                              (size0 images) k j)
                              (nth_error (meters_of k s) j))
    as (s3 & E & Tr & P).
  { subst r. unfold b in *. rewrite loop_body_split.
    erewrite bind_raise by exact E.
    simpl. split; [reflexivity|]. split; [|exact P].
    apply since_app, Tr. }
  apply covers_read in Hsc.
  unfold losses_of, b in El, Hsc |- *. unfold train_part. cbv beta iota.
  erewrite bind_ok by apply update_data_time_ok.
  erewrite bind_ok by apply forward_first.
  erewrite bind_ok by apply forward_ok.
  rewrite El.
  destruct (loss_factory (model images) (map cuda heatmaps) (map cuda masks)
                         (map cuda joints)) as [[shl spl] sul].
  simpl app at 1.
  match goal with |- context [add_events ?e ?s0] => set (s2 := add_events e s0) end.
  assert (Hm2 : meters_ok cfg s2) by (intros k; specialize (Hm k); destruct k; exact Hm).
  unfold stages_read, range in Hsc.
  destruct (student_loop_spec shl spl sul (size0 images)
              (Z.to_nat (NUM_STAGES (LOSS cfg))) 0 (LInt 0) s2 Hsc)
    as (s3 & E3 & M3).
  { intros k; rewrite Hm2; lia. }
  pose proof (student_loop_meters cfg _ _ _ _ Hm2 M3) as P3.
  destruct M3 as ((O3a & O3b & O3c & O3d & O3e & O3f) & L3 & _).
  unfold range at 1. erewrite bind_ok by exact E3.
  rewrite (range_split _ _ Hlt).
  unfold bind at 1. rewrite for_fold_app.
  rewrite teacher_loop_spec by (apply covers_read_from; simpl; lia).
  cbv beta iota.
  assert (En : nth_error thl (List.length thl) = None) by (apply nth_error_None; lia).
  rewrite for_fold_cons, teacher_stage_missing by exact En.
  exists s3. split; [reflexivity|]. split; [exact O3e|].
  intros k j. rewrite P3. destruct k; reflexivity.
Qed.

End Errors.

(** ** A logging iteration that cannot save all its debug images *)

Lemma image_prefixes_app evs1 evs2 :
  image_prefixes (evs1 ++ evs2) = image_prefixes evs1 ++ image_prefixes evs2.
Proof.
  induction evs1 as [|e evs1 IH]; simpl; auto.
  destruct e; simpl; congruence.
Qed.

Lemma image_prefixes_stage_scalars i gs hm pm um idxs :
  image_prefixes (flat_map (stage_scalars i gs hm pm um) idxs) = [].
Proof. induction idxs; simpl; auto. Qed.

Lemma image_prefixes_scale_images cfg output_dir i images heatmaps masks outs idxs :
  image_prefixes (map (scale_images cfg output_dir i images heatmaps masks outs) idxs)
  = map (prefix_scale cfg output_dir i) idxs.
Proof.
  induction idxs as [|idx idxs IH]; [reflexivity|].
  cbn [map]. unfold scale_images at 1. cbn [image_prefixes].
  rewrite IH. reflexivity.
Qed.

Lemma image_prefixes_report_events scales cfg epoch output_dir len i images heatmaps
      masks outs gs t hm pm um :
  image_prefixes (report_events_upto scales cfg epoch output_dir len i images heatmaps
                                     masks outs gs t hm pm um)
  = map (prefix_scale cfg output_dir i) (seq 0 scales).
Proof.
  unfold report_events_upto, log_line. cbn [image_prefixes].
  rewrite image_prefixes_app, image_prefixes_stage_scalars, app_nil_l.
  apply image_prefixes_scale_images.
Qed.

Lemma image_prefixes_training_events cfg model loss_factory teacher fp16 sm tm g b :
  image_prefixes (training_events cfg model loss_factory teacher fp16 sm tm g b) = [].
Proof. destruct b as [[[images ?] ?] ?]. reflexivity. Qed.

Lemma add_scalar_training_events cfg model loss_factory teacher fp16 sm tm g b :
  filter is_add_scalar (training_events cfg model loss_factory teacher fp16 sm tm g b)
  = [].
Proof. destruct b as [[[images ?] ?] ?]. reflexivity. Qed.

(** X5: When a logging iteration that has a speed to show has more output
    scales than [cfg.DATASET.OUTPUT_SIZE], the heatmaps or the masks have
    entries, it raises [IndexError] while saving the debug images, after the
    training step, the log line and all the scalars, and after
    [train_global_steps] was incremented: the counter has moved although the
    iteration failed, and the scales before the missing one have their
    images saved. *)
Theorem failed_image_save_keeps_the_step cfg model loss_factory epoch output_dir teacher
        fp16 len i images heatmaps masks joints s :
  train_ok cfg model loss_factory teacher fp16 (images, heatmaps, masks, joints) = true ->
  PRINT_FREQ cfg <> 0%Z ->
  logs_at cfg i = true ->
  meters_ok cfg s ->
  speed_defined (timed (timing s)) = true ->
  (scales_available cfg heatmaps masks < List.length (model images))%nat ->
  let r := loop_body cfg model loss_factory epoch output_dir teacher fp16 len
                     (i, (images, heatmaps, masks, joints)) s in
  let calls := since (trace s) (fst r) in
  snd r = Raise IndexError
  /\ train_global_steps (fst r) = (train_global_steps s + 1)%Z
  /\ filter is_optimizer calls
     = optimizer_events fp16 (batch_loss cfg model loss_factory teacher
                                         (images, heatmaps, masks, joints))
  /\ List.length (filter is_log_info calls) = 1%nat
  /\ List.length (filter is_add_scalar calls)
     = (3 * Z.to_nat (NUM_STAGES (LOSS cfg)))%nat
  /\ List.length (image_prefixes calls) = scales_available cfg heatmaps masks.
Proof.
  intros Hok Hpf Hlog Hm Hsp Hk r calls.
  apply train_ok_returns in Hok.
  destruct (iteration_calls cfg model loss_factory epoch output_dir teacher fp16 len i
                            images heatmaps masks joints s Hok Hm)
    as (Res & _ & _ & G & Tr).
  destruct (iteration_backward cfg model loss_factory epoch output_dir teacher fp16 len
                               i images heatmaps masks joints s Hok Hm) as (_ & O & _).
  cbv zeta in Res, G, Tr, O. subst calls r. unfold batch in *.
  assert (Hrep : reporting cfg i (timed (timing s)) = true).
  { unfold reporting. rewrite Hlog, Hsp.
    destruct (Z.eqb_spec (PRINT_FREQ cfg) 0); [contradiction | reflexivity]. }
  assert (Hav : scales_available cfg (map cuda heatmaps) (map cuda masks)
                = scales_available cfg heatmaps masks)
    by (unfold scales_available; rewrite !length_map; reflexivity).
  unfold report_calls in Tr. rewrite Hrep, Hav in Tr. rewrite Hrep in G.
  rewrite Nat.min_r in Tr by lia.
  split.
  { rewrite Res. unfold report_result. rewrite Hlog, Hsp, Hav.
    destruct (Z.eqb_spec (PRINT_FREQ cfg) 0); [contradiction|].
    destruct (Nat.leb_spec (List.length (model images))
                           (scales_available cfg heatmaps masks)); [lia | reflexivity]. }
  split; [exact G|]. split; [exact O|].
  rewrite Tr. split; [|split].
  - rewrite filter_app, log_info_training_events, app_nil_l, report_events_log.
    reflexivity.
  - rewrite filter_app, add_scalar_training_events, app_nil_l, report_events_scalars.
    rewrite length_stage_scalars. unfold range. rewrite length_seq. reflexivity.
  - rewrite image_prefixes_app, image_prefixes_training_events, app_nil_l.
    rewrite image_prefixes_report_events, length_map, length_seq. reflexivity.
Qed.

(** X14: When [batch_time.val] is zero after the update of line 102, a logging
    iteration raises [ZeroDivisionError] at the division of line 113, after
    the training step and before [logger.info]: nothing is logged, written
    or saved, and [train_global_steps] keeps its value. *)
Theorem zero_batch_time_raises_before_logging cfg model loss_factory epoch output_dir
        teacher fp16 len i images heatmaps masks joints s :
  train_ok cfg model loss_factory teacher fp16 (images, heatmaps, masks, joints) = true ->
  PRINT_FREQ cfg <> 0%Z ->
  logs_at cfg i = true ->
  meters_ok cfg s ->
  speed_defined (timed (timing s)) = false ->
  let r := loop_body cfg model loss_factory epoch output_dir teacher fp16 len
                     (i, (images, heatmaps, masks, joints)) s in
  snd r = Raise ZeroDivisionError
  /\ since (trace s) (fst r)
     = training_events cfg model loss_factory teacher fp16 (model_training s)
                       (teacher_training s) (grad_enabled s)
                       (images, heatmaps, masks, joints)
  /\ train_global_steps (fst r) = train_global_steps s.
Proof.
  intros Hok Hpf Hlog Hm Hsp r.
  apply train_ok_returns in Hok.
  destruct (iteration_calls cfg model loss_factory epoch output_dir teacher fp16 len i
                            images heatmaps masks joints s Hok Hm)
    as (Res & _ & _ & G & Tr).
  cbv zeta in Res, G, Tr. subst r. unfold batch in *.
  assert (Hrep : reporting cfg i (timed (timing s)) = false)
    by (unfold reporting; rewrite Hsp; apply andb_false_r).
  unfold report_calls in Tr. rewrite Hrep in Tr, G. rewrite app_nil_r in Tr.
  split; [|split; assumption].
  rewrite Res. unfold report_result. rewrite Hlog, Hsp.
  destruct (Z.eqb_spec (PRINT_FREQ cfg) 0); [contradiction | reflexivity].
Qed.

(** ** The values written to TensorBoard *)

Lemma nth_error_flat_map_chunks {B : Type} (f : nat -> list B) c :
  (forall a, List.length (f a) = c) ->
  forall n a k r,
    (k < n)%nat -> (r < c)%nat ->
    nth_error (flat_map f (seq a n)) (c * k + r) = nth_error (f (a + k)%nat) r.
Proof.
  intros Hc. induction n as [|n IH]; intros a k r Hk Hr; [lia|].
  change (flat_map f (seq a (S n))) with (f a ++ flat_map f (seq (S a) n)).
  destruct k as [|k].
  - rewrite Nat.add_0_r, Nat.mul_0_r. apply nth_error_app1. rewrite Hc. lia.
  - rewrite nth_error_app2 by (rewrite Hc; nia).
    replace (c * S k + r - List.length (f a))%nat with (c * k + r)%nat
      by (rewrite Hc; nia).
    rewrite IH by lia. f_equal. f_equal. lia.
Qed.

Lemma scalar_values_app evs1 evs2 :
  scalar_values (evs1 ++ evs2) = scalar_values evs1 ++ scalar_values evs2.
Proof.
  induction evs1 as [|e evs1 IH]; simpl; auto.
  destruct e; simpl; congruence.
Qed.

Lemma scalar_values_stage_scalars i gs hm pm um idxs :
  scalar_values (flat_map (stage_scalars i gs hm pm um) idxs)
  = flat_map (fun idx => [meter_val (nth idx hm meter_new);
                          meter_val (nth idx pm meter_new);
                          meter_val (nth idx um meter_new)]) idxs.
Proof.
  induction idxs as [|idx idxs IH]; simpl; auto. rewrite IH. reflexivity.
Qed.

Lemma scalar_values_scale_images cfg output_dir i images heatmaps masks outs idxs :
  scalar_values (map (scale_images cfg output_dir i images heatmaps masks outs) idxs) = [].
Proof. induction idxs; simpl; auto. Qed.

(** X6: In an iteration that writes its log line, the scalar written for a
    stage and a kind of loss is [.val] of that meter as the student loop of
    this same batch left it: updated with this batch's loss when the stage
    has one, and otherwise the value the meter already had. *)
Theorem scalars_show_meters_after_update cfg model loss_factory epoch output_dir teacher
        fp16 len i images heatmaps masks joints s k idx meter :
  meters_ok cfg s ->
  let calls :=
    since (trace s)
          (fst (loop_body cfg model loss_factory epoch output_dir teacher fp16 len
                          (i, (images, heatmaps, masks, joints)) s)) in
  filter is_log_info calls <> [] ->
  nth_error (meters_of k s) idx = Some meter ->
  nth_error (scalar_values calls) (3 * idx + kind_offset k)
  = Some (meter_val
            (student_update
               (losses_of model loss_factory (images, heatmaps, masks, joints))
               (size0 images) k idx meter)).
Proof.
  intros Hm calls Hlog Hn.
  destruct (iteration_logs cfg model loss_factory epoch output_dir teacher fp16 len i
                           images heatmaps masks joints s Hm Hlog) as [Hok Hrep].
  destruct (iteration_calls cfg model loss_factory epoch output_dir teacher fp16 len i
                            images heatmaps masks joints s Hok Hm)
    as (_ & P & _ & _ & Tr).
  cbv zeta in P, Tr. subst calls. unfold batch in *. rewrite Tr.
  unfold report_calls. rewrite Hrep. unfold report_events_upto.
  rewrite scalar_values_app.
  replace (scalar_values (training_events _ _ _ _ _ _ _ _ _)) with (@nil Scalar)
    by reflexivity.
  rewrite app_nil_l. unfold log_line. cbn [scalar_values].
  rewrite scalar_values_app, scalar_values_stage_scalars, scalar_values_scale_images.
  rewrite app_nil_r. unfold range.
  assert (Hidx : (idx < Z.to_nat (NUM_STAGES (LOSS cfg)))%nat).
  { rewrite <- (Hm k). apply nth_error_Some. congruence. }
  rewrite nth_error_flat_map_chunks; auto; [|destruct k; simpl; lia].
  simpl Nat.add.
  pose proof (P Heatmaps idx) as Ph; pose proof (P Push idx) as Pp;
    pose proof (P Pull idx) as Pu.
  destruct k; simpl in Hn; simpl kind_offset; simpl nth_error.
  - simpl in Ph. rewrite Hn in Ph. simpl in Ph.
    rewrite (nth_error_nth _ _ meter_new Ph). reflexivity.
  - simpl in Pp. rewrite Hn in Pp. simpl in Pp.
    rewrite (nth_error_nth _ _ meter_new Pp). reflexivity.
  - simpl in Pu. rewrite Hn in Pu. simpl in Pu.
    rewrite (nth_error_nth _ _ meter_new Pu). reflexivity.
Qed.

(** ** [_get_loss_info] *)

Lemma fold_left_snoc {A B : Type} (g : A -> B) xs :
  forall init, fold_left (fun msg x => msg ++ [g x]) xs init = init ++ map g xs.
Proof.
  induction xs as [|x xs IH]; intros init; simpl.
  - rewrite app_nil_r. reflexivity.
  - rewrite IH, <- app_assoc. reflexivity.
Qed.

Lemma nth_error_combine_seq {A : Type} (xs : list A) :
  forall a i,
    nth_error (combine (seq a (List.length xs)) xs) i
    = option_map (fun x => ((a + i)%nat, x)) (nth_error xs i).
Proof.
  induction xs as [|x xs IH]; intros a [|i]; simpl; auto.
  - rewrite Nat.add_0_r. reflexivity.
  - rewrite IH. destruct (nth_error xs i); simpl; auto.
    do 2 f_equal. lia.
Qed.

(** X7: [_get_loss_info] returns one segment per meter, in the order of the
    list: the segment at position [i] is labelled with [i] and the loss name
    and shows the meter at position [i]; for no meters the text is empty. *)
Theorem get_loss_info_one_segment_per_meter loss_meters name :
  List.length (_get_loss_info loss_meters name) = List.length loss_meters
  /\ forall i,
      nth_error (_get_loss_info loss_meters name) i
      = option_map (fun meter => (i, name, meter)) (nth_error loss_meters i).
Proof.
  unfold _get_loss_info.
  rewrite (fold_left_snoc (fun im : nat * AverageMeter => (fst im, name, snd im))).
  simpl. split.
  - unfold enumerate. rewrite length_map, length_combine, length_seq.
    apply Nat.min_id.
  - intros i. rewrite nth_error_map. unfold enumerate.
    rewrite nth_error_combine_seq.
    destruct (nth_error loss_meters i); reflexivity.
Qed.

(** ** What every run keeps, whether it returns or raises *)

(** X8: [do_train] switches the model to train mode once, as its first call, and
    never again; every forward pass of the student is made in train mode, and
    the model is in train mode when the call ends, by return or by
    exception. *)
Theorem student_always_in_train_mode cfg model data_loader loss_factory epoch output_dir
        teacher fp16 s :
  let s' := fst (do_train cfg model data_loader loss_factory epoch output_dir teacher
                          fp16 s) in
  model_training s' = true
  /\ exists calls,
      since (trace s) s' = ev_model_train :: calls
      /\ Forall (body_call true) calls.
Proof.
  cbv zeta. rewrite do_train_started.
  destruct (body_keeps_loop cfg model loss_factory epoch output_dir teacher fp16
              (List.length data_loader) (enumerate data_loader) (started cfg s))
    as (M & _ & evs & E & F).
  split; [exact M|]. exists evs. split; [|exact F].
  apply since_app. rewrite E. simpl. rewrite <- app_assoc. reflexivity.
Qed.

(** X9: Each of the three meter lists has exactly [cfg.LOSS.NUM_STAGES] entries
    from their creation to the end of the call, whatever the inputs and
    whether the call returns or raises: the meters are only ever updated in
    place. *)
Theorem one_meter_per_stage_throughout cfg model data_loader loss_factory epoch
        output_dir teacher fp16 s :
  meters_ok cfg (fst (do_train cfg model data_loader loss_factory epoch output_dir
                               teacher fp16 s)).
Proof.
  rewrite do_train_started.
  destruct (body_keeps_loop cfg model loss_factory epoch output_dir teacher fp16
              (List.length data_loader) (enumerate data_loader) (started cfg s))
    as (_ & L & _).
  intros k. rewrite L. apply started_meters_ok.
Qed.

(** X10: A process whose [cfg.RANK] is not 0 never logs, never writes a scalar,
    never saves debug images and never changes [train_global_steps],
    whatever the other inputs and whether the call returns or raises. *)
Theorem other_ranks_report_nothing cfg model data_loader loss_factory epoch output_dir
        teacher fp16 s :
  RANK cfg <> 0%Z ->
  let s' := fst (do_train cfg model data_loader loss_factory epoch output_dir teacher
                          fp16 s) in
  filter is_report (since (trace s) s') = []
  /\ train_global_steps s' = train_global_steps s.
Proof.
  intros Hr. cbv zeta. rewrite do_train_started.
  assert (H : preserves quiet
                (for_each (loop_body cfg model loss_factory epoch output_dir teacher
                                     fp16 (List.length data_loader))
                          (enumerate data_loader))).
  { apply (preserves_for_each _ quiet_refl quiet_trans).
    intros [i b]. apply quiet_loop_body. unfold logs_at.
    destruct (Z.eqb_spec (RANK cfg) 0); [contradiction | apply andb_false_r]. }
  destruct (H (started cfg s)) as (G & evs & E & F).
  split; [|exact G].
  erewrite since_app by (rewrite E; simpl; rewrite <- app_assoc; reflexivity).
  simpl. exact F.
Qed.

(** ** How far the step counter moves in a call *)

(** X11: Over a call that raises no exception [train_global_steps] advances by
    one for each batch index at which line 105 holds, and one log line is
    written for each of them: the counter counts logging events, not
    batches. *)
Theorem global_steps_count_logging_iterations cfg model data_loader loss_factory epoch
        output_dir teacher fp16 s :
  let run := do_train cfg model data_loader loss_factory epoch output_dir teacher fp16 s in
  let s' := fst run in
  let logged := List.length (logging_indices cfg (List.length data_loader)) in
  snd run = Ok tt ->
  train_global_steps s' = (train_global_steps s + Z.of_nat logged)%Z
  /\ List.length (filter is_log_info (since (trace s) s')) = logged.
Proof.
  cbv zeta. intros Hret.
  rewrite do_train_started in Hret |- *. unfold enumerate, logging_indices in *.
  destruct (loop_returns cfg model loss_factory epoch output_dir teacher fp16
              (List.length data_loader) data_loader 0 (started cfg s)
              (started_meters_ok cfg s) Hret)
    as (s' & evs & E & Tr & _ & G & F).
  rewrite E. simpl fst. split; [exact G|].
  erewrite since_app by (rewrite Tr; simpl; rewrite <- app_assoc; reflexivity).
  simpl. exact F.
Qed.

Lemma count_multiples f n :
  (0 < f)%Z ->
  Z.of_nat (List.length (filter (fun i => (Z.of_nat i mod f =? 0)%Z) (seq 0 n)))
  = ((Z.of_nat n + f - 1) / f)%Z.
Proof.
  intros Hf. induction n as [|n IH].
  - simpl. symmetry. apply Z.div_small. lia.
  - rewrite seq_S, filter_app, length_app, Nat2Z.inj_add, IH. simpl Nat.add.
    cbn [filter].
    pose proof (Z.div_mod (Z.of_nat n) f ltac:(lia)) as Hdm.
    pose proof (Z.mod_pos_bound (Z.of_nat n) f Hf) as Hb.
    set (q := (Z.of_nat n / f)%Z) in *. set (r := (Z.of_nat n mod f)%Z) in *.
    destruct (Z.eqb_spec r 0) as [Hr|Hr]; cbn [List.length].
    + rewrite <- (Z.div_unique_pos (Z.of_nat n + f - 1) f q (f - 1)) by lia.
      rewrite <- (Z.div_unique_pos (Z.of_nat (S n) + f - 1) f (q + 1) 0) by lia.
      lia.
    + rewrite <- (Z.div_unique_pos (Z.of_nat n + f - 1) f (q + 1) (r - 1)) by lia.
      rewrite <- (Z.div_unique_pos (Z.of_nat (S n) + f - 1) f (q + 1) r) by lia.
      lia.
Qed.

(** X12: On rank 0 with a positive print frequency, a call over [n] batches
    that raises no exception advances [train_global_steps] by the number of
    multiples of [cfg.PRINT_FREQ] below [n], that is by [n / PRINT_FREQ]
    rounded up. *)
Theorem rank_0_steps_closed_form cfg model data_loader loss_factory epoch output_dir
        teacher fp16 s :
  RANK cfg = 0%Z ->
  (0 < PRINT_FREQ cfg)%Z ->
  snd (do_train cfg model data_loader loss_factory epoch output_dir teacher fp16 s)
  = Ok tt ->
  train_global_steps
    (fst (do_train cfg model data_loader loss_factory epoch output_dir teacher fp16 s))
  = (train_global_steps s
     + (Z.of_nat (List.length data_loader) + PRINT_FREQ cfg - 1) / PRINT_FREQ cfg)%Z.
Proof.
  intros Hr Hf Hret. rewrite do_train_started in Hret |- *. unfold enumerate in *.
  destruct (loop_returns cfg model loss_factory epoch output_dir teacher fp16
              (List.length data_loader) data_loader 0 (started cfg s)
              (started_meters_ok cfg s) Hret)
    as (s' & evs & E & _ & _ & G & _).
  rewrite E. simpl fst. rewrite G. simpl train_global_steps at 2.
  f_equal. rewrite <- (count_multiples _ _ Hf). do 2 f_equal.
  apply filter_ext. intros j. unfold logs_at. rewrite Hr. simpl.
  apply andb_true_r.
Qed.

(** ** The prefixes of the debug images *)

Lemma append_assoc (s1 s2 s3 : string) :
  ((s1 ++ s2) ++ s3 = s1 ++ (s2 ++ s3))%string.
Proof. induction s1 as [|c s1 IH]; simpl; congruence. Qed.

Lemma append_inj_l (p s1 s2 : string) : (p ++ s1 = p ++ s2)%string -> s1 = s2.
Proof.
  induction p as [|c p IH]; simpl; auto.
  intros H. injection H as H. auto.
Qed.

Lemma string_of_uint_no_underscore d :
  forall s1 s2, NilEmpty.string_of_uint d <> (s1 ++ String "_" s2)%string.
Proof.
  induction d; intros [|c s1] s2 H; simpl in H; try discriminate H;
    injection H as Hc H; eapply IHd; eauto.
Qed.

Lemma split_at_underscore (s1 s2 t1 t2 : string) :
  (forall u v, s1 <> (u ++ String "_" v)%string) ->
  (forall u v, s2 <> (u ++ String "_" v)%string) ->
  (s1 ++ String "_" t1 = s2 ++ String "_" t2)%string ->
  s1 = s2 /\ t1 = t2.
Proof.
  revert s2. induction s1 as [|c s1 IH]; intros [|c' s2] H1 H2 H; simpl in H.
  - injection H as H. auto.
  - injection H as Hc H. exfalso. apply (H2 EmptyString s2). simpl. congruence.
  - injection H as Hc H. exfalso. apply (H1 EmptyString s1). simpl. congruence.
  - injection H as Hc H. subst c'.
    destruct (IH s2) as [E1 E2]; auto.
    + intros u v E. apply (H1 (String c u) v). simpl. congruence.
    + intros u v E. apply (H2 (String c u) v). simpl. congruence.
    + subst. auto.
Qed.

Lemma str_int_inj a b : str_int a = str_int b -> a = b.
Proof.
  unfold str_int. intros H. apply DecimalZ.to_int_inj.
  assert (E : Some (Z.to_int a) = Some (Z.to_int b))
    by (rewrite <- !NilEmpty.isi, H; reflexivity).
  injection E; auto.
Qed.

Lemma prefix_scale_inj (dir : string) i i' size size' :
  ((dir ++ "_" ++ str_nat i) ++ "_output_" ++ str_int size
   = (dir ++ "_" ++ str_nat i') ++ "_output_" ++ str_int size')%string ->
  i = i' /\ size = size'.
Proof.
  rewrite !append_assoc. intros H. apply append_inj_l in H.
  simpl in H. injection H as H.
  change (String "_" (String "o" (String "u" (String "t" (String "p" (String "u"
            (String "t" (String "_" ?x))))))))
    with (String "_" ("output_" ++ x)%string) in H.
  apply split_at_underscore in H; try (intros u v; apply string_of_uint_no_underscore).
  destruct H as [Hi Hs]. split.
  - apply str_nat_inj, Hi.
  - apply str_int_inj. simpl in Hs. injection Hs as Hs. exact Hs.
Qed.

Lemma prefix_scale_eq cfg output_dir i i' k k' :
  prefix_scale cfg output_dir i k = prefix_scale cfg output_dir i' k'
  <-> i = i' /\ nth k (OUTPUT_SIZE (DATASET cfg)) 0%Z
               = nth k' (OUTPUT_SIZE (DATASET cfg)) 0%Z.
Proof.
  unfold prefix_scale. split.
  - apply prefix_scale_inj.
  - intros [-> ->]. reflexivity.
Qed.

Lemma image_prefixes_reports evs : filter is_report evs = [] -> image_prefixes evs = [].
Proof.
  induction evs as [|e evs IH]; [reflexivity|].
  destruct e; simpl; try discriminate; auto.
Qed.

(** The debug images saved in an iteration are those of the first output
    scales. *)
Lemma iteration_image_prefixes cfg model loss_factory epoch output_dir teacher fp16 len
      i b s :
  meters_ok cfg s ->
  exists scales,
    image_prefixes
      (since (trace s)
             (fst (loop_body cfg model loss_factory epoch output_dir teacher fp16 len
                             (i, b) s)))
    = map (prefix_scale cfg output_dir i) (seq 0 scales).
Proof.
  intros Hm. destruct b as [[[images heatmaps] masks] joints].
  destruct (train_returns cfg model loss_factory teacher fp16
                          (images, heatmaps, masks, joints)) eqn:R.
  - destruct (iteration_calls cfg model loss_factory epoch output_dir teacher fp16 len i
                              images heatmaps masks joints s R Hm)
      as (_ & _ & _ & _ & Tr).
    cbv zeta in Tr. rewrite Tr, image_prefixes_app, image_prefixes_training_events.
    unfold report_calls.
    destruct (reporting cfg i (timed (timing s))).
    + eexists. apply image_prefixes_report_events.
    + exists 0%nat. reflexivity.
  - exists 0%nat. apply image_prefixes_reports.
    apply (iteration_stopped cfg model loss_factory epoch output_dir teacher fp16 len i
                             images heatmaps masks joints s Hm R).
Qed.

Lemma nth_error_map_seq {A : Type} (f : nat -> A) n k x :
  nth_error (map f (seq 0 n)) k = Some x -> x = f k.
Proof.
  rewrite nth_error_map. intros H.
  destruct (nth_error (seq 0 n) k) as [j|] eqn:E; [|discriminate H].
  assert (Hk : (k < List.length (seq 0 n))%nat) by (apply nth_error_Some; congruence).
  rewrite length_seq in Hk.
  rewrite (nth_error_nth' _ 0%nat) in E by (rewrite length_seq; exact Hk).
  rewrite seq_nth in E by exact Hk. simpl in E, H. congruence.
Qed.

(** X13: The debug images of the output scale at position [k], saved at batch
    index [i], go under the prefix built from
    [os.path.join(output_dir, 'train')], [i] and
    [cfg.DATASET.OUTPUT_SIZE[k]]; the epoch is no part of it.  Hence two
    sets of images, saved in any two iterations with the same [cfg] and
    [output_dir] (of one call or of two, of one epoch or of two), share
    their prefix exactly when they were saved at the same batch index for
    equal output sizes. *)
Theorem debug_image_prefixes_by_index_and_size cfg output_dir
        model loss_factory epoch teacher fp16 len i b s k p
        model' loss_factory' epoch' teacher' fp16' len' i' b' s' k' p' :
  meters_ok cfg s ->
  meters_ok cfg s' ->
  nth_error
    (image_prefixes
       (since (trace s)
              (fst (loop_body cfg model loss_factory epoch output_dir teacher fp16 len
                              (i, b) s)))) k = Some p ->
  nth_error
    (image_prefixes
       (since (trace s')
              (fst (loop_body cfg model' loss_factory' epoch' output_dir teacher' fp16'
                              len' (i', b') s')))) k' = Some p' ->
  p = prefix_scale cfg output_dir i k
  /\ p' = prefix_scale cfg output_dir i' k'
  /\ (p = p' <-> i = i' /\ nth k (OUTPUT_SIZE (DATASET cfg)) 0%Z
                           = nth k' (OUTPUT_SIZE (DATASET cfg)) 0%Z).
Proof.
  intros Hm Hm' H H'.
  destruct (iteration_image_prefixes cfg model loss_factory epoch output_dir teacher
                                     fp16 len i b s Hm) as (n & E).
  destruct (iteration_image_prefixes cfg model' loss_factory' epoch' output_dir teacher'
                                     fp16' len' i' b' s' Hm') as (n' & E').
  rewrite E in H. rewrite E' in H'.
  apply nth_error_map_seq in H, H'. subst p p'.
  split; [reflexivity|]. split; [reflexivity|]. apply prefix_scale_eq.
Qed.

End Trainer.

(** * The statements on the sample run *)

Local Abbreviation sample_state :=
  (mk_state Z Z Sample.meter [[]; []] [[]; []] [[]; []] 10%Z false true true []
            (mk_timers Z Sample.meter [] [] 999%Z 0%nat)).

Local Abbreviation sample_batch :=
  (Sample.images, Sample.heatmaps, Sample.masks, Sample.joints).

Local Abbreviation sample_body model teacher i s :=
  (loop_body Z Z Sample.meter Sample.meter_update Sample.meter_update1 Sample.meter_val Sample.mean0
             Sample.item Sample.size0 Sample.cuda Sample.clock Sample.scalar_sub
             Sample.scalar_is_zero Sample.speed_of Sample.cfg model
             Sample.loss_factory 3%Z "out" teacher false 1%nat (i, sample_batch) s).

Local Abbreviation sample_do_train data_loader :=
  (do_train Z Z Sample.meter Sample.meter_new Sample.meter_update Sample.meter_update1 Sample.meter_val
            Sample.mean0 Sample.item Sample.size0 Sample.cuda Sample.clock
            Sample.scalar_sub Sample.scalar_is_zero Sample.speed_of Sample.cfg Sample.model
            data_loader Sample.loss_factory 3%Z "out" Sample.teacher false
            sample_state).

Local Abbreviation sample_ok model teacher :=
  (batch_ok Z Sample.mean0 Sample.cuda Sample.cfg model Sample.loss_factory teacher
            false sample_batch = true).

Lemma sample_meters_ok : meters_ok Z Z Sample.meter Sample.cfg sample_state.
Proof. intros k; destruct k; reflexivity. Defined.

(** The sample iteration at batch index 0: it returns, having trained and
    logged; the speed shown is 4 images in 2 units of time. *)
Example sample_iteration_logs :
  let r := sample_body Sample.model Sample.teacher 0%nat sample_state in
  snd r = Ok tt
  /\ List.length (trace _ _ _ (fst r)) = 14%nat
  /\ map (msg_speed _ _)
         (flat_map (fun e => match e with
                             | ev_log_info _ _ _ msg => [msg]
                             | _ => []
                             end) (trace _ _ _ (fst r)))
     = [2%Z].
Proof. vm_compute. repeat split. Qed.

(** Where the body raises: no loss to call [backward] on, a print frequency
    of zero, fewer heatmaps than output scales, and a clock that has not
    moved when the speed is computed. *)
Example sample_no_loss_raises :
  let r := loop_body Z Z Sample.meter Sample.meter_update Sample.meter_update1 Sample.meter_val Sample.mean0
                     Sample.item Sample.size0 Sample.cuda Sample.clock Sample.scalar_sub
                     Sample.scalar_is_zero Sample.speed_of Sample.cfg
                     Sample.model Sample.no_loss_factory 3%Z "out" Sample.teacher false
                     1%nat (0%nat, sample_batch) sample_state in
  snd r = Raise AttributeError
  /\ trace _ _ _ (fst r)
     = [ev_forward _ _ _ Student Sample.images false true;
        ev_forward _ _ _ Teacher Sample.images true true;
        ev_zero_grad _ _ _].
Proof. vm_compute. repeat split. Qed.

Example sample_print_freq_0_raises :
  let r := loop_body Z Z Sample.meter Sample.meter_update Sample.meter_update1 Sample.meter_val Sample.mean0
                     Sample.item Sample.size0 Sample.cuda Sample.clock Sample.scalar_sub
                     Sample.scalar_is_zero Sample.speed_of
                     Sample.cfg_print_freq_0 Sample.model Sample.loss_factory 3%Z
                     "out" Sample.teacher false 1%nat (0%nat, sample_batch)
                     sample_state in
  snd r = Raise ZeroDivisionError
  /\ filter (is_report _ _ _) (trace _ _ _ (fst r)) = []
  /\ List.length (filter (is_step _ _ _) (trace _ _ _ (fst r))) = 1%nat
  /\ train_global_steps _ _ _ (fst r) = 10%Z.
Proof. vm_compute. repeat split. Qed.

Example sample_short_heatmaps_raises :
  let r := loop_body Z Z Sample.meter Sample.meter_update Sample.meter_update1 Sample.meter_val Sample.mean0
                     Sample.item Sample.size0 Sample.cuda Sample.clock Sample.scalar_sub
                     Sample.scalar_is_zero Sample.speed_of Sample.cfg
                     Sample.model Sample.loss_factory 3%Z "out" Sample.teacher false
                     1%nat
                     (0%nat, (Sample.images, [51%Z], Sample.masks, Sample.joints))
                     sample_state in
  snd r = Raise IndexError
  /\ List.length (filter (is_save_debug_images _ _ _) (trace _ _ _ (fst r))) = 1%nat.
Proof. vm_compute. repeat split. Qed.

Example sample_stopped_clock_raises :
  let r := do_train Z Z Sample.meter Sample.meter_new Sample.meter_update Sample.meter_update1
                    Sample.meter_val Sample.mean0 Sample.item Sample.size0 Sample.cuda
                    Sample.stopped_clock Sample.scalar_sub Sample.scalar_is_zero
                    Sample.speed_of Sample.cfg Sample.model [sample_batch]
                    Sample.loss_factory 3%Z "out" Sample.teacher false sample_state in
  snd r = Raise ZeroDivisionError
  /\ filter (is_report _ _ _) (trace _ _ _ (fst r)) = []
  /\ List.length (filter (is_step _ _ _) (trace _ _ _ (fst r))) = 1%nat
  /\ train_global_steps _ _ _ (fst r) = 10%Z.
Proof. vm_compute. repeat split. Qed.

(** C5 is not what the code does at every logging index: on the sample batch
    at index 0, with no heatmaps loss the iteration stops at
    [loss.backward()] and reports nothing, and with one heatmap for two
    output scales it stops while saving the debug images, having saved one
    set only. *)
Lemma C5_counterexample :
  logs_at Sample.cfg 0 = true
  /\ ~ reports_in_full _ _ _ Sample.cfg (Sample.model Sample.images) sample_state
       (fst (loop_body Z Z Sample.meter Sample.meter_update Sample.meter_update1 Sample.meter_val Sample.mean0
                       Sample.item Sample.size0 Sample.cuda Sample.clock Sample.scalar_sub
                       Sample.scalar_is_zero Sample.speed_of
                       Sample.cfg Sample.model Sample.no_loss_factory 3%Z "out"
                       Sample.teacher false 1%nat (0%nat, sample_batch) sample_state))
  /\ ~ reports_in_full _ _ _ Sample.cfg (Sample.model Sample.images) sample_state
       (fst (loop_body Z Z Sample.meter Sample.meter_update Sample.meter_update1 Sample.meter_val Sample.mean0
                       Sample.item Sample.size0 Sample.cuda Sample.clock Sample.scalar_sub
                       Sample.scalar_is_zero Sample.speed_of
                       Sample.cfg Sample.model Sample.loss_factory 3%Z "out"
                       Sample.teacher false 1%nat
                       (0%nat, (Sample.images, [51%Z], Sample.masks, Sample.joints))
                       sample_state)).
Proof.
  split; [reflexivity|]. split.
  - intros (H & _). vm_compute in H. discriminate H.
  - intros (_ & _ & H & _). vm_compute in H. discriminate H.
Qed.

Lemma C5_witness :
  meters_ok Z Z Sample.meter Sample.cfg sample_state
  /\ logs_at Sample.cfg 0 = true
  /\ snd (sample_body Sample.model Sample.teacher 0%nat sample_state) = Ok tt
  /\ train_global_steps _ _ _ (fst (sample_body Sample.model Sample.teacher 0%nat sample_state))
     = 11%Z
  /\ logs_at Sample.cfg 1 = false
  /\ train_global_steps _ _ _ (fst (sample_body Sample.model Sample.teacher 1%nat sample_state))
     = 10%Z.
Proof.
  split; [exact sample_meters_ok|]. split; [reflexivity|]. split; [reflexivity|].
  pose proof (C5_reporting_follows_print_freq
                Z Z Sample.meter Sample.meter_new Sample.meter_update Sample.meter_update1 Sample.meter_val
                Sample.mean0 Sample.item Sample.size0 Sample.cuda Sample.clock
                Sample.scalar_sub Sample.scalar_is_zero Sample.speed_of Sample.cfg
                Sample.model Sample.loss_factory 3%Z "out" false 1%nat 0%nat
                Sample.images Sample.heatmaps Sample.masks Sample.joints
                Sample.teacher sample_state sample_meters_ok) as H0.
  pose proof (C5_reporting_follows_print_freq
                Z Z Sample.meter Sample.meter_new Sample.meter_update Sample.meter_update1 Sample.meter_val
                Sample.mean0 Sample.item Sample.size0 Sample.cuda Sample.clock
                Sample.scalar_sub Sample.scalar_is_zero Sample.speed_of Sample.cfg
                Sample.model Sample.loss_factory 3%Z "out" false 1%nat 1%nat
                Sample.images Sample.heatmaps Sample.masks Sample.joints
                Sample.teacher sample_state sample_meters_ok) as H1.
  cbv zeta in H0, H1.
  destruct (proj1 H0 eq_refl eq_refl) as (_ & _ & _ & _ & _ & G0).
  destruct (proj2 H1 eq_refl) as (_ & G1).
  split; [exact G0|]. split; [reflexivity | exact G1].
Defined.

Lemma C6_witness :
  meters_ok Z Z Sample.meter Sample.cfg sample_state
  /\ filter (is_log_info _ _ _)
            (since _ _ _ []
                   (fst (sample_body Sample.model Sample.teacher 0%nat sample_state)))
     <> []
  /\ nth_error
       (scalar_tags _ _ _
          (since _ _ _ []
                 (fst (sample_body Sample.model Sample.teacher 0%nat sample_state))))
       3
     = Some "train_stage0_heatmaps_loss"
  /\ nth_error
       (scalar_tags _ _ _
          (since _ _ _ []
                 (fst (sample_body Sample.model Sample.teacher 0%nat sample_state))))
       4
     = Some "train_stage1_push_loss".
Proof.
  assert (Hlog : filter (is_log_info _ _ _)
                        (since _ _ _ []
                               (fst (sample_body Sample.model Sample.teacher 0%nat
                                                 sample_state))) <> [])
    by (vm_compute; discriminate).
  split; [exact sample_meters_ok|]. split; [exact Hlog|].
  pose proof (C6_heatmaps_tag_uses_batch_index
                Z Z Sample.meter Sample.meter_new Sample.meter_update Sample.meter_update1 Sample.meter_val
                Sample.mean0 Sample.item Sample.size0 Sample.cuda Sample.clock
                Sample.scalar_sub Sample.scalar_is_zero Sample.speed_of Sample.cfg
                Sample.model Sample.loss_factory 3%Z "out" false 1%nat 0%nat
                Sample.images Sample.heatmaps Sample.masks Sample.joints
                Sample.teacher sample_state sample_meters_ok Hlog) as H.
  cbv zeta in H. destruct H as (_ & H & _).
  assert (L : (1 < Z.to_nat (NUM_STAGES (LOSS Sample.cfg)))%nat)
    by (apply Nat.ltb_lt; reflexivity).
  destruct (H 1%nat L) as (H3 & H4 & _).
  split; [exact H3 | exact H4].
Defined.


Lemma C1_witness :
  sample_ok Sample.model Sample.teacher
  /\ sample_ok Sample.other_model Sample.teacher
  /\ backward_losses _ _ _
       (since _ _ _ [] (fst (sample_body Sample.model Sample.teacher 0%nat sample_state)))
     = [blend Z
          (loss_sum Z Sample.mean0 2
             (losses_of Z Sample.cuda Sample.model Sample.loss_factory sample_batch))
          (loss_sum Z Sample.mean0 2
             (losses_of Z Sample.cuda Sample.teacher Sample.loss_factory sample_batch))]
  /\ backward_losses _ _ _
       (since _ _ _ []
              (fst (sample_body Sample.other_model Sample.teacher 0%nat sample_state)))
     = [blend Z
          (loss_sum Z Sample.mean0 2
             (losses_of Z Sample.cuda Sample.other_model Sample.loss_factory
                        sample_batch))
          (loss_sum Z Sample.mean0 2
             (losses_of Z Sample.cuda Sample.teacher Sample.loss_factory sample_batch))]
  /\ forall t,
      In t (leaves Z
              (loss_sum Z Sample.mean0 2
                 (losses_of Z Sample.cuda Sample.teacher Sample.loss_factory
                            sample_batch))) ->
      averaged Z Sample.mean0
               (losses_of Z Sample.cuda Sample.teacher Sample.loss_factory sample_batch)
               t.
Proof.
  split; [reflexivity|]. split; [reflexivity|].
  exact (C1_teacher_term_ignores_student
           Z Z Sample.meter Sample.meter_new Sample.meter_update Sample.meter_update1 Sample.meter_val
           Sample.mean0 Sample.item Sample.size0 Sample.cuda Sample.clock
           Sample.scalar_sub Sample.scalar_is_zero Sample.speed_of Sample.cfg
           Sample.model Sample.loss_factory 3%Z "out" false 1%nat 0%nat
           Sample.images Sample.heatmaps Sample.masks Sample.joints
           Sample.other_model Sample.teacher sample_state
           eq_refl eq_refl sample_meters_ok).
Defined.

(** On the sample batch the teacher's operand is the same for both students
    and mentions no tensor computed from a student's outputs. *)
Lemma C1_sample_teacher_term :
  backward_losses _ _ _
    (trace _ _ _ (fst (sample_body Sample.model Sample.teacher 0%nat sample_state)))
  = [LAdd Z (LMul Z (LAdd Z (LAdd Z (LInt Z 0) (LTensor Z 106%Z)) (LTensor Z 107%Z))
                    (LFloat Z 0.5))
            (LMul Z (LFloat Z 0.5)
                    (LAdd Z (LAdd Z (LInt Z 0) (LTensor Z 116%Z)) (LTensor Z 117%Z)))]
  /\ backward_losses _ _ _
       (trace _ _ _
              (fst (sample_body Sample.other_model Sample.teacher 0%nat sample_state)))
     = [LAdd Z (LMul Z (LAdd Z (LAdd Z (LInt Z 0) (LTensor Z 108%Z)) (LTensor Z 109%Z))
                       (LFloat Z 0.5))
               (LMul Z (LFloat Z 0.5)
                       (LAdd Z (LAdd Z (LInt Z 0) (LTensor Z 116%Z)) (LTensor Z 117%Z)))].
Proof. split; vm_compute; reflexivity. Qed.


Lemma C2_sample_teacher_leaves :
  leaves Z
    (loss_sum Z Sample.mean0 2
       (losses_of Z Sample.cuda Sample.teacher Sample.loss_factory sample_batch))
  = [116%Z; 117%Z].
Proof. reflexivity. Qed.

(** C3 is not what the code computes: on the sample batch the push loss of
    stage 1, whose heatmaps loss is [None], is not [None] itself, yet it is
    no part of the loss handed to [backward]. *)
Lemma C3_counterexample :
  backward_losses _ _ _
    (trace _ _ _ (fst (sample_body Sample.model Sample.teacher 0%nat sample_state)))
  <> [LAdd Z
        (LMul Z (claimed_loss_sum Z Sample.mean0 2
                   (losses_of Z Sample.cuda Sample.model Sample.loss_factory
                              sample_batch))
              (LFloat Z 0.5))
        (LMul Z (LFloat Z 0.5)
              (claimed_loss_sum Z Sample.mean0 2
                 (losses_of Z Sample.cuda Sample.teacher Sample.loss_factory
                            sample_batch)))]
  /\ In (Sample.mean0 77)
        (leaves Z (claimed_loss_sum Z Sample.mean0 2
                     (losses_of Z Sample.cuda Sample.model Sample.loss_factory
                                sample_batch)))
  /\ ~ In (Sample.mean0 77)
         (flat_map (leaves Z)
            (backward_losses _ _ _
               (trace _ _ _
                      (fst (sample_body Sample.model Sample.teacher 0%nat
                                        sample_state))))).
Proof.
  split; [|split].
  - vm_compute. intros H. discriminate H.
  - vm_compute. auto.
  - vm_compute. intros H. repeat destruct H as [H|H]; try discriminate H. exact H.
Qed.

Lemma C3_witness :
  meters_ok Z Z Sample.meter Sample.cfg sample_state
  /\ snd (sample_body Sample.model Sample.teacher 0%nat sample_state) = Ok tt
  /\ filter (is_optimizer _ _ _)
            (since _ _ _ []
                   (fst (sample_body Sample.model Sample.teacher 0%nat sample_state)))
     = [ev_zero_grad _ _ _;
        ev_backward _ _ _ false
          (LAdd Z
             (LMul Z (loss_sum Z Sample.mean0 2
                        (losses_of Z Sample.cuda Sample.model Sample.loss_factory
                                   sample_batch))
                   (LFloat Z 0.5))
             (LMul Z (LFloat Z 0.5)
                   (loss_sum Z Sample.mean0 2
                      (losses_of Z Sample.cuda Sample.teacher Sample.loss_factory
                                 sample_batch))));
        ev_step _ _ _].
Proof.
  split; [exact sample_meters_ok|]. split; [reflexivity|].
  exact (C3_blended_loss_backpropagated_once
           Z Z Sample.meter Sample.meter_new Sample.meter_update Sample.meter_update1 Sample.meter_val
           Sample.mean0 Sample.item Sample.size0 Sample.cuda Sample.clock
           Sample.scalar_sub Sample.scalar_is_zero Sample.speed_of Sample.cfg
           Sample.model Sample.loss_factory 3%Z "out" false 1%nat 0%nat
           Sample.images Sample.heatmaps Sample.masks Sample.joints
           Sample.teacher sample_state sample_meters_ok eq_refl).
Defined.

(** C4 is not what the code does: on a loader of two batches one call makes
    two student forward passes, two backward passes and two steps. *)
Lemma C4_counterexample :
  ~ single_iteration _ _ _
      (trace _ _ _ (fst (sample_do_train [sample_batch; sample_batch]))).
Proof. intros (H & _). vm_compute in H. discriminate H. Qed.

Lemma C4_witness :
  snd (sample_do_train [sample_batch; sample_batch]) = Ok tt
  /\ List.length
       (filter (is_step _ _ _)
               (since _ _ _ [] (fst (sample_do_train [sample_batch; sample_batch]))))
     = 2%nat.
Proof.
  split; [reflexivity|].
  pose proof (C4_one_iteration_per_batch
                Z Z Sample.meter Sample.meter_new Sample.meter_update Sample.meter_update1 Sample.meter_val
                Sample.mean0 Sample.item Sample.size0 Sample.cuda Sample.clock
                Sample.scalar_sub Sample.scalar_is_zero Sample.speed_of Sample.cfg
                Sample.model [sample_batch; sample_batch] Sample.loss_factory 3%Z "out"
                Sample.teacher false sample_state eq_refl) as H.
  cbv zeta in H. destruct H as (_ & _ & _ & H). exact H.
Defined.

Lemma C8_witness :
  (forall idx ht,
      nth_error [Some 6%Z; None] idx = Some (Some ht) ->
      nth_error [Some 7%Z; None] idx = nth_error [Some 7%Z; Some 77%Z] idx
      /\ nth_error [None; Some 88%Z] idx = nth_error [None; None] idx)
  /\ student_stage Z Z Sample.meter Sample.meter_update Sample.mean0 Sample.item
                   [Some 6%Z; None] [Some 7%Z; Some 77%Z] [None; None] 4%Z (LInt Z 0)
                   1%nat sample_state
     = (sample_state, Ok (LInt Z 0))
  /\ for_fold _ _ _ (student_stage Z Z Sample.meter Sample.meter_update Sample.mean0
                             Sample.item [Some 6%Z; None] [Some 7%Z; None]
                             [None; Some 88%Z] 4%Z)
              (range 2) (LInt Z 0) sample_state
     = for_fold _ _ _ (student_stage Z Z Sample.meter Sample.meter_update Sample.mean0
                               Sample.item [Some 6%Z; None] [Some 7%Z; Some 77%Z]
                               [None; None] 4%Z)
                (range 2) (LInt Z 0) sample_state.
Proof.
  assert (Hg : forall idx ht,
             nth_error [Some 6%Z; None] idx = Some (Some ht) ->
             nth_error [Some 7%Z; None] idx = nth_error [Some 7%Z; Some 77%Z] idx
             /\ nth_error [None; Some 88%Z] idx = nth_error [None; None] idx).
  { intros [|[|[|idx]]] ht H; simpl in H; try discriminate H.
    split; reflexivity. }
  split; [exact Hg|].
  pose proof (C8_push_pull_gated_by_heatmaps
                Z Z Sample.meter Sample.meter_update Sample.mean0 Sample.item
                [Some 6%Z; None] [Some 7%Z; Some 77%Z] [None; None]
                [Some 7%Z; None] [None; Some 88%Z] 4%Z 2%Z (LInt Z 0) sample_state Hg)
    as (H1 & H2 & _).
  split; [exact (proj1 (H1 1%nat eq_refl)) | exact H2].
Defined.


(** * The further properties on the sample run *)

Local Abbreviation short_loss_factory :=
  (fun _ _ _ _ : list Z =>
     (([Some 6%Z], [Some 7%Z], [None])
      : list (option Z) * list (option Z) * list (option Z))).

Local Abbreviation teacher_short_loss_factory :=
  (fun outputs _ _ _ : list Z =>
     (if (nth 0 outputs 0 =? 6)%Z
      then ([Some 6%Z; None], [Some 7%Z; None], [None; None])
      else ([Some 16%Z], [None], [None]))
     : list (option Z) * list (option Z) * list (option Z)).

Local Abbreviation rank_1_cfg :=
  {| LOSS := {| NUM_STAGES := 2 |};
     DATASET := {| OUTPUT_SIZE := [128; 256]%Z |};
     PRINT_FREQ := 2;
     RANK := 1 |}.

Local Abbreviation sample_body_with cfg loss_factory batch :=
  (loop_body Z Z Sample.meter Sample.meter_update Sample.meter_update1 Sample.meter_val Sample.mean0
             Sample.item Sample.size0 Sample.cuda Sample.clock Sample.scalar_sub
             Sample.scalar_is_zero Sample.speed_of cfg Sample.model
             loss_factory 3%Z "out" Sample.teacher false 1%nat (0%nat, batch)
             sample_state).

Local Abbreviation sample_do_train_with cfg data_loader :=
  (do_train Z Z Sample.meter Sample.meter_new Sample.meter_update Sample.meter_update1 Sample.meter_val
            Sample.mean0 Sample.item Sample.size0 Sample.cuda Sample.clock
            Sample.scalar_sub Sample.scalar_is_zero Sample.speed_of cfg Sample.model data_loader
            Sample.loss_factory 3%Z "out" Sample.teacher false sample_state).

(** A state in which [end] holds the reading the stopped clock gives. *)
Local Abbreviation stopped_state :=
  (mk_state Z Z Sample.meter [[]; []] [[]; []] [[]; []] 10%Z false true true []
            (mk_timers Z Sample.meter [] [] 1000%Z 0%nat)).

Local Abbreviation stopped_body :=
  (loop_body Z Z Sample.meter Sample.meter_update Sample.meter_update1 Sample.meter_val Sample.mean0
             Sample.item Sample.size0 Sample.cuda Sample.stopped_clock Sample.scalar_sub
             Sample.scalar_is_zero Sample.speed_of Sample.cfg Sample.model
             Sample.loss_factory 3%Z "out" Sample.teacher false 1%nat
             (0%nat, sample_batch) stopped_state).

Lemma backward_needs_a_heatmaps_loss_witness :
  covers Z 2 (losses_of Z Sample.cuda Sample.model Sample.no_loss_factory sample_batch)
  = true
  /\ snd (sample_body_with Sample.cfg Sample.no_loss_factory sample_batch)
     = Raise AttributeError.
Proof.
  split; [reflexivity|].
  pose proof (backward_needs_a_heatmaps_loss
                Z Z Sample.meter Sample.meter_new Sample.meter_update Sample.meter_update1 Sample.meter_val
                Sample.mean0 Sample.item Sample.size0 Sample.cuda Sample.clock
                Sample.scalar_sub Sample.scalar_is_zero Sample.speed_of Sample.cfg
                Sample.model Sample.no_loss_factory 3%Z "out" Sample.teacher 1%nat
                0%nat Sample.images Sample.heatmaps Sample.masks Sample.joints
                sample_state eq_refl eq_refl sample_meters_ok) as H.
  cbv zeta in H.
  match type of H with (if ?c then _ else _) => change c with false in H end.
  cbv iota in H. exact (proj1 H).
Defined.

Lemma print_freq_0_raises_after_first_step_witness :
  PRINT_FREQ Sample.cfg_print_freq_0 = 0%Z
  /\ train_ok Z Sample.mean0 Sample.cuda Sample.cfg_print_freq_0 Sample.model
              Sample.loss_factory Sample.teacher false sample_batch = true
  /\ snd (sample_do_train_with Sample.cfg_print_freq_0 [sample_batch; sample_batch])
     = Raise ZeroDivisionError
  /\ train_global_steps _ _ _
       (fst (sample_do_train_with Sample.cfg_print_freq_0 [sample_batch; sample_batch]))
     = 10%Z.
Proof.
  split; [reflexivity|]. split; [reflexivity|].
  pose proof (print_freq_0_raises_after_first_step
                Z Z Sample.meter Sample.meter_new Sample.meter_update Sample.meter_update1 Sample.meter_val
                Sample.mean0 Sample.item Sample.size0 Sample.cuda Sample.clock
                Sample.scalar_sub Sample.scalar_is_zero Sample.speed_of
                Sample.cfg_print_freq_0 Sample.model Sample.loss_factory 3%Z "out"
                Sample.teacher Sample.images Sample.heatmaps Sample.masks Sample.joints
                false [sample_batch] sample_state eq_refl eq_refl) as H.
  cbv zeta in H. destruct H as (H1 & _ & H2). split; [exact H1 | exact H2].
Defined.

Lemma short_student_losses_raise_witness :
  losses_of Z Sample.cuda Sample.model short_loss_factory sample_batch
  = ([Some 6%Z], [Some 7%Z], [None])
  /\ (1 < Z.to_nat (NUM_STAGES (LOSS Sample.cfg)))%nat
  /\ snd (sample_body_with Sample.cfg short_loss_factory sample_batch) = Raise IndexError
  /\ nth_error
       (heatmaps_loss_meter _ _ _
          (fst (sample_body_with Sample.cfg short_loss_factory sample_batch))) 0
     = Some [(106%Z, 4%Z)].
Proof.
  assert (L : (1 < Z.to_nat (NUM_STAGES (LOSS Sample.cfg)))%nat)
    by (apply Nat.ltb_lt; reflexivity).
  split; [reflexivity|]. split; [exact L|].
  pose proof (short_student_losses_raise
                Z Z Sample.meter Sample.meter_update Sample.meter_update1 Sample.meter_val Sample.mean0
                Sample.item Sample.size0 Sample.cuda Sample.clock Sample.scalar_sub
                Sample.scalar_is_zero Sample.speed_of Sample.cfg Sample.model
                short_loss_factory 3%Z "out" Sample.teacher 1%nat 0%nat Sample.images
                Sample.heatmaps Sample.masks Sample.joints false
                [Some 6%Z] [Some 7%Z] [None] sample_state eq_refl L
                (le_n 1) (le_n 1) sample_meters_ok) as H.
  cbv zeta in H. destruct H as (H1 & _ & H2).
  split; [exact H1 | exact (H2 Heatmaps 0%nat)].
Defined.

Lemma short_teacher_losses_raise_witness :
  covers Z 2 (losses_of Z Sample.cuda Sample.model teacher_short_loss_factory
                        sample_batch) = true
  /\ losses_of Z Sample.cuda Sample.teacher teacher_short_loss_factory sample_batch
     = ([Some 16%Z], [None], [None])
  /\ snd (sample_body_with Sample.cfg teacher_short_loss_factory sample_batch)
     = Raise IndexError
  /\ nth_error
       (push_loss_meter _ _ _
          (fst (sample_body_with Sample.cfg teacher_short_loss_factory sample_batch))) 0
     = Some [(107%Z, 4%Z)].
Proof.
  assert (L : (1 < Z.to_nat (NUM_STAGES (LOSS Sample.cfg)))%nat)
    by (apply Nat.ltb_lt; reflexivity).
  split; [reflexivity|]. split; [reflexivity|].
  pose proof (short_teacher_losses_raise
                Z Z Sample.meter Sample.meter_new Sample.meter_update Sample.meter_update1 Sample.meter_val
                Sample.mean0 Sample.item Sample.size0 Sample.cuda Sample.clock
                Sample.scalar_sub Sample.scalar_is_zero Sample.speed_of Sample.cfg
                Sample.model teacher_short_loss_factory 3%Z "out" Sample.teacher 1%nat
                0%nat Sample.images Sample.heatmaps Sample.masks Sample.joints false
                [Some 16%Z] [None] [None] sample_state eq_refl eq_refl L
                (le_n 1) (le_n 1) sample_meters_ok) as H.
  cbv zeta in H. destruct H as (H1 & _ & H2).
  split; [exact H1 | exact (H2 Push 0%nat)].
Defined.

Lemma failed_image_save_keeps_the_step_witness :
  train_ok Z Sample.mean0 Sample.cuda Sample.cfg Sample.model Sample.loss_factory
           Sample.teacher false (Sample.images, [51%Z], Sample.masks, Sample.joints)
  = true
  /\ logs_at Sample.cfg 0 = true
  /\ speed_defined Z Sample.meter Sample.meter_val Sample.scalar_is_zero
       (timed Z Sample.meter Sample.meter_update1 Sample.clock Sample.scalar_sub
              (timing _ _ _ sample_state)) = true
  /\ (scales_available Z Sample.cfg [51%Z] Sample.masks
      < List.length (Sample.model Sample.images))%nat
  /\ snd (sample_body_with Sample.cfg Sample.loss_factory
                           (Sample.images, [51%Z], Sample.masks, Sample.joints))
     = Raise IndexError
  /\ train_global_steps _ _ _
       (fst (sample_body_with Sample.cfg Sample.loss_factory
                              (Sample.images, [51%Z], Sample.masks, Sample.joints)))
     = 11%Z.
Proof.
  assert (L : (scales_available Z Sample.cfg [51%Z] Sample.masks
               < List.length (Sample.model Sample.images))%nat)
    by (apply Nat.ltb_lt; reflexivity).
  assert (F : PRINT_FREQ Sample.cfg <> 0%Z) by discriminate.
  split; [reflexivity|]. split; [reflexivity|]. split; [reflexivity|].
  split; [exact L|].
  pose proof (failed_image_save_keeps_the_step
                Z Z Sample.meter Sample.meter_new Sample.meter_update Sample.meter_update1 Sample.meter_val
                Sample.mean0 Sample.item Sample.size0 Sample.cuda Sample.clock
                Sample.scalar_sub Sample.scalar_is_zero Sample.speed_of Sample.cfg
                Sample.model Sample.loss_factory 3%Z "out" Sample.teacher false 1%nat
                0%nat Sample.images [51%Z] Sample.masks Sample.joints sample_state
                eq_refl F eq_refl sample_meters_ok eq_refl L) as H.
  cbv zeta in H. destruct H as (H1 & H2 & _). split; [exact H1 | exact H2].
Defined.

Lemma zero_batch_time_raises_before_logging_witness :
  train_ok Z Sample.mean0 Sample.cuda Sample.cfg Sample.model Sample.loss_factory
           Sample.teacher false sample_batch = true
  /\ logs_at Sample.cfg 0 = true
  /\ speed_defined Z Sample.meter Sample.meter_val Sample.scalar_is_zero
       (timed Z Sample.meter Sample.meter_update1 Sample.stopped_clock Sample.scalar_sub
              (timing _ _ _ stopped_state)) = false
  /\ snd stopped_body = Raise ZeroDivisionError
  /\ train_global_steps _ _ _ (fst stopped_body) = 10%Z.
Proof.
  assert (F : PRINT_FREQ Sample.cfg <> 0%Z) by discriminate.
  split; [reflexivity|]. split; [reflexivity|]. split; [reflexivity|].
  pose proof (zero_batch_time_raises_before_logging
                Z Z Sample.meter Sample.meter_new Sample.meter_update Sample.meter_update1 Sample.meter_val
                Sample.mean0 Sample.item Sample.size0 Sample.cuda Sample.stopped_clock
                Sample.scalar_sub Sample.scalar_is_zero Sample.speed_of Sample.cfg
                Sample.model Sample.loss_factory 3%Z "out" Sample.teacher false 1%nat
                0%nat Sample.images Sample.heatmaps Sample.masks Sample.joints
                stopped_state eq_refl F eq_refl sample_meters_ok eq_refl) as H.
  cbv zeta in H. destruct H as (H1 & _ & H2). split; [exact H1 | exact H2].
Defined.

Lemma scalars_show_meters_after_update_witness :
  meters_ok Z Z Sample.meter Sample.cfg sample_state
  /\ filter (is_log_info _ _ _)
            (since _ _ _ []
                   (fst (sample_body Sample.model Sample.teacher 0%nat sample_state)))
     <> []
  /\ nth_error (meters_of _ _ _ Heatmaps sample_state) 0 = Some []
  /\ nth_error
       (scalar_values _ _ _
          (since _ _ _ []
                 (fst (sample_body Sample.model Sample.teacher 0%nat sample_state))))
       0
     = Some 106%Z.
Proof.
  assert (Hlog : filter (is_log_info _ _ _)
                        (since _ _ _ []
                               (fst (sample_body Sample.model Sample.teacher 0%nat
                                                 sample_state))) <> [])
    by (vm_compute; discriminate).
  split; [exact sample_meters_ok|]. split; [exact Hlog|]. split; [reflexivity|].
  exact (scalars_show_meters_after_update
           Z Z Sample.meter Sample.meter_new Sample.meter_update Sample.meter_update1 Sample.meter_val
           Sample.mean0 Sample.item Sample.size0 Sample.cuda Sample.clock
           Sample.scalar_sub Sample.scalar_is_zero Sample.speed_of Sample.cfg Sample.model
           Sample.loss_factory 3%Z "out" Sample.teacher false 1%nat 0%nat Sample.images
           Sample.heatmaps Sample.masks Sample.joints sample_state Heatmaps 0%nat []
           sample_meters_ok Hlog eq_refl).
Defined.

Lemma other_ranks_report_nothing_witness :
  RANK rank_1_cfg <> 0%Z
  /\ filter (is_report _ _ _)
            (since _ _ _ []
                   (fst (sample_do_train_with rank_1_cfg [sample_batch; sample_batch])))
     = []
  /\ train_global_steps _ _ _
       (fst (sample_do_train_with rank_1_cfg [sample_batch; sample_batch]))
     = 10%Z.
Proof.
  assert (R : RANK rank_1_cfg <> 0%Z) by discriminate.
  split; [exact R|].
  exact (other_ranks_report_nothing
           Z Z Sample.meter Sample.meter_new Sample.meter_update Sample.meter_update1 Sample.meter_val
           Sample.mean0 Sample.item Sample.size0 Sample.cuda Sample.clock
           Sample.scalar_sub Sample.scalar_is_zero Sample.speed_of rank_1_cfg Sample.model
           [sample_batch; sample_batch] Sample.loss_factory 3%Z "out" Sample.teacher
           false sample_state R).
Defined.

Lemma global_steps_count_logging_iterations_witness :
  snd (sample_do_train_with Sample.cfg [sample_batch; sample_batch; sample_batch])
  = Ok tt
  /\ train_global_steps _ _ _
       (fst (sample_do_train_with Sample.cfg [sample_batch; sample_batch; sample_batch]))
     = 12%Z.
Proof.
  split; [reflexivity|].
  pose proof (global_steps_count_logging_iterations
                Z Z Sample.meter Sample.meter_new Sample.meter_update Sample.meter_update1 Sample.meter_val
                Sample.mean0 Sample.item Sample.size0 Sample.cuda Sample.clock
                Sample.scalar_sub Sample.scalar_is_zero Sample.speed_of Sample.cfg
                Sample.model [sample_batch; sample_batch; sample_batch]
                Sample.loss_factory 3%Z "out" Sample.teacher false sample_state eq_refl)
    as H.
  cbv zeta in H. exact (proj1 H).
Defined.

Lemma rank_0_steps_closed_form_witness :
  RANK Sample.cfg = 0%Z
  /\ (0 < PRINT_FREQ Sample.cfg)%Z
  /\ snd (sample_do_train_with Sample.cfg [sample_batch; sample_batch; sample_batch])
     = Ok tt
  /\ train_global_steps _ _ _
       (fst (sample_do_train_with Sample.cfg [sample_batch; sample_batch; sample_batch]))
     = (10 + (3 + 2 - 1) / 2)%Z.
Proof.
  split; [reflexivity|]. split; [reflexivity|]. split; [reflexivity|].
  exact (rank_0_steps_closed_form
           Z Z Sample.meter Sample.meter_new Sample.meter_update Sample.meter_update1 Sample.meter_val
           Sample.mean0 Sample.item Sample.size0 Sample.cuda Sample.clock
           Sample.scalar_sub Sample.scalar_is_zero Sample.speed_of Sample.cfg Sample.model
           [sample_batch; sample_batch; sample_batch] Sample.loss_factory 3%Z "out"
           Sample.teacher false sample_state eq_refl eq_refl eq_refl).
Defined.

(** The debug images of the second output scale at batch index 0, saved in
    epoch 3 and again in epoch 4, go under one and the same prefix. *)
Lemma debug_image_prefixes_by_index_and_size_witness :
  meters_ok Z Z Sample.meter Sample.cfg sample_state
  /\ nth_error
       (image_prefixes _ _ _
          (since _ _ _ []
                 (fst (sample_body Sample.model Sample.teacher 0%nat sample_state))))
       1
     = Some "out/train_0_output_256"
  /\ nth_error
       (image_prefixes _ _ _
          (since _ _ _ []
                 (fst (loop_body Z Z Sample.meter Sample.meter_update Sample.meter_update1 Sample.meter_val Sample.mean0
                          Sample.item Sample.size0 Sample.cuda Sample.clock Sample.scalar_sub
                          Sample.scalar_is_zero Sample.speed_of
                                 Sample.cfg Sample.other_model Sample.loss_factory 4%Z
                                 "out" Sample.other_teacher false 2%nat
                                 (0%nat, sample_batch) sample_state))))
       1
     = Some "out/train_0_output_256"
  /\ ("out/train_0_output_256" = "out/train_0_output_256"
      <-> 0%nat = 0%nat
          /\ nth 1 (OUTPUT_SIZE (DATASET Sample.cfg)) 0%Z
             = nth 1 (OUTPUT_SIZE (DATASET Sample.cfg)) 0%Z).
Proof.
  split; [exact sample_meters_ok|]. split; [reflexivity|]. split; [reflexivity|].
  exact (proj2 (proj2 (debug_image_prefixes_by_index_and_size
                         Z Z Sample.meter Sample.meter_new Sample.meter_update Sample.meter_update1 Sample.meter_val
                         Sample.mean0 Sample.item Sample.size0 Sample.cuda Sample.clock
                         Sample.scalar_sub Sample.scalar_is_zero Sample.speed_of
                         Sample.cfg "out"
                         Sample.model Sample.loss_factory 3%Z Sample.teacher false 1%nat
                         0%nat sample_batch sample_state 1%nat "out/train_0_output_256"
                         Sample.other_model Sample.loss_factory 4%Z Sample.other_teacher
                         false 2%nat 0%nat sample_batch sample_state 1%nat
                         "out/train_0_output_256"
                         sample_meters_ok sample_meters_ok eq_refl eq_refl))).
Defined.

(** At another batch index the prefix differs. *)
Example sample_prefixes_differ_by_index :
  image_prefixes _ _ _
    (trace _ _ _ (fst (sample_body Sample.model Sample.teacher 2%nat sample_state)))
  = ["out/train_2_output_128"; "out/train_2_output_256"].
Proof. vm_compute. reflexivity. Qed.
